(** * services.py: punch recording, punch correction and bulk import

    A shallow embedding of [services.py].

    - Text is the UTF-8 encoding of a Python [str] ([string]); [lower],
      [strip] and the digits of [re], [int] and [strptime] are those of
      Unicode, read off the tables of the Unicode Character Database.
      Integers are [Z].  The parameters of a statement and the texts of the
      store are texts PostgreSQL can hold: what psycopg2 does with a NUL
      character is outside the model, and a statement below that depends on
      it assumes [sem_nul].
    - The store is three lists of rows, the tables of [init_db], with their
      primary keys, foreign keys and the unique company name checked on
      insert.  A connection works on a copy of the committed tables that
      [commit] makes the committed ones and [close] drops; one client at a
      time.
    - The operations run in a state-and-exception monad.  An oracle in the
      state says, for each access to the store in turn, whether the store
      fails there, so that a statement about an operation holds under every
      schedule of failures.
    - Rows come out of a cursor in the shape its factory gives them: the
      connection of [get_db_connection] is opened with [RealDictCursor], and
      [atualizar_registro] asks for a [DictCursor].
    - The clock is an argument: an operation receives the instants that
      [datetime.now(FUSO_HORARIO)] hands it.  The values of [config.py] and
      the digest of [hashlib] are parameters.  What [print] writes is left
      out. *)

From Stdlib Require Import ZArith List String Ascii Bool Lia DecimalString.
Import ListNotations.
Local Open Scope string_scope.
Local Open Scope Z_scope.

(** ** Text (Python [str] methods, [re] and [int], on UTF-8 text) *)

Module Texto.

(** *** UTF-8: from bytes to code points and back *)

Definition byte_de (c : ascii) : Z := Z.of_N (N_of_ascii c).

Definition ascii_de (n : Z) : ascii := ascii_of_N (Z.to_N n).

Definition continua (c : ascii) : bool :=
  (128 <=? byte_de c) && (byte_de c <=? 191).

Definition baixo (c : ascii) : Z := byte_de c - 128.

(** The code points a byte string encodes.  A byte that starts no
    well-formed sequence stands for itself, as the code point [U+DC00 + b]
    (Python's [surrogateescape]), so that no byte is lost. *)
Fixpoint decode (s : string) : list Z :=
  match s with
  | EmptyString => []
  | String a r =>
      let n := byte_de a in
      if n <? 128 then n :: decode r
      else
        match r with
        | String b r2 =>
            if (194 <=? n) && (n <=? 223) && continua b
            then ((n - 192) * 64 + baixo b) :: decode r2
            else
              match r2 with
              | String c r3 =>
                  let p3 := (n - 224) * 4096 + baixo b * 64 + baixo c in
                  if (224 <=? n) && (n <=? 239) && continua b && continua c
                     && (0x800 <=? p3)
                     && negb ((0xD800 <=? p3) && (p3 <=? 0xDFFF))
                  then p3 :: decode r3
                  else
                    match r3 with
                    | String d r4 =>
                        let p4 := (n - 240) * 262144 + baixo b * 4096
                                  + baixo c * 64 + baixo d in
                        if (240 <=? n) && (n <=? 244) && continua b
                           && continua c && continua d
                           && (0x10000 <=? p4) && (p4 <=? 0x10FFFF)
                        then p4 :: decode r4
                        else (0xDC00 + n) :: decode r
                    | EmptyString => (0xDC00 + n) :: decode r
                    end
              | EmptyString => (0xDC00 + n) :: decode r
              end
        | EmptyString => [0xDC00 + n]
        end
  end.

Definition encode_ponto (c : Z) : string :=
  if c <? 0x80 then String (ascii_de c) EmptyString
  else if c <? 0x800
  then String (ascii_de (192 + c / 64))
         (String (ascii_de (128 + c mod 64)) EmptyString)
  else if (0xDC80 <=? c) && (c <=? 0xDCFF)
  then String (ascii_de (c - 0xDC00)) EmptyString
  else if c <? 0x10000
  then String (ascii_de (224 + c / 4096))
         (String (ascii_de (128 + (c / 64) mod 64))
            (String (ascii_de (128 + c mod 64)) EmptyString))
  else String (ascii_de (240 + c / 262144))
         (String (ascii_de (128 + (c / 4096) mod 64))
            (String (ascii_de (128 + (c / 64) mod 64))
               (String (ascii_de (128 + c mod 64)) EmptyString))).

Fixpoint encode (l : list Z) : string :=
  match l with
  | [] => EmptyString
  | c :: r => encode_ponto c ++ encode r
  end.

(** *** Tables of the Unicode Character Database

    As CPython 3.11 carries them (Unicode 14.0): the decimal digits
    (category Nd, in runs of ten from the digit zero), the characters of
    [str.isspace], the simple lower-case mappings (runs [(first, last, step,
    offset)]), and the properties Cased and Case_Ignorable that the rule of
    the final sigma reads. *)

Definition Nd : list Z :=
  [
   0x30; 0x660; 0x6F0; 0x7C0; 0x966; 0x9E6; 0xA66; 0xAE6;
   0xB66; 0xBE6; 0xC66; 0xCE6; 0xD66; 0xDE6; 0xE50; 0xED0;
   0xF20; 0x1040; 0x1090; 0x17E0; 0x1810; 0x1946; 0x19D0; 0x1A80;
   0x1A90; 0x1B50; 0x1BB0; 0x1C40; 0x1C50; 0xA620; 0xA8D0; 0xA900;
   0xA9D0; 0xA9F0; 0xAA50; 0xABF0; 0xFF10; 0x104A0; 0x10D30; 0x11066;
   0x110F0; 0x11136; 0x111D0; 0x112F0; 0x11450; 0x114D0; 0x11650; 0x116C0;
   0x11730; 0x118E0; 0x11950; 0x11C50; 0x11D50; 0x11DA0; 0x16A60; 0x16AC0;
   0x16B50; 0x1D7CE; 0x1D7D8; 0x1D7E2; 0x1D7EC; 0x1D7F6; 0x1E140; 0x1E2F0;
   0x1E950; 0x1FBF0
  ].

Definition espacos : list (Z * Z) :=
  [
   (0x9, 0xD); (0x1C, 0x20); (0x85, 0x85); (0xA0, 0xA0);
   (0x1680, 0x1680); (0x2000, 0x200A); (0x2028, 0x2029); (0x202F, 0x202F);
   (0x205F, 0x205F); (0x3000, 0x3000)
  ].

Definition minusculas : list (Z * Z * Z * Z) :=
  [
   (0x41, 0x5A, 1, 32); (0xC0, 0xD6, 1, 32); (0xD8, 0xDE, 1, 32);
   (0x100, 0x12E, 2, 1); (0x132, 0x136, 2, 1); (0x139, 0x147, 2, 1);
   (0x14A, 0x176, 2, 1); (0x178, 0x178, 1, -121); (0x179, 0x17D, 2, 1);
   (0x181, 0x181, 1, 210); (0x182, 0x184, 2, 1); (0x186, 0x186, 1, 206);
   (0x187, 0x187, 1, 1); (0x189, 0x18A, 1, 205); (0x18B, 0x18B, 1, 1);
   (0x18E, 0x18E, 1, 79); (0x18F, 0x18F, 1, 202); (0x190, 0x190, 1, 203);
   (0x191, 0x191, 1, 1); (0x193, 0x193, 1, 205); (0x194, 0x194, 1, 207);
   (0x196, 0x196, 1, 211); (0x197, 0x197, 1, 209); (0x198, 0x198, 1, 1);
   (0x19C, 0x19C, 1, 211); (0x19D, 0x19D, 1, 213); (0x19F, 0x19F, 1, 214);
   (0x1A0, 0x1A4, 2, 1); (0x1A6, 0x1A6, 1, 218); (0x1A7, 0x1A7, 1, 1);
   (0x1A9, 0x1A9, 1, 218); (0x1AC, 0x1AC, 1, 1); (0x1AE, 0x1AE, 1, 218);
   (0x1AF, 0x1AF, 1, 1); (0x1B1, 0x1B2, 1, 217); (0x1B3, 0x1B5, 2, 1);
   (0x1B7, 0x1B7, 1, 219); (0x1B8, 0x1B8, 1, 1); (0x1BC, 0x1BC, 1, 1);
   (0x1C4, 0x1C4, 1, 2); (0x1C5, 0x1C5, 1, 1); (0x1C7, 0x1C7, 1, 2);
   (0x1C8, 0x1C8, 1, 1); (0x1CA, 0x1CA, 1, 2); (0x1CB, 0x1DB, 2, 1);
   (0x1DE, 0x1EE, 2, 1); (0x1F1, 0x1F1, 1, 2); (0x1F2, 0x1F4, 2, 1);
   (0x1F6, 0x1F6, 1, -97); (0x1F7, 0x1F7, 1, -56); (0x1F8, 0x21E, 2, 1);
   (0x220, 0x220, 1, -130); (0x222, 0x232, 2, 1); (0x23A, 0x23A, 1, 10795);
   (0x23B, 0x23B, 1, 1); (0x23D, 0x23D, 1, -163); (0x23E, 0x23E, 1, 10792);
   (0x241, 0x241, 1, 1); (0x243, 0x243, 1, -195); (0x244, 0x244, 1, 69);
   (0x245, 0x245, 1, 71); (0x246, 0x24E, 2, 1); (0x370, 0x372, 2, 1);
   (0x376, 0x376, 1, 1); (0x37F, 0x37F, 1, 116); (0x386, 0x386, 1, 38);
   (0x388, 0x38A, 1, 37); (0x38C, 0x38C, 1, 64); (0x38E, 0x38F, 1, 63);
   (0x391, 0x3A1, 1, 32); (0x3A3, 0x3AB, 1, 32); (0x3CF, 0x3CF, 1, 8);
   (0x3D8, 0x3EE, 2, 1); (0x3F4, 0x3F4, 1, -60); (0x3F7, 0x3F7, 1, 1);
   (0x3F9, 0x3F9, 1, -7); (0x3FA, 0x3FA, 1, 1); (0x3FD, 0x3FF, 1, -130);
   (0x400, 0x40F, 1, 80); (0x410, 0x42F, 1, 32); (0x460, 0x480, 2, 1);
   (0x48A, 0x4BE, 2, 1); (0x4C0, 0x4C0, 1, 15); (0x4C1, 0x4CD, 2, 1);
   (0x4D0, 0x52E, 2, 1); (0x531, 0x556, 1, 48); (0x10A0, 0x10C5, 1, 7264);
   (0x10C7, 0x10C7, 1, 7264); (0x10CD, 0x10CD, 1, 7264); (0x13A0, 0x13EF, 1, 38864);
   (0x13F0, 0x13F5, 1, 8); (0x1C90, 0x1CBA, 1, -3008); (0x1CBD, 0x1CBF, 1, -3008);
   (0x1E00, 0x1E94, 2, 1); (0x1E9E, 0x1E9E, 1, -7615); (0x1EA0, 0x1EFE, 2, 1);
   (0x1F08, 0x1F0F, 1, -8); (0x1F18, 0x1F1D, 1, -8); (0x1F28, 0x1F2F, 1, -8);
   (0x1F38, 0x1F3F, 1, -8); (0x1F48, 0x1F4D, 1, -8); (0x1F59, 0x1F5F, 2, -8);
   (0x1F68, 0x1F6F, 1, -8); (0x1F88, 0x1F8F, 1, -8); (0x1F98, 0x1F9F, 1, -8);
   (0x1FA8, 0x1FAF, 1, -8); (0x1FB8, 0x1FB9, 1, -8); (0x1FBA, 0x1FBB, 1, -74);
   (0x1FBC, 0x1FBC, 1, -9); (0x1FC8, 0x1FCB, 1, -86); (0x1FCC, 0x1FCC, 1, -9);
   (0x1FD8, 0x1FD9, 1, -8); (0x1FDA, 0x1FDB, 1, -100); (0x1FE8, 0x1FE9, 1, -8);
   (0x1FEA, 0x1FEB, 1, -112); (0x1FEC, 0x1FEC, 1, -7); (0x1FF8, 0x1FF9, 1, -128);
   (0x1FFA, 0x1FFB, 1, -126); (0x1FFC, 0x1FFC, 1, -9); (0x2126, 0x2126, 1, -7517);
   (0x212A, 0x212A, 1, -8383); (0x212B, 0x212B, 1, -8262); (0x2132, 0x2132, 1, 28);
   (0x2160, 0x216F, 1, 16); (0x2183, 0x2183, 1, 1); (0x24B6, 0x24CF, 1, 26);
   (0x2C00, 0x2C2F, 1, 48); (0x2C60, 0x2C60, 1, 1); (0x2C62, 0x2C62, 1, -10743);
   (0x2C63, 0x2C63, 1, -3814); (0x2C64, 0x2C64, 1, -10727); (0x2C67, 0x2C6B, 2, 1);
   (0x2C6D, 0x2C6D, 1, -10780); (0x2C6E, 0x2C6E, 1, -10749); (0x2C6F, 0x2C6F, 1, -10783);
   (0x2C70, 0x2C70, 1, -10782); (0x2C72, 0x2C72, 1, 1); (0x2C75, 0x2C75, 1, 1);
   (0x2C7E, 0x2C7F, 1, -10815); (0x2C80, 0x2CE2, 2, 1); (0x2CEB, 0x2CED, 2, 1);
   (0x2CF2, 0x2CF2, 1, 1); (0xA640, 0xA66C, 2, 1); (0xA680, 0xA69A, 2, 1);
   (0xA722, 0xA72E, 2, 1); (0xA732, 0xA76E, 2, 1); (0xA779, 0xA77B, 2, 1);
   (0xA77D, 0xA77D, 1, -35332); (0xA77E, 0xA786, 2, 1); (0xA78B, 0xA78B, 1, 1);
   (0xA78D, 0xA78D, 1, -42280); (0xA790, 0xA792, 2, 1); (0xA796, 0xA7A8, 2, 1);
   (0xA7AA, 0xA7AA, 1, -42308); (0xA7AB, 0xA7AB, 1, -42319); (0xA7AC, 0xA7AC, 1, -42315);
   (0xA7AD, 0xA7AD, 1, -42305); (0xA7AE, 0xA7AE, 1, -42308); (0xA7B0, 0xA7B0, 1, -42258);
   (0xA7B1, 0xA7B1, 1, -42282); (0xA7B2, 0xA7B2, 1, -42261); (0xA7B3, 0xA7B3, 1, 928);
   (0xA7B4, 0xA7C2, 2, 1); (0xA7C4, 0xA7C4, 1, -48); (0xA7C5, 0xA7C5, 1, -42307);
   (0xA7C6, 0xA7C6, 1, -35384); (0xA7C7, 0xA7C9, 2, 1); (0xA7D0, 0xA7D0, 1, 1);
   (0xA7D6, 0xA7D8, 2, 1); (0xA7F5, 0xA7F5, 1, 1); (0xFF21, 0xFF3A, 1, 32);
   (0x10400, 0x10427, 1, 40); (0x104B0, 0x104D3, 1, 40); (0x10570, 0x1057A, 1, 39);
   (0x1057C, 0x1058A, 1, 39); (0x1058C, 0x10592, 1, 39); (0x10594, 0x10595, 1, 39);
   (0x10C80, 0x10CB2, 1, 64); (0x118A0, 0x118BF, 1, 32); (0x16E40, 0x16E5F, 1, 32);
   (0x1E900, 0x1E921, 1, 34)
  ].

Definition Cased : list (Z * Z) :=
  [
   (0x41, 0x5A); (0x61, 0x7A); (0xAA, 0xAA); (0xB5, 0xB5);
   (0xBA, 0xBA); (0xC0, 0xD6); (0xD8, 0xF6); (0xF8, 0x1BA);
   (0x1BC, 0x1BF); (0x1C4, 0x293); (0x295, 0x2B8); (0x2C0, 0x2C1);
   (0x2E0, 0x2E4); (0x345, 0x345); (0x370, 0x373); (0x376, 0x377);
   (0x37A, 0x37D); (0x37F, 0x37F); (0x386, 0x386); (0x388, 0x38A);
   (0x38C, 0x38C); (0x38E, 0x3A1); (0x3A3, 0x3F5); (0x3F7, 0x481);
   (0x48A, 0x52F); (0x531, 0x556); (0x560, 0x588); (0x10A0, 0x10C5);
   (0x10C7, 0x10C7); (0x10CD, 0x10CD); (0x10D0, 0x10FA); (0x10FD, 0x10FF);
   (0x13A0, 0x13F5); (0x13F8, 0x13FD); (0x1C80, 0x1C88); (0x1C90, 0x1CBA);
   (0x1CBD, 0x1CBF); (0x1D00, 0x1DBF); (0x1E00, 0x1F15); (0x1F18, 0x1F1D);
   (0x1F20, 0x1F45); (0x1F48, 0x1F4D); (0x1F50, 0x1F57); (0x1F59, 0x1F59);
   (0x1F5B, 0x1F5B); (0x1F5D, 0x1F5D); (0x1F5F, 0x1F7D); (0x1F80, 0x1FB4);
   (0x1FB6, 0x1FBC); (0x1FBE, 0x1FBE); (0x1FC2, 0x1FC4); (0x1FC6, 0x1FCC);
   (0x1FD0, 0x1FD3); (0x1FD6, 0x1FDB); (0x1FE0, 0x1FEC); (0x1FF2, 0x1FF4);
   (0x1FF6, 0x1FFC); (0x2071, 0x2071); (0x207F, 0x207F); (0x2090, 0x209C);
   (0x2102, 0x2102); (0x2107, 0x2107); (0x210A, 0x2113); (0x2115, 0x2115);
   (0x2119, 0x211D); (0x2124, 0x2124); (0x2126, 0x2126); (0x2128, 0x2128);
   (0x212A, 0x212D); (0x212F, 0x2134); (0x2139, 0x2139); (0x213C, 0x213F);
   (0x2145, 0x2149); (0x214E, 0x214E); (0x2160, 0x217F); (0x2183, 0x2184);
   (0x24B6, 0x24E9); (0x2C00, 0x2CE4); (0x2CEB, 0x2CEE); (0x2CF2, 0x2CF3);
   (0x2D00, 0x2D25); (0x2D27, 0x2D27); (0x2D2D, 0x2D2D); (0xA640, 0xA66D);
   (0xA680, 0xA69D); (0xA722, 0xA787); (0xA78B, 0xA78E); (0xA790, 0xA7CA);
   (0xA7D0, 0xA7D1); (0xA7D3, 0xA7D3); (0xA7D5, 0xA7D9); (0xA7F5, 0xA7F6);
   (0xA7F8, 0xA7FA); (0xAB30, 0xAB5A); (0xAB5C, 0xAB68); (0xAB70, 0xABBF);
   (0xFB00, 0xFB06); (0xFB13, 0xFB17); (0xFF21, 0xFF3A); (0xFF41, 0xFF5A);
   (0x10400, 0x1044F); (0x104B0, 0x104D3); (0x104D8, 0x104FB); (0x10570, 0x1057A);
   (0x1057C, 0x1058A); (0x1058C, 0x10592); (0x10594, 0x10595); (0x10597, 0x105A1);
   (0x105A3, 0x105B1); (0x105B3, 0x105B9); (0x105BB, 0x105BC); (0x10780, 0x10780);
   (0x10783, 0x10785); (0x10787, 0x107B0); (0x107B2, 0x107BA); (0x10C80, 0x10CB2);
   (0x10CC0, 0x10CF2); (0x118A0, 0x118DF); (0x16E40, 0x16E7F); (0x1D400, 0x1D454);
   (0x1D456, 0x1D49C); (0x1D49E, 0x1D49F); (0x1D4A2, 0x1D4A2); (0x1D4A5, 0x1D4A6);
   (0x1D4A9, 0x1D4AC); (0x1D4AE, 0x1D4B9); (0x1D4BB, 0x1D4BB); (0x1D4BD, 0x1D4C3);
   (0x1D4C5, 0x1D505); (0x1D507, 0x1D50A); (0x1D50D, 0x1D514); (0x1D516, 0x1D51C);
   (0x1D51E, 0x1D539); (0x1D53B, 0x1D53E); (0x1D540, 0x1D544); (0x1D546, 0x1D546);
   (0x1D54A, 0x1D550); (0x1D552, 0x1D6A5); (0x1D6A8, 0x1D6C0); (0x1D6C2, 0x1D6DA);
   (0x1D6DC, 0x1D6FA); (0x1D6FC, 0x1D714); (0x1D716, 0x1D734); (0x1D736, 0x1D74E);
   (0x1D750, 0x1D76E); (0x1D770, 0x1D788); (0x1D78A, 0x1D7A8); (0x1D7AA, 0x1D7C2);
   (0x1D7C4, 0x1D7CB); (0x1DF00, 0x1DF09); (0x1DF0B, 0x1DF1E); (0x1E900, 0x1E943);
   (0x1F130, 0x1F149); (0x1F150, 0x1F169); (0x1F170, 0x1F189)
  ].

Definition Case_Ignorable : list (Z * Z) :=
  [
   (0x27, 0x27); (0x2E, 0x2E); (0x3A, 0x3A); (0x5E, 0x5E);
   (0x60, 0x60); (0xA8, 0xA8); (0xAD, 0xAD); (0xAF, 0xAF);
   (0xB4, 0xB4); (0xB7, 0xB8); (0x2B0, 0x36F); (0x374, 0x375);
   (0x37A, 0x37A); (0x384, 0x385); (0x387, 0x387); (0x483, 0x489);
   (0x559, 0x559); (0x55F, 0x55F); (0x591, 0x5BD); (0x5BF, 0x5BF);
   (0x5C1, 0x5C2); (0x5C4, 0x5C5); (0x5C7, 0x5C7); (0x5F4, 0x5F4);
   (0x600, 0x605); (0x610, 0x61A); (0x61C, 0x61C); (0x640, 0x640);
   (0x64B, 0x65F); (0x670, 0x670); (0x6D6, 0x6DD); (0x6DF, 0x6E8);
   (0x6EA, 0x6ED); (0x70F, 0x70F); (0x711, 0x711); (0x730, 0x74A);
   (0x7A6, 0x7B0); (0x7EB, 0x7F5); (0x7FA, 0x7FA); (0x7FD, 0x7FD);
   (0x816, 0x82D); (0x859, 0x85B); (0x888, 0x888); (0x890, 0x891);
   (0x898, 0x89F); (0x8C9, 0x902); (0x93A, 0x93A); (0x93C, 0x93C);
   (0x941, 0x948); (0x94D, 0x94D); (0x951, 0x957); (0x962, 0x963);
   (0x971, 0x971); (0x981, 0x981); (0x9BC, 0x9BC); (0x9C1, 0x9C4);
   (0x9CD, 0x9CD); (0x9E2, 0x9E3); (0x9FE, 0x9FE); (0xA01, 0xA02);
   (0xA3C, 0xA3C); (0xA41, 0xA42); (0xA47, 0xA48); (0xA4B, 0xA4D);
   (0xA51, 0xA51); (0xA70, 0xA71); (0xA75, 0xA75); (0xA81, 0xA82);
   (0xABC, 0xABC); (0xAC1, 0xAC5); (0xAC7, 0xAC8); (0xACD, 0xACD);
   (0xAE2, 0xAE3); (0xAFA, 0xAFF); (0xB01, 0xB01); (0xB3C, 0xB3C);
   (0xB3F, 0xB3F); (0xB41, 0xB44); (0xB4D, 0xB4D); (0xB55, 0xB56);
   (0xB62, 0xB63); (0xB82, 0xB82); (0xBC0, 0xBC0); (0xBCD, 0xBCD);
   (0xC00, 0xC00); (0xC04, 0xC04); (0xC3C, 0xC3C); (0xC3E, 0xC40);
   (0xC46, 0xC48); (0xC4A, 0xC4D); (0xC55, 0xC56); (0xC62, 0xC63);
   (0xC81, 0xC81); (0xCBC, 0xCBC); (0xCBF, 0xCBF); (0xCC6, 0xCC6);
   (0xCCC, 0xCCD); (0xCE2, 0xCE3); (0xD00, 0xD01); (0xD3B, 0xD3C);
   (0xD41, 0xD44); (0xD4D, 0xD4D); (0xD62, 0xD63); (0xD81, 0xD81);
   (0xDCA, 0xDCA); (0xDD2, 0xDD4); (0xDD6, 0xDD6); (0xE31, 0xE31);
   (0xE34, 0xE3A); (0xE46, 0xE4E); (0xEB1, 0xEB1); (0xEB4, 0xEBC);
   (0xEC6, 0xEC6); (0xEC8, 0xECD); (0xF18, 0xF19); (0xF35, 0xF35);
   (0xF37, 0xF37); (0xF39, 0xF39); (0xF71, 0xF7E); (0xF80, 0xF84);
   (0xF86, 0xF87); (0xF8D, 0xF97); (0xF99, 0xFBC); (0xFC6, 0xFC6);
   (0x102D, 0x1030); (0x1032, 0x1037); (0x1039, 0x103A); (0x103D, 0x103E);
   (0x1058, 0x1059); (0x105E, 0x1060); (0x1071, 0x1074); (0x1082, 0x1082);
   (0x1085, 0x1086); (0x108D, 0x108D); (0x109D, 0x109D); (0x10FC, 0x10FC);
   (0x135D, 0x135F); (0x1712, 0x1714); (0x1732, 0x1733); (0x1752, 0x1753);
   (0x1772, 0x1773); (0x17B4, 0x17B5); (0x17B7, 0x17BD); (0x17C6, 0x17C6);
   (0x17C9, 0x17D3); (0x17D7, 0x17D7); (0x17DD, 0x17DD); (0x180B, 0x180F);
   (0x1843, 0x1843); (0x1885, 0x1886); (0x18A9, 0x18A9); (0x1920, 0x1922);
   (0x1927, 0x1928); (0x1932, 0x1932); (0x1939, 0x193B); (0x1A17, 0x1A18);
   (0x1A1B, 0x1A1B); (0x1A56, 0x1A56); (0x1A58, 0x1A5E); (0x1A60, 0x1A60);
   (0x1A62, 0x1A62); (0x1A65, 0x1A6C); (0x1A73, 0x1A7C); (0x1A7F, 0x1A7F);
   (0x1AA7, 0x1AA7); (0x1AB0, 0x1ACE); (0x1B00, 0x1B03); (0x1B34, 0x1B34);
   (0x1B36, 0x1B3A); (0x1B3C, 0x1B3C); (0x1B42, 0x1B42); (0x1B6B, 0x1B73);
   (0x1B80, 0x1B81); (0x1BA2, 0x1BA5); (0x1BA8, 0x1BA9); (0x1BAB, 0x1BAD);
   (0x1BE6, 0x1BE6); (0x1BE8, 0x1BE9); (0x1BED, 0x1BED); (0x1BEF, 0x1BF1);
   (0x1C2C, 0x1C33); (0x1C36, 0x1C37); (0x1C78, 0x1C7D); (0x1CD0, 0x1CD2);
   (0x1CD4, 0x1CE0); (0x1CE2, 0x1CE8); (0x1CED, 0x1CED); (0x1CF4, 0x1CF4);
   (0x1CF8, 0x1CF9); (0x1D2C, 0x1D6A); (0x1D78, 0x1D78); (0x1D9B, 0x1DFF);
   (0x1FBD, 0x1FBD); (0x1FBF, 0x1FC1); (0x1FCD, 0x1FCF); (0x1FDD, 0x1FDF);
   (0x1FED, 0x1FEF); (0x1FFD, 0x1FFE); (0x200B, 0x200F); (0x2018, 0x2019);
   (0x2024, 0x2024); (0x2027, 0x2027); (0x202A, 0x202E); (0x2060, 0x2064);
   (0x2066, 0x206F); (0x2071, 0x2071); (0x207F, 0x207F); (0x2090, 0x209C);
   (0x20D0, 0x20F0); (0x2C7C, 0x2C7D); (0x2CEF, 0x2CF1); (0x2D6F, 0x2D6F);
   (0x2D7F, 0x2D7F); (0x2DE0, 0x2DFF); (0x2E2F, 0x2E2F); (0x3005, 0x3005);
   (0x302A, 0x302D); (0x3031, 0x3035); (0x303B, 0x303B); (0x3099, 0x309E);
   (0x30FC, 0x30FE); (0xA015, 0xA015); (0xA4F8, 0xA4FD); (0xA60C, 0xA60C);
   (0xA66F, 0xA672); (0xA674, 0xA67D); (0xA67F, 0xA67F); (0xA69C, 0xA69F);
   (0xA6F0, 0xA6F1); (0xA700, 0xA721); (0xA770, 0xA770); (0xA788, 0xA78A);
   (0xA7F2, 0xA7F4); (0xA7F8, 0xA7F9); (0xA802, 0xA802); (0xA806, 0xA806);
   (0xA80B, 0xA80B); (0xA825, 0xA826); (0xA82C, 0xA82C); (0xA8C4, 0xA8C5);
   (0xA8E0, 0xA8F1); (0xA8FF, 0xA8FF); (0xA926, 0xA92D); (0xA947, 0xA951);
   (0xA980, 0xA982); (0xA9B3, 0xA9B3); (0xA9B6, 0xA9B9); (0xA9BC, 0xA9BD);
   (0xA9CF, 0xA9CF); (0xA9E5, 0xA9E6); (0xAA29, 0xAA2E); (0xAA31, 0xAA32);
   (0xAA35, 0xAA36); (0xAA43, 0xAA43); (0xAA4C, 0xAA4C); (0xAA70, 0xAA70);
   (0xAA7C, 0xAA7C); (0xAAB0, 0xAAB0); (0xAAB2, 0xAAB4); (0xAAB7, 0xAAB8);
   (0xAABE, 0xAABF); (0xAAC1, 0xAAC1); (0xAADD, 0xAADD); (0xAAEC, 0xAAED);
   (0xAAF3, 0xAAF4); (0xAAF6, 0xAAF6); (0xAB5B, 0xAB5F); (0xAB69, 0xAB6B);
   (0xABE5, 0xABE5); (0xABE8, 0xABE8); (0xABED, 0xABED); (0xFB1E, 0xFB1E);
   (0xFBB2, 0xFBC2); (0xFE00, 0xFE0F); (0xFE13, 0xFE13); (0xFE20, 0xFE2F);
   (0xFE52, 0xFE52); (0xFE55, 0xFE55); (0xFEFF, 0xFEFF); (0xFF07, 0xFF07);
   (0xFF0E, 0xFF0E); (0xFF1A, 0xFF1A); (0xFF3E, 0xFF3E); (0xFF40, 0xFF40);
   (0xFF70, 0xFF70); (0xFF9E, 0xFF9F); (0xFFE3, 0xFFE3); (0xFFF9, 0xFFFB);
   (0x101FD, 0x101FD); (0x102E0, 0x102E0); (0x10376, 0x1037A); (0x10780, 0x10785);
   (0x10787, 0x107B0); (0x107B2, 0x107BA); (0x10A01, 0x10A03); (0x10A05, 0x10A06);
   (0x10A0C, 0x10A0F); (0x10A38, 0x10A3A); (0x10A3F, 0x10A3F); (0x10AE5, 0x10AE6);
   (0x10D24, 0x10D27); (0x10EAB, 0x10EAC); (0x10F46, 0x10F50); (0x10F82, 0x10F85);
   (0x11001, 0x11001); (0x11038, 0x11046); (0x11070, 0x11070); (0x11073, 0x11074);
   (0x1107F, 0x11081); (0x110B3, 0x110B6); (0x110B9, 0x110BA); (0x110BD, 0x110BD);
   (0x110C2, 0x110C2); (0x110CD, 0x110CD); (0x11100, 0x11102); (0x11127, 0x1112B);
   (0x1112D, 0x11134); (0x11173, 0x11173); (0x11180, 0x11181); (0x111B6, 0x111BE);
   (0x111C9, 0x111CC); (0x111CF, 0x111CF); (0x1122F, 0x11231); (0x11234, 0x11234);
   (0x11236, 0x11237); (0x1123E, 0x1123E); (0x112DF, 0x112DF); (0x112E3, 0x112EA);
   (0x11300, 0x11301); (0x1133B, 0x1133C); (0x11340, 0x11340); (0x11366, 0x1136C);
   (0x11370, 0x11374); (0x11438, 0x1143F); (0x11442, 0x11444); (0x11446, 0x11446);
   (0x1145E, 0x1145E); (0x114B3, 0x114B8); (0x114BA, 0x114BA); (0x114BF, 0x114C0);
   (0x114C2, 0x114C3); (0x115B2, 0x115B5); (0x115BC, 0x115BD); (0x115BF, 0x115C0);
   (0x115DC, 0x115DD); (0x11633, 0x1163A); (0x1163D, 0x1163D); (0x1163F, 0x11640);
   (0x116AB, 0x116AB); (0x116AD, 0x116AD); (0x116B0, 0x116B5); (0x116B7, 0x116B7);
   (0x1171D, 0x1171F); (0x11722, 0x11725); (0x11727, 0x1172B); (0x1182F, 0x11837);
   (0x11839, 0x1183A); (0x1193B, 0x1193C); (0x1193E, 0x1193E); (0x11943, 0x11943);
   (0x119D4, 0x119D7); (0x119DA, 0x119DB); (0x119E0, 0x119E0); (0x11A01, 0x11A0A);
   (0x11A33, 0x11A38); (0x11A3B, 0x11A3E); (0x11A47, 0x11A47); (0x11A51, 0x11A56);
   (0x11A59, 0x11A5B); (0x11A8A, 0x11A96); (0x11A98, 0x11A99); (0x11C30, 0x11C36);
   (0x11C38, 0x11C3D); (0x11C3F, 0x11C3F); (0x11C92, 0x11CA7); (0x11CAA, 0x11CB0);
   (0x11CB2, 0x11CB3); (0x11CB5, 0x11CB6); (0x11D31, 0x11D36); (0x11D3A, 0x11D3A);
   (0x11D3C, 0x11D3D); (0x11D3F, 0x11D45); (0x11D47, 0x11D47); (0x11D90, 0x11D91);
   (0x11D95, 0x11D95); (0x11D97, 0x11D97); (0x11EF3, 0x11EF4); (0x13430, 0x13438);
   (0x16AF0, 0x16AF4); (0x16B30, 0x16B36); (0x16B40, 0x16B43); (0x16F4F, 0x16F4F);
   (0x16F8F, 0x16F9F); (0x16FE0, 0x16FE1); (0x16FE3, 0x16FE4); (0x1AFF0, 0x1AFF3);
   (0x1AFF5, 0x1AFFB); (0x1AFFD, 0x1AFFE); (0x1BC9D, 0x1BC9E); (0x1BCA0, 0x1BCA3);
   (0x1CF00, 0x1CF2D); (0x1CF30, 0x1CF46); (0x1D167, 0x1D169); (0x1D173, 0x1D182);
   (0x1D185, 0x1D18B); (0x1D1AA, 0x1D1AD); (0x1D242, 0x1D244); (0x1DA00, 0x1DA36);
   (0x1DA3B, 0x1DA6C); (0x1DA75, 0x1DA75); (0x1DA84, 0x1DA84); (0x1DA9B, 0x1DA9F);
   (0x1DAA1, 0x1DAAF); (0x1E000, 0x1E006); (0x1E008, 0x1E018); (0x1E01B, 0x1E021);
   (0x1E023, 0x1E024); (0x1E026, 0x1E02A); (0x1E130, 0x1E13D); (0x1E2AE, 0x1E2AE);
   (0x1E2EC, 0x1E2EF); (0x1E8D0, 0x1E8D6); (0x1E944, 0x1E94B); (0x1F3FB, 0x1F3FF);
   (0xE0001, 0xE0001); (0xE0020, 0xE007F); (0xE0100, 0xE01EF)
  ].

Fixpoint em_faixas (c : Z) (l : list (Z * Z)) : bool :=
  match l with
  | [] => false
  | (a, b) :: r =>
      if c <? a then false else if c <=? b then true else em_faixas c r
  end.

Fixpoint decimal_em (c : Z) (l : list Z) : option Z :=
  match l with
  | [] => None
  | a :: r =>
      if c <? a then None
      else if c <? a + 10 then Some (c - a) else decimal_em c r
  end.

(** The value of a decimal digit ([\d] of [re], the digits [int] reads). *)
Definition decimal (c : Z) : option Z := decimal_em c Nd.

Definition is_digit (c : Z) : bool :=
  match decimal c with Some _ => true | None => false end.

Definition is_space (c : Z) : bool := em_faixas c espacos.

Fixpoint lower_em (c : Z) (l : list (Z * Z * Z * Z)) : Z :=
  match l with
  | [] => c
  | (a, b, p, d) :: r =>
      if c <? a then c
      else if (c <=? b) && ((c - a) mod p =? 0) then c + d
      else lower_em c r
  end.

(** The lower case of one character out of context; U+0130 is the one
    character whose lower case is two. *)
Definition lower_ponto (c : Z) : list Z :=
  if c =? 0x130 then [0x69; 0x307] else [lower_em c minusculas].

Fixpoint primeiro_nao_ignoravel (l : list Z) : option Z :=
  match l with
  | [] => None
  | c :: r =>
      if em_faixas c Case_Ignorable then primeiro_nao_ignoravel r else Some c
  end.

(** Whether a capital sigma is final: a cased letter before it and none
    after it, characters that case ignores being skipped. *)
Definition sigma_final (antes depois : list Z) : bool :=
  match primeiro_nao_ignoravel antes with
  | Some c =>
      em_faixas c Cased
      && match primeiro_nao_ignoravel depois with
         | Some d => negb (em_faixas d Cased)
         | None => true
         end
  | None => false
  end.

(** [antes] holds the characters already read, the nearest first. *)
Fixpoint lower_pontos (antes l : list Z) : list Z :=
  match l with
  | [] => []
  | c :: r =>
      (if c =? 0x3A3
       then [if sigma_final antes r then 0x3C2 else 0x3C3]
       else lower_ponto c)
      ++ lower_pontos (c :: antes) r
  end.

(** [s.lower()]. *)
Definition lower (s : string) : string := encode (lower_pontos [] (decode s)).

Fixpoint lstrip_pontos (l : list Z) : list Z :=
  match l with
  | [] => []
  | c :: r => if is_space c then lstrip_pontos r else l
  end.

(** [s.strip()]. *)
Definition strip (s : string) : string :=
  encode (rev (lstrip_pontos (rev (lstrip_pontos (decode s))))).

Fixpoint take_digits (l : list Z) : list Z :=
  match l with
  | [] => []
  | c :: r => if is_digit c then c :: take_digits r else []
  end.

Fixpoint search_digits (l : list Z) : option (list Z) :=
  match l with
  | [] => None
  | c :: r => if is_digit c then Some (c :: take_digits r) else search_digits r
  end.

(** [re.search(r'\d+', s)]: the leftmost, longest run of decimal digits,
    as [m.group()] gives it. *)
Definition re_search_digits (s : string) : option string :=
  option_map encode (search_digits (decode s)).

Definition int_pontos (l : list Z) : Z :=
  fold_left (fun acc c => 10 * acc + match decimal c with
                                     | Some v => v
                                     | None => 0
                                     end) l 0.

(** [int(s)] on a run of decimal digits. *)
Definition int_of_digits (s : string) : Z := int_pontos (decode s).

(** Whether [int] converts the run: CPython refuses one of more than 4300
    digits ([sys.get_int_max_str_digits()], [ValueError]). *)
Definition int_aceita (s : string) : bool :=
  Z.of_nat (List.length (decode s)) <=? 4300.

(** Whether a text holds no NUL character: psycopg2 refuses to send a
    string that holds one ([ValueError]), and PostgreSQL stores none. *)
Fixpoint sem_nul (s : string) : bool :=
  match s with
  | EmptyString => true
  | String c r => negb (Ascii.eqb c "000") && sem_nul r
  end.

(** The characters [str(n)] writes for an integer besides the sign. *)
Definition digito_ascii (c : ascii) : bool :=
  (48 <=? byte_de c) && (byte_de c <=? 57).

(** [x in (a, b, ...)] for strings. *)
Definition str_in (x : string) (l : list string) : bool :=
  existsb (String.eqb x) l.

(** [sub in s] for strings. *)
Fixpoint contains (sub s : string) : bool :=
  if prefix sub s then true
  else match s with
       | EmptyString => false
       | String _ r => contains sub r
       end.

(** [str(n)] for an integer. *)
Definition str_of_Z (n : Z) : string := NilZero.string_of_int (Z.to_int n).

(** [f"{n:02d}"]-style zero padding of a non-negative number to [w] digits. *)
Fixpoint zeros (k : nat) : string :=
  match k with O => EmptyString | S k' => String "0" (zeros k') end.

Definition zfill (w : nat) (n : Z) : string :=
  let s := str_of_Z n in zeros (w - String.length s) ++ s.

(** [s.split(sep)] for a one-character separator. *)
Fixpoint split_on (sep : ascii) (s : string) : list string :=
  match s with
  | EmptyString => [EmptyString]
  | String c r =>
      if Ascii.eqb c sep then EmptyString :: split_on sep r
      else match split_on sep r with
           | [] => [String c EmptyString]
           | h :: t => String c h :: t
           end
  end.

End Texto.
Import Texto.

(** ** Times of day and instants ([datetime.time], [datetime.datetime]) *)

Record time := mk_time { t_hour : Z; t_minute : Z; t_second : Z }.

(** [time(h, m)]. *)
Definition time_hm (h m : Z) : time := mk_time h m 0.

(** An instant as [datetime.now(FUSO_HORARIO)] gives it: the wall-clock
    fields and the rendering of the zone's offset that [isoformat] appends. *)
Record datetime := mk_datetime {
  year : Z; month : Z; day : Z;
  hour : Z; minute : Z; second : Z; microsecond : Z;
  tz_suffix : string
}.

(** [dt.replace(hour=h, minute=m, second=0, microsecond=0)]. *)
Definition replace_hm (dt : datetime) (h m : Z) : datetime :=
  mk_datetime (year dt) (month dt) (day dt) h m 0 0 (tz_suffix dt).

Definition is_leap (y : Z) : bool :=
  ((y mod 4 =? 0) && negb (y mod 100 =? 0)) || (y mod 400 =? 0).

Definition days_in_month (y m : Z) : Z :=
  if m =? 2 then (if is_leap y then 29 else 28)
  else if (m =? 4) || (m =? 6) || (m =? 9) || (m =? 11) then 30
  else 31.

Fixpoint days_before_month_aux (y : Z) (k : nat) : Z :=
  match k with
  | O => 0
  | S k' => days_before_month_aux y k' + days_in_month y (Z.of_nat k)
  end.

(** [date.toordinal()]. *)
Definition toordinal (dt : datetime) : Z :=
  let y := year dt - 1 in
  y * 365 + y / 4 - y / 100 + y / 400
  + days_before_month_aux (year dt) (Z.to_nat (month dt - 1)) + day dt.

(** [(a - b)] in microseconds, for two instants of the same zone. *)
Definition sub_microseconds (a b : datetime) : Z :=
  ((toordinal a - toordinal b) * 86400
   + (hour a - hour b) * 3600 + (minute a - minute b) * 60
   + (second a - second b)) * 1000000
  + (microsecond a - microsecond b).

(** [round(n / d)] for [d > 0]: Python rounds a half to the even neighbour.
    The float quotient the source takes is exact enough at the microsecond
    grain of [timedelta] for the rounding to agree with the rational one. *)
Definition round_div (n d : Z) : Z :=
  let q := n / d in
  let r := n mod d in
  if 2 * r <? d then q
  else if d <? 2 * r then q + 1
  else if Z.even q then q else q + 1.

(** [round((a - b).total_seconds() / 60)]. *)
Definition diff_minutos (a b : datetime) : Z :=
  round_div (sub_microseconds a b) 60000000.

(** [dt.strftime("%Y-%m-%d")] and [dt.strftime("%H:%M:%S")]. *)
Definition strftime_Ymd (dt : datetime) : string :=
  zfill 4 (year dt) ++ "-" ++ zfill 2 (month dt) ++ "-" ++ zfill 2 (day dt).

Definition strftime_HMS (dt : datetime) : string :=
  zfill 2 (hour dt) ++ ":" ++ zfill 2 (minute dt) ++ ":" ++ zfill 2 (second dt).

(** [dt.isoformat()]: the fraction is printed only when it is not zero. *)
Definition isoformat (dt : datetime) : string :=
  strftime_Ymd dt ++ "T" ++ strftime_HMS dt
  ++ (if microsecond dt =? 0 then "" else "." ++ zfill 6 (microsecond dt))
  ++ tz_suffix dt.

(** ** [datetime.strptime] for the two formats the source uses *)

Module Strptime.

(** A character of an ASCII class [[lo-hi]] of the pattern. *)
Definition entre (c lo hi : Z) : bool := (lo <=? c) && (c <=? hi).

(** [int] of two characters that passed the pattern. *)
Definition dois (a b : Z) : option Z :=
  match decimal a, decimal b with
  | Some x, Some y => Some (10 * x + y)
  | _, _ => None
  end.

(** [%H]: [2[0-3]|[0-1]\d|\d]. *)
Definition campo_H (l : list Z) : option Z :=
  match l with
  | [a] => decimal a
  | [a; b] =>
      if ((a =? 0x32) && entre b 0x30 0x33) || entre a 0x30 0x31
      then dois a b else None
  | _ => None
  end.

(** [%M]: [[0-5]\d|\d]. *)
Definition campo_M (l : list Z) : option Z :=
  match l with
  | [a] => decimal a
  | [a; b] => if entre a 0x30 0x35 then dois a b else None
  | _ => None
  end.

(** [%S]: [6[0-1]|[0-5]\d|\d]; a value of 60 or 61 passes the pattern and
    is then refused when the [datetime] is built (seconds are 0..59). *)
Definition campo_S (l : list Z) : option Z :=
  match l with
  | [a] => decimal a
  | [a; b] =>
      if ((a =? 0x36) && entre b 0x30 0x31) || entre a 0x30 0x35
      then dois a b else None
  | _ => None
  end.

(** [datetime.strptime(s, "%H:%M:%S").time()]; [None] is [ValueError]. *)
Definition parse_HMS (s : string) : option time :=
  match split_on ":" s with
  | [h; m; sec] =>
      match campo_H (decode h), campo_M (decode m), campo_S (decode sec) with
      | Some hv, Some mv, Some sv =>
          if sv <=? 59 then Some (mk_time hv mv sv) else None
      | _, _, _ => None
      end
  | _ => None
  end.

(** [%Y]: [\d\d\d\d]. *)
Definition campo_Y (l : list Z) : option Z :=
  match l with
  | [a; b; c; d] =>
      if is_digit a && is_digit b && is_digit c && is_digit d
      then Some (int_pontos l) else None
  | _ => None
  end.

(** [%m]: [1[0-2]|0[1-9]|[1-9]]. *)
Definition campo_m (l : list Z) : option Z :=
  match l with
  | [a] => if entre a 0x31 0x39 then decimal a else None
  | [a; b] =>
      if ((a =? 0x31) && entre b 0x30 0x32) || ((a =? 0x30) && entre b 0x31 0x39)
      then dois a b else None
  | _ => None
  end.

(** [%d]: [3[0-1]|[1-2]\d|0[1-9]|[1-9]| [1-9]]. *)
Definition campo_d (l : list Z) : option Z :=
  match l with
  | [a] => if entre a 0x31 0x39 then decimal a else None
  | [a; b] =>
      if ((a =? 0x33) && entre b 0x30 0x31) || entre a 0x31 0x32
         || ((a =? 0x30) && entre b 0x31 0x39)
      then dois a b
      else if (a =? 0x20) && entre b 0x31 0x39 then decimal b
      else None
  | _ => None
  end.

(** [datetime.strptime(s, "%Y-%m-%d")]: a naive instant at midnight;
    [None] is [ValueError] (pattern mismatch, year 0, or a day the month
    does not have). *)
Definition parse_Ymd (s : string) : option datetime :=
  match split_on "-" s with
  | [y; m; d] =>
      match campo_Y (decode y), campo_m (decode m), campo_d (decode d) with
      | Some yv, Some mv, Some dv =>
          if (1 <=? yv) && (dv <=? days_in_month yv mv)
          then Some (mk_datetime yv mv dv 0 0 0 0 "") else None
      | _, _, _ => None
      end
  | _ => None
  end.

End Strptime.


(** ** Exceptions and results *)

Inductive chave := ChaveInt (n : Z) | ChaveStr (s : string).

Inductive excecao :=
| Psycopg2Error (msg : string)
| SQLAlchemyError (msg : string)
| KeyError (k : chave)
| IndexError
| ValueError (msg : string).

(** [str(e)] as the f-strings of the source render an exception. *)
Definition str_excecao (e : excecao) : string :=
  match e with
  | Psycopg2Error msg => msg
  | SQLAlchemyError msg => msg
  | KeyError (ChaveInt n) => str_of_Z n
  | KeyError (ChaveStr s) => "'" ++ s ++ "'"
  | IndexError => "list index out of range"
  | ValueError msg => msg
  end.

(** [isinstance(e, psycopg2.Error)]. *)
Definition is_psycopg2_error (e : excecao) : bool :=
  match e with Psycopg2Error _ => true | _ => false end.

Inductive resultado (A : Type) :=
| Ok (a : A)
| Raise (e : excecao).
Arguments Ok {A} a.
Arguments Raise {A} e.

(** ** The store: tables of [init_db] *)

Record empresa := mk_empresa {
  e_id : Z; e_nome_empresa : string; e_cnpj : option string
}.

Record funcionario := mk_funcionario {
  f_cpf : string; f_codigo : string; f_nome : string; f_senha : string;
  f_role : string; f_empresa_id : option Z; f_cod_tipo : option string;
  f_tipo : option string; f_filial : option string
}.

Record registro := mk_registro {
  r_id : string; r_cpf_funcionario : string; r_nome : string;
  r_data : string; r_hora : string; r_descricao : string;
  r_diferenca_min : Z; r_observacao : option string
}.

Record banco := mk_banco {
  empresas : list empresa;
  funcionarios : list funcionario;
  registros : list registro
}.

(** The state an operation runs in: the committed tables, the tables as the
    open transaction sees them, whether that transaction has been aborted by
    a failed statement, the next value of the [empresas.id] sequence, and an
    oracle that tells, for each access to the store in turn, whether the
    store fails there ([Some msg]) or not.  One client at a time. *)
Record estado := mk_estado {
  duravel : banco;
  transacao : banco;
  abortada : bool;
  seq_empresas : Z;
  oraculo : list (option string)
}.

Definition M (A : Type) : Type := estado -> resultado A * estado.

Definition ret {A} (a : A) : M A := fun s => (Ok a, s).

Definition raise {A} (e : excecao) : M A := fun s => (Raise e, s).

Definition bind {A B} (m : M A) (k : A -> M B) : M B := fun s =>
  match m s with
  | (Ok a, s1) => k a s1
  | (Raise e, s1) => (Raise e, s1)
  end.

(** [try: m  except <exceptions selected by p> as e: h e]. *)
Definition try_except {A} (m : M A) (p : excecao -> bool) (h : excecao -> M A)
  : M A := fun s =>
  match m s with
  | (Ok a, s1) => (Ok a, s1)
  | (Raise e, s1) => if p e then h e s1 else (Raise e, s1)
  end.

Declare Scope servico_scope.
Delimit Scope servico_scope with servico.
Notation "x <- c1 ;; c2" := (bind c1 (fun x => c2))
  (at level 100, c1 at next level, right associativity) : servico_scope.
Notation "c1 ;;; c2" := (bind c1 (fun _ => c2))
  (at level 100, right associativity) : servico_scope.
Local Open Scope servico_scope.

(** The next answer of the oracle. *)
Definition consulta_oraculo (s : estado) : option string * estado :=
  match oraculo s with
  | [] => (None, s)
  | o :: rest =>
      (o, mk_estado (duravel s) (transacao s) (abortada s) (seq_empresas s) rest)
  end.

Definition com_transacao (s : estado) (b : banco) (ab : bool) : estado :=
  mk_estado (duravel s) b ab (seq_empresas s) (oraculo s).

(** [psycopg2.connect]: a new transaction over the committed tables. *)
Definition connect : M unit := fun s =>
  match consulta_oraculo s with
  | (Some msg, s1) => (Raise (Psycopg2Error msg), s1)
  | (None, s1) => (Ok tt, com_transacao s1 (duravel s1) false)
  end.

(** [conn.close()]: what was not committed is discarded. *)
Definition close (s : estado) : estado := com_transacao s (duravel s) false.

(** [with get_db_connection() as conn: corpo]; the connection is closed
    however the body ends. *)
Definition get_db_connection {A} (corpo : M A) : M A := fun s =>
  match connect s with
  | (Raise e, s1) => (Raise e, s1)
  | (Ok _, s1) => let (r, s2) := corpo s1 in (r, close s2)
  end.

(** [conn.commit()]: an aborted transaction is rolled back instead. *)
Definition commit : M unit := fun s =>
  match consulta_oraculo s with
  | (Some msg, s1) => (Raise (Psycopg2Error msg), s1)
  | (None, s1) =>
      if abortada s1 then (Ok tt, com_transacao s1 (duravel s1) false)
      else (Ok tt, mk_estado (transacao s1) (transacao s1) false
                             (seq_empresas s1) (oraculo s1))
  end.

(** A statement on the tables: a violated constraint, or an answer and the
    tables after it. *)
Definition comando (A : Type) : Type := banco -> string + (A * banco).

(** [cursor.execute(...)], once psycopg2 has adapted the parameters: the
    store may fail; a failed or refused statement aborts the transaction,
    and an aborted transaction refuses statements.  The parameters are text
    PostgreSQL can hold: psycopg2 refuses to adapt a string with a NUL
    character ([ValueError], before anything is sent), and that refusal is
    not part of this model; a statement below whose truth depends on it
    assumes [sem_nul] of the parameters. *)
Definition execute {A} (q : comando A) : M A := fun s =>
  match consulta_oraculo s with
  | (Some msg, s1) =>
      (Raise (Psycopg2Error msg), com_transacao s1 (transacao s1) true)
  | (None, s1) =>
      if abortada s1
      then (Raise (Psycopg2Error "current transaction is aborted"), s1)
      else match q (transacao s1) with
           | inl msg =>
               (Raise (Psycopg2Error msg), com_transacao s1 (transacao s1) true)
           | inr (a, b) => (Ok a, com_transacao s1 b false)
           end
  end.

(** A read through the pooled [engine] of [query_df]: it sees the committed
    tables; its failures are SQLAlchemy's, not psycopg2's. *)
Definition query_df {A} (q : banco -> A) : M A := fun s =>
  match consulta_oraculo s with
  | (Some msg, s1) => (Raise (SQLAlchemyError msg), s1)
  | (None, s1) => (Ok (q (duravel s1)), s1)
  end.

(** A connection that is opened and closed around a [query_df] read without
    being used ([ler_empresas], [ler_funcionarios_df]): only its opening can
    fail. *)
Definition conexao_ociosa : M unit := fun s =>
  match consulta_oraculo s with
  | (Some msg, s1) => (Raise (Psycopg2Error msg), s1)
  | (None, s1) => (Ok tt, s1)
  end.

(** ** Rows as the cursors hand them out *)

Inductive valor := VNull | VInt (n : Z) | VText (s : string).

Definition valor_opt (o : option string) : valor :=
  match o with Some s => VText s | None => VNull end.

(** The connection is opened with [cursor_factory=RealDictCursor], so
    [conn.cursor()] yields rows that are plain dictionaries keyed by column
    name; [conn.cursor(cursor_factory=DictCursor)] yields rows that answer
    to both a position and a name. *)
Inductive cursor_factory := RealDictCursor | DictCursor.

Inductive linha :=
| RealDictRow (campos : list (string * valor))
| DictRow (campos : list (string * valor)).

Definition mk_linha (f : cursor_factory) (campos : list (string * valor)) : linha :=
  match f with
  | RealDictCursor => RealDictRow campos
  | DictCursor => DictRow campos
  end.

Fixpoint assoc {A} (k : string) (l : list (string * A)) : option A :=
  match l with
  | [] => None
  | (k', v) :: r => if String.eqb k k' then Some v else assoc k r
  end.

(** [row[i]]: a dictionary row has no integer keys. *)
Definition getitem_pos (l : linha) (i : nat) : resultado valor :=
  match l with
  | RealDictRow _ => Raise (KeyError (ChaveInt (Z.of_nat i)))
  | DictRow campos =>
      match nth_error campos i with
      | Some (_, v) => Ok v
      | None => Raise IndexError
      end
  end.

(** [row['coluna']]. *)
Definition getitem_nome (l : linha) (k : string) : resultado valor :=
  match l with
  | RealDictRow campos | DictRow campos =>
      match assoc k campos with
      | Some v => Ok v
      | None => Raise (KeyError (ChaveStr k))
      end
  end.

Definition lift {A} (r : resultado A) : M A := fun s => (r, s).

(** ** The statements the operations send *)

Definition atualiza_registros (b : banco) (rs : list registro) : banco :=
  mk_banco (empresas b) (funcionarios b) rs.

Definition conta {A} (p : A -> bool) (l : list A) : Z :=
  Z.of_nat (List.length (filter p l)).

(** [SELECT COUNT( * ) AS total FROM registros WHERE cpf_funcionario = %s
    AND data = %s]. *)
Definition sel_count_registros (f : cursor_factory) (cpf data : string)
  : comando (option linha) := fun b =>
  inr (Some (mk_linha f
         [("total",
           VInt (conta (fun r => String.eqb (r_cpf_funcionario r) cpf
                                 && String.eqb (r_data r) data)
                       (registros b)))]), b).

(** [SELECT filial FROM funcionarios WHERE cpf = %s]. *)
Definition sel_filial (f : cursor_factory) (cpf : string)
  : comando (option linha) := fun b =>
  inr (match find (fun x => String.eqb (f_cpf x) cpf) (funcionarios b) with
       | Some x => Some (mk_linha f [("filial", valor_opt (f_filial x))])
       | None => None
       end, b).

(** [INSERT INTO registros (...)]: [id] is the primary key and
    [cpf_funcionario] refers to [funcionarios (cpf)]. *)
Definition ins_registro (r : registro) : comando unit := fun b =>
  if existsb (fun x => String.eqb (r_id x) (r_id r)) (registros b)
  then inl "duplicate key value violates unique constraint"
  else if negb (existsb (fun x => String.eqb (f_cpf x) (r_cpf_funcionario r))
                        (funcionarios b))
  then inl "insert or update violates foreign key constraint"
  else inr (tt, atualiza_registros b (registros b ++ [r])).

Definition linha_de_registro (f : cursor_factory) (r : registro) : linha :=
  mk_linha f
    [("id", VText (r_id r)); ("cpf_funcionario", VText (r_cpf_funcionario r));
     ("nome", VText (r_nome r)); ("data", VText (r_data r));
     ("hora", VText (r_hora r)); ("descricao", VText (r_descricao r));
     ("diferenca_min", VInt (r_diferenca_min r));
     ("observacao", valor_opt (r_observacao r))].

(** [SELECT * FROM registros WHERE id = %s]. *)
Definition sel_registro (f : cursor_factory) (id : string)
  : comando (option linha) := fun b =>
  inr (option_map (linha_de_registro f)
         (find (fun r => String.eqb (r_id r) id) (registros b)), b).

Definition com_observacao (obs : string) (r : registro) : registro :=
  mk_registro (r_id r) (r_cpf_funcionario r) (r_nome r) (r_data r) (r_hora r)
              (r_descricao r) (r_diferenca_min r) (Some obs).

Definition com_hora (hora : string) (dif : Z) (r : registro) : registro :=
  mk_registro (r_id r) (r_cpf_funcionario r) (r_nome r) (r_data r) hora
              (r_descricao r) dif (r_observacao r).

Definition atualiza_onde (id : string) (g : registro -> registro)
  (rs : list registro) : list registro :=
  map (fun r => if String.eqb (r_id r) id then g r else r) rs.

(** [UPDATE registros SET observacao = %s WHERE id = %s]; the answer is
    [cursor.rowcount]. *)
Definition upd_observacao (obs id : string) : comando Z := fun b =>
  inr (conta (fun r => String.eqb (r_id r) id) (registros b),
       atualiza_registros b (atualiza_onde id (com_observacao obs) (registros b))).

(** [UPDATE registros SET hora = %s, diferenca_min = %s WHERE id = %s]. *)
Definition upd_hora (hora : string) (dif : Z) (id : string) : comando Z := fun b =>
  inr (conta (fun r => String.eqb (r_id r) id) (registros b),
       atualiza_registros b (atualiza_onde id (com_hora hora dif) (registros b))).

(** [SELECT r.descricao, r.data, r.cpf_funcionario, f.filial FROM registros r
    JOIN funcionarios f ON f.cpf = r.cpf_funcionario WHERE r.id = %s]. *)
Definition sel_registro_filial (f : cursor_factory) (id : string)
  : comando (option linha) := fun b =>
  inr (match find (fun r => String.eqb (r_id r) id
                            && existsb (fun x => String.eqb (f_cpf x)
                                                   (r_cpf_funcionario r))
                                       (funcionarios b))
                  (registros b) with
       | Some r =>
           match find (fun x => String.eqb (f_cpf x) (r_cpf_funcionario r))
                      (funcionarios b) with
           | Some x =>
               Some (mk_linha f
                 [("descricao", VText (r_descricao r)); ("data", VText (r_data r));
                  ("cpf_funcionario", VText (r_cpf_funcionario r));
                  ("filial", valor_opt (f_filial x))])
           | None => None
           end
       | None => None
       end, b).

(** [SELECT cpf FROM funcionarios WHERE cpf = %s]. *)
Definition sel_cpf (f : cursor_factory) (cpf : string)
  : comando (option linha) := fun b =>
  inr (match find (fun x => String.eqb (f_cpf x) cpf) (funcionarios b) with
       | Some x => Some (mk_linha f [("cpf", VText (f_cpf x))])
       | None => None
       end, b).

(** [SELECT id FROM empresas WHERE lower(nome_empresa) = lower(%s)]; the
    [lower] of the store is taken to be the one of Python. *)
Definition sel_empresa_id (f : cursor_factory) (nome : string)
  : comando (option linha) := fun b =>
  inr (match find (fun e => String.eqb (lower (e_nome_empresa e)) (lower nome))
                  (empresas b) with
       | Some e => Some (mk_linha f [("id", VInt (e_id e))])
       | None => None
       end, b).

(** [UPDATE empresas SET cnpj = %s WHERE id = %s]. *)
Definition upd_cnpj (cnpj : option string) (id : valor) : comando unit := fun b =>
  inr (tt, mk_banco
             (map (fun e => match id with
                            | VInt n => if e_id e =? n
                                        then mk_empresa (e_id e) (e_nome_empresa e) cnpj
                                        else e
                            | _ => e
                            end) (empresas b))
             (funcionarios b) (registros b)).

(** [INSERT INTO empresas (nome_empresa, cnpj) VALUES (%s, %s) RETURNING id]:
    the id is drawn from the sequence (a drawn value is never given back) and
    [nome_empresa] is unique. *)
Definition ins_empresa (f : cursor_factory) (nome : string) (cnpj : option string)
  : M linha := fun s =>
  match consulta_oraculo s with
  | (Some msg, s1) =>
      (Raise (Psycopg2Error msg), com_transacao s1 (transacao s1) true)
  | (None, s1) =>
      if abortada s1
      then (Raise (Psycopg2Error "current transaction is aborted"), s1)
      else
        let id := seq_empresas s1 in
        let b := transacao s1 in
        if existsb (fun e => String.eqb (e_nome_empresa e) nome) (empresas b)
        then (Raise (Psycopg2Error "duplicate key value violates unique constraint"),
              mk_estado (duravel s1) b true (id + 1) (oraculo s1))
        else (Ok (mk_linha f [("id", VInt id)]),
              mk_estado (duravel s1)
                (mk_banco (empresas b ++ [mk_empresa id nome cnpj])
                          (funcionarios b) (registros b))
                false (id + 1) (oraculo s1))
  end.

(** One [INSERT INTO funcionarios (...)]: [cpf] is the primary key and
    [empresa_id], when not null, refers to [empresas (id)]. *)
Definition ins_funcionario (x : funcionario) : comando unit := fun b =>
  if existsb (fun y => String.eqb (f_cpf y) (f_cpf x)) (funcionarios b)
  then inl "duplicate key value violates unique constraint"
  else if match f_empresa_id x with
          | Some n => negb (existsb (fun e => e_id e =? n) (empresas b))
          | None => false
          end
  then inl "insert or update violates foreign key constraint"
  else inr (tt, mk_banco (empresas b) (funcionarios b ++ [x]) (registros b)).

(** [cursor.executemany("INSERT INTO funcionarios ...", l)]. *)
Fixpoint ins_funcionarios (l : list funcionario) : comando unit := fun b =>
  match l with
  | [] => inr (tt, b)
  | x :: r =>
      match ins_funcionario x b with
      | inl msg => inl msg
      | inr (_, b1) => ins_funcionarios r b1
      end
  end.

(** Insertion sort by name, for [ORDER BY nome_empresa] (byte order). *)
Fixpoint insere_empresa (e : empresa) (l : list empresa) : list empresa :=
  match l with
  | [] => [e]
  | x :: r =>
      if String.leb (e_nome_empresa e) (e_nome_empresa x) then e :: l
      else x :: insere_empresa e r
  end.

Definition ordena_empresas (l : list empresa) : list empresa :=
  fold_right insere_empresa [] l.

(** ** Dictionaries and lists of Python *)

(** [d[k] = v]. *)
Fixpoint dict_set {A} (k : string) (v : A) (d : list (string * A))
  : list (string * A) :=
  match d with
  | [] => [(k, v)]
  | (k', v') :: r =>
      if String.eqb k k' then (k, v) :: r else (k', v') :: dict_set k v r
  end.

(** [dict(zip(ks, vs))]. *)
Definition dict_zip {A} (kvs : list (string * A)) : list (string * A) :=
  fold_left (fun d kv => dict_set (fst kv) (snd kv) d) kvs [].

(** [d[k]]. *)
Definition dict_getitem {A} (d : list (string * A)) (k : string) : resultado A :=
  match assoc k d with
  | Some v => Ok v
  | None => Raise (KeyError (ChaveStr k))
  end.

(** [l[i]], a negative [i] counting from the end. *)
Definition list_getitem {A} (l : list A) (i : Z) : resultado A :=
  let n := Z.of_nat (List.length l) in
  let j := if i <? 0 then i + n else i in
  if (j <? 0) || (n <=? j) then Raise IndexError
  else match nth_error l (Z.to_nat j) with
       | Some a => Ok a
       | None => Raise IndexError
       end.

(** Truth value of a fetched value ([if v:], [not v]). *)
Definition truthy (v : valor) : bool :=
  match v with
  | VNull => false
  | VInt n => negb (n =? 0)
  | VText s => negb (String.eqb s "")
  end.

Definition nao_vazia (s : string) : bool := negb (String.eqb s "").

(** [v in (s1, s2, ...)] for a fetched value and strings. *)
Definition valor_in (v : valor) (l : list string) : bool :=
  match v with
  | VText s => str_in s l
  | _ => false
  end.

(** [str(v)] for a fetched value. *)
Definition str_valor (v : valor) : string :=
  match v with
  | VNull => "None"
  | VInt n => str_of_Z n
  | VText s => s
  end.

(** [sem_nul] of a parameter that may be [None]. *)
Definition sem_nul_opt (o : option string) : bool :=
  match o with Some s => sem_nul s | None => true end.


(** ** Statements of the login and of the deletion *)

Definition valor_int_opt (o : option Z) : valor :=
  match o with Some n => VInt n | None => VNull end.

Definition linha_de_funcionario (f : cursor_factory) (x : funcionario) : linha :=
  mk_linha f
    [("cpf", VText (f_cpf x)); ("codigo", VText (f_codigo x));
     ("nome", VText (f_nome x)); ("senha", VText (f_senha x));
     ("role", VText (f_role x)); ("empresa_id", valor_int_opt (f_empresa_id x));
     ("cod_tipo", valor_opt (f_cod_tipo x)); ("tipo", valor_opt (f_tipo x));
     ("filial", valor_opt (f_filial x))].

(** [SELECT * FROM funcionarios WHERE cpf = %s AND senha = %s]. *)
Definition sel_login (f : cursor_factory) (cpf senha_hash : string)
  : comando (option linha) := fun b =>
  inr (option_map (linha_de_funcionario f)
         (find (fun x => String.eqb (f_cpf x) cpf
                         && String.eqb (f_senha x) senha_hash)
               (funcionarios b)), b).



(** [dict(row)]. *)
Definition dict_de_linha (l : linha) : list (string * valor) :=
  match l with RealDictRow campos | DictRow campos => campos end.

(** ** The operations of [services.py] *)

Section Servicos.

(** The values of [config.py] ([FUSO_HORARIO] is carried by the instants the
    operations receive) and the digest of [hashlib]. *)
Variable HORARIOS_PADRAO : list (string * time).
Variable TOLERANCIA_MINUTOS : Z.
Variable sha256_hexdigest : string -> string.

Definition get_horario_padrao (filial : option Z) (proximo_evento : string) : time :=
  if match filial with
     | Some n => (n =? 3) || (n =? 4)
     | None => false
     end
  then (if String.eqb proximo_evento "Entrada" then time_hm 7 30 else time_hm 17 30)
  else (if String.eqb proximo_evento "Entrada" then time_hm 8 0 else time_hm 18 0).

Definition _hash_senha (senha : string) : string := sha256_hexdigest senha.

(** The cursor is the caller's; [f] is the kind of rows it hands out.  The
    arguments of the [UPDATE], among them [resultado[0]], are evaluated
    before the statement is sent. *)
Definition _obter_ou_criar_empresa_id (f : cursor_factory)
  (nome_empresa : string) (cnpj : option string) : M valor :=
  resultado <- execute (sel_empresa_id f nome_empresa) ;;
  match resultado with
  | Some l =>
      id <- lift (getitem_pos l 0) ;;
      execute (upd_cnpj cnpj id) ;;;
      lift (getitem_pos l 0)
  | None =>
      l <- ins_empresa f nome_empresa cnpj ;;
      lift (getitem_pos l 0)
  end.

(** [ler_empresas]: the rows (id, nome_empresa) in the order of the names. *)
Definition ler_empresas : M (list empresa) :=
  conexao_ociosa ;;;
  query_df (fun b => ordena_empresas (empresas b)).

(** [ler_funcionarios_df()['cpf'].tolist()]: the left join keeps one row per
    employee. *)
Definition ler_funcionarios_cpfs : M (list string) :=
  conexao_ociosa ;;;
  query_df (fun b => map f_cpf (funcionarios b)).

(** The count read off the fetched row, whatever its shape. *)
Definition num_pontos_de (result : option linha) : Z :=
  match result with
  | None => 0
  | Some (RealDictRow campos) =>
      match assoc "total" campos with
      | Some (VInt n) => n
      | _ => 0
      end
  | Some (DictRow campos) =>
      match campos with
      | (_, VInt n) :: _ => n
      | _ => 0
      end
  end.

(** [agora] is the instant [datetime.now(FUSO_HORARIO)] gives inside the
    function. *)
Definition obter_proximo_evento (agora : datetime) (cpf : string) : M string :=
  let hoje_str := strftime_Ymd agora in
  result <- get_db_connection
              (execute (sel_count_registros RealDictCursor cpf hoje_str)) ;;
  let num_pontos := num_pontos_de result in
  let eventos := map fst HORARIOS_PADRAO in
  if num_pontos <? Z.of_nat (List.length eventos)
  then lift (list_getitem eventos num_pontos)
  else ret "Jornada Finalizada".

Definition diff_final_bater_ponto (diff_bruta : Z) : Z :=
  if Z.abs diff_bruta <=? TOLERANCIA_MINUTOS then 0
  else if diff_bruta >? 0 then diff_bruta - TOLERANCIA_MINUTOS
  else diff_bruta + TOLERANCIA_MINUTOS.

(** The schedule [bater_ponto] takes the expected time from. *)
Definition horarios_bater_ponto (filial : valor) : list (string * time) :=
  if valor_in filial ["Filial 03"; "Filial 3"; "Filial 04"; "Filial 4"]
  then [("Entrada", time_hm 7 30); ("Saída", time_hm 17 30)]
  else HORARIOS_PADRAO.

Definition msg_extra (diff_final : Z) : string :=
  if negb (diff_final =? 0) then
    (if diff_final >? 0
     then " (" ++ str_of_Z diff_final ++ " min de atraso)"
     else " (" ++ str_of_Z (- diff_final) ++ " min de adiantamento)")
  else "".

(** The three outcomes of the [if]/[elif] that sets [status_final]. *)
Inductive ramo_status := RamoEmPonto | RamoDesvio | RamoTolerancia.

Definition ramo_status_final (diff_final diff_bruta : Z) : ramo_status :=
  if negb (diff_final =? 0) then RamoDesvio
  else if negb (diff_bruta =? 0) then RamoTolerancia
  else RamoEmPonto.

Definition status_final (diff_final diff_bruta : Z) : string :=
  match ramo_status_final diff_final diff_bruta with
  | RamoEmPonto => " (em ponto)"
  | RamoDesvio => ""
  | RamoTolerancia => " (dentro da tolerância, registrado como 'em ponto')"
  end.

(** [agora] is the instant read on entry, [agora_evento] the one read inside
    [obter_proximo_evento]. *)
Definition bater_ponto (agora agora_evento : datetime) (cpf nome : string)
  : M (string * string) :=
  proximo_evento <- obter_proximo_evento agora_evento cpf ;;
  if String.eqb proximo_evento "Jornada Finalizada"
  then ret ("Sua jornada de hoje já foi completamente registada.", "warning")
  else
    resultado <- get_db_connection (execute (sel_filial RealDictCursor cpf)) ;;
    filial <- match resultado with
              | Some l => lift (getitem_pos l 0)
              | None => ret VNull
              end ;;
    let horarios := horarios_bater_ponto filial in
    hora_prevista <- lift (dict_getitem horarios proximo_evento) ;;
    let datetime_previsto :=
      replace_hm agora (t_hour hora_prevista) (t_minute hora_prevista) in
    let diff_bruta := diff_minutos agora datetime_previsto in
    let diff_final := diff_final_bater_ponto diff_bruta in
    let novo_reg :=
      mk_registro (cpf ++ "-" ++ isoformat agora) cpf nome
                  (strftime_Ymd agora) (strftime_HMS agora)
                  proximo_evento diff_final (Some "") in
    get_db_connection (execute (ins_registro novo_reg) ;;; commit) ;;;
    ret ("'" ++ proximo_evento ++ "' registado para " ++ nome ++ " às "
         ++ strftime_HMS agora ++ msg_extra diff_final
         ++ status_final diff_final diff_bruta ++ ".",
         "success").



Definition diff_final_atualizar_registro (diff_bruta : Z) : Z :=
  if Z.abs diff_bruta <=? TOLERANCIA_MINUTOS then 0
  else if diff_bruta >? 0 then diff_bruta - TOLERANCIA_MINUTOS
  else diff_bruta + TOLERANCIA_MINUTOS.

(** The site number [atualizar_registro] reads off the stored label, for a
    label whose run of digits [int] converts. *)
Definition filial_num_de (filial_tx : valor) : option Z :=
  if truthy filial_tx then
    match re_search_digits (str_valor filial_tx) with
    | Some m => Some (int_of_digits m)
    | None => None
    end
  else None.

(** The run of digits of the stored label, if it has one, is one that [int]
    converts. *)
Definition filial_aceita (filial_tx : valor) : bool :=
  match re_search_digits (str_valor filial_tx) with
  | Some m => int_aceita m
  | None => true
  end.

(** The deviation [atualizar_registro] stores for the new time of day. *)
Definition diff_bruta_atualizar (dt_reg_dia : datetime) (hora_prevista novo_obj : time) : Z :=
  let dt_previsto :=
    replace_hm dt_reg_dia (t_hour hora_prevista) (t_minute hora_prevista) in
  let dt_novo := replace_hm dt_reg_dia (t_hour novo_obj) (t_minute novo_obj) in
  diff_minutos dt_novo dt_previsto.

(** [if nova_observacao is not None: ...]; the answer is what is added to
    [campos_atualizados]. *)
Definition bloco_observacao (id_registro : string) (nova_observacao : option string)
  : M Z :=
  match nova_observacao with
  | Some obs => execute (upd_observacao obs id_registro)
  | None => ret 0
  end.

(** [if novo_horario is not None: ...]; [inl] is a [return] out of the
    function, [inr] what is added to [campos_atualizados].  The stored
    label is one whose run of digits [int] converts ([filial_aceita]). *)
Definition bloco_horario (id_registro : string) (novo_horario : option string)
  : M ((string * string) + Z) :=
  match novo_horario with
  | None => ret (inr 0)
  | Some hs =>
      match Strptime.parse_HMS hs with
      | None => ret (inl ("Formato de hora inválido. Use HH:MM:SS.", "error"))
      | Some novo_obj =>
          row <- execute (sel_registro_filial DictCursor id_registro) ;;
          match row with
          | None => ret (inr 0)
          | Some l =>
              descricao <- lift (getitem_nome l "descricao") ;;
              data_str <- lift (getitem_nome l "data") ;;
              filial_tx <- lift (getitem_nome l "filial") ;;
              let filial_num := filial_num_de filial_tx in
              let hora_prevista :=
                get_horario_padrao filial_num (str_valor descricao) in
              dt_reg_dia <- match Strptime.parse_Ymd (str_valor data_str) with
                            | Some d => ret d
                            | None => raise (ValueError "time data does not match format")
                            end ;;
              let diff_bruta := diff_bruta_atualizar dt_reg_dia hora_prevista novo_obj in
              let diff_final := diff_final_atualizar_registro diff_bruta in
              n <- execute (upd_hora hs diff_final id_registro) ;;
              ret (inr n)
          end
      end
  end.

(** What runs on the open connection: the body of the [with] blocks, up to
    [conn.commit()]. *)
Definition corpo_atualizar_registro (id_registro : string)
  (novo_horario nova_observacao : option string) : M (string * string) :=
  registro_existente <- execute (sel_registro DictCursor id_registro) ;;
  match registro_existente with
  | None => ret ("Registro não encontrado.", "error")
  | Some _ =>
      n1 <- bloco_observacao id_registro nova_observacao ;;
      r <- bloco_horario id_registro novo_horario ;;
      match r with
      | inl v => ret v
      | inr n2 =>
          if n1 + n2 =? 0
          then ret ("Nenhuma alteração foi realizada.", "warning")
          else commit ;;; ret ("Registro atualizado com sucesso.", "success")
      end
  end.

Definition atualizar_registro (id_registro : string)
  (novo_horario nova_observacao : option string) : M (string * string) :=
  try_except
    (get_db_connection
       (corpo_atualizar_registro id_registro novo_horario nova_observacao))
    is_psycopg2_error
    (fun e => ret ("Erro no banco de dados: " ++ str_excecao e, "error")).

Definition valor_id (v : valor) : option Z :=
  match v with VInt n => Some n | _ => None end.

Definition adicionar_funcionario (codigo nome nome_empresa : string)
  (cnpj : option string) (cpf : string) (cod_tipo tipo filial : option string)
  : M (string * string) :=
  if negb (forallb nao_vazia [codigo; nome; nome_empresa; cpf])
  then ret ("Campos essenciais (Código Forte, Nome, Empresa, CPF) são obrigatórios.",
            "error")
  else
    try_except
      (get_db_connection
         (existente <- execute (sel_cpf RealDictCursor cpf) ;;
          match existente with
          | Some _ => ret ("O CPF '" ++ cpf ++ "' já está em uso.", "warning")
          | None =>
              empresa_id <- _obter_ou_criar_empresa_id RealDictCursor nome_empresa cnpj ;;
              let senha_hash := _hash_senha codigo in
              execute (ins_funcionario
                         (mk_funcionario cpf codigo nome senha_hash "employee"
                            (valor_id empresa_id) cod_tipo tipo filial)) ;;;
              commit ;;;
              ret ("Funcionário '" ++ nome ++ "' adicionado com sucesso!", "success")
          end))
      is_psycopg2_error
      (fun e => ret ("Erro no banco de dados: " ++ str_excecao e, "error")).

Definition _extrair_filial_do_texto (texto_arquivo : string) : string :=
  let texto_lower := lower texto_arquivo in
  if contains "matriz" texto_lower then "Matriz"
  else if contains "filial 02" texto_lower || contains "filial 2" texto_lower
  then "Filial 02"
  else if contains "filial 03" texto_lower || contains "filial 3" texto_lower
  then "Filial 03"
  else if contains "filial 04" texto_lower || contains "filial 4" texto_lower
  then "Filial 04"
  else "Não Identificada".

(** A row of the uploaded sheet, each cell as [str(row[...])] renders it, and
    the sheet: its column labels and its rows with their index labels. *)
Record linha_planilha := mk_linha_planilha {
  ARQUIVO : string; EMPRESA : string; CNPJ : string; CODTIPO : string;
  TIPO : string; CODFORTE : string; NOME : string; CPF : string
}.

Record planilha := mk_planilha {
  columns : list string;
  linhas : list (Z * linha_planilha)
}.

(** The cells of a row hold no NUL character. *)
Definition linha_sem_nul (row : linha_planilha) : bool :=
  sem_nul (ARQUIVO row) && sem_nul (EMPRESA row) && sem_nul (CNPJ row)
  && sem_nul (CODTIPO row) && sem_nul (TIPO row) && sem_nul (CODFORTE row)
  && sem_nul (NOME row) && sem_nul (CPF row).

(** The variables the loop of the import carries. *)
Record acumulador := mk_acumulador {
  novos_funcionarios : list funcionario;
  erros : list string;
  ignorados_count : Z;
  cpfs_existentes : list string;
  empresas_existentes : list (string * valor)
}.

Definition colunas_necessarias : list string :=
  ["ARQUIVO"; "EMPRESA"; "CNPJ"; "CODTIPO"; "TIPO"; "CODFORTE"; "NOME"; "CPF"].

(** The company id of a row: the cached one, or the one looked up or created
    in the store, which is then cached. *)
Definition empresa_id_da_linha (acc : acumulador) (nome_empresa cnpj : string)
  : M (valor * list (string * valor)) :=
  let cached := match assoc (lower nome_empresa) (empresas_existentes acc) with
                | Some v => v
                | None => VNull
                end in
  if negb (truthy cached) then
    id <- _obter_ou_criar_empresa_id RealDictCursor nome_empresa (Some cnpj) ;;
    ret (id, dict_set (lower nome_empresa) id (empresas_existentes acc))
  else ret (cached, empresas_existentes acc).

(** The body of the [for] loop, with its [try]/[except Exception]. *)
Definition processa_linha (acc : acumulador) (il : Z * linha_planilha)
  : M acumulador :=
  let (index, row) := il in
  let filial := _extrair_filial_do_texto (ARQUIVO row) in
  let nome_empresa := strip (EMPRESA row) in
  let cnpj := strip (CNPJ row) in
  let cod_tipo := strip (CODTIPO row) in
  let tipo := strip (TIPO row) in
  let codigo := strip (CODFORTE row) in
  let nome := strip (NOME row) in
  let cpf_raw := strip (CPF row) in
  if str_in cpf_raw (cpfs_existentes acc) then
    ret (mk_acumulador (novos_funcionarios acc) (erros acc)
           (ignorados_count acc + 1) (cpfs_existentes acc)
           (empresas_existentes acc))
  else if negb (forallb nao_vazia [codigo; nome; cpf_raw; nome_empresa]) then
    ret (mk_acumulador (novos_funcionarios acc)
           (erros acc ++ ["Linha " ++ str_of_Z (index + 2)
              ++ ": Dados essenciais (CodForte, Nome, CPF, Empresa) incompletos."])
           (ignorados_count acc) (cpfs_existentes acc)
           (empresas_existentes acc))
  else
    try_except
      (ie <- empresa_id_da_linha acc nome_empresa cnpj ;;
       let senha_hash := _hash_senha codigo in
       ret (mk_acumulador
              (novos_funcionarios acc
               ++ [mk_funcionario cpf_raw codigo nome senha_hash "employee"
                     (valor_id (fst ie)) (Some cod_tipo) (Some tipo) (Some filial)])
              (erros acc) (ignorados_count acc)
              (cpfs_existentes acc ++ [cpf_raw]) (snd ie)))
      (fun _ => true)
      (fun e =>
         ret (mk_acumulador (novos_funcionarios acc)
                (erros acc ++ ["Linha " ++ str_of_Z (index + 2) ++ ": Erro - "
                               ++ str_excecao e])
                (ignorados_count acc) (cpfs_existentes acc)
                (empresas_existentes acc))).

Fixpoint processa_linhas (ls : list (Z * linha_planilha)) (acc : acumulador)
  : M acumulador :=
  match ls with
  | [] => ret acc
  | il :: rest =>
      acc1 <- processa_linha acc il ;;
      processa_linhas rest acc1
  end.

(** [if novos_funcionarios: try: executemany ... except psycopg2.Error ...]:
    the success count and the error list after it. *)
Definition insere_novos (acc : acumulador) : M (Z * list string) :=
  match novos_funcionarios acc with
  | [] => ret (0, erros acc)
  | _ :: _ =>
      try_except
        (execute (ins_funcionarios (novos_funcionarios acc)) ;;;
         ret (Z.of_nat (List.length (novos_funcionarios acc)), erros acc))
        is_psycopg2_error
        (fun e => ret (0, (erros acc
                           ++ [("Erro geral no banco de dados: "
                                ++ str_excecao e)%string])%list))
  end.

(** The state of the loop before the first row. *)
Definition acumulador_inicial (cpfs : list string) (emps : list empresa)
  : acumulador :=
  mk_acumulador [] [] 0 cpfs
    (dict_zip (map (fun e => (lower (e_nome_empresa e), VInt (e_id e))) emps)).

Definition importar_funcionarios_em_massa (df_funcionarios : planilha)
  : M (Z * Z * list string) :=
  cpfs <- ler_funcionarios_cpfs ;;
  if negb (forallb (fun col => str_in col (columns df_funcionarios))
                   colunas_necessarias)
  then ret (0, 0,
            ["Erro Crítico: Verifique se as colunas ['ARQUIVO', 'EMPRESA', 'CNPJ', 'CODTIPO', 'TIPO', 'CODFORTE', 'NOME', 'CPF'] existem no arquivo."])
  else
    get_db_connection
      (emps <- ler_empresas ;;
       acc <- processa_linhas (linhas df_funcionarios)
                (acumulador_inicial cpfs emps) ;;
       fim <- insere_novos acc ;;
       commit ;;;
       ret (fst fim, ignorados_count acc, snd fim)).

(** The answer is the pair [(dict(user), None)] or [(None, message)]. *)
Definition verificar_login (cpf senha_cod_forte : string)
  : M (option (list (string * valor)) * option string) :=
  let senha_hash := _hash_senha senha_cod_forte in
  user <- get_db_connection (execute (sel_login DictCursor cpf senha_hash)) ;;
  ret (match user with
       | Some l => (Some (dict_de_linha l), None)
       | None => (None, Some "CPF ou Senha (Código Forte) inválidos.")
       end).


(** [td] is the duration in microseconds, [None] for a missing one
    ([pd.isnull]); [int] cuts the seconds towards zero and [divmod] takes
    floors. *)
Definition _formatar_timedelta (td : option Z) : string :=
  match td with
  | None => "00:00"
  | Some us =>
      let total_seconds := Z.quot us 1000000 in
      let hours := total_seconds / 3600 in
      let remainder := total_seconds mod 3600 in
      let minutes := remainder / 60 in
      zfill 2 hours ++ ":" ++ zfill 2 minutes
  end.

End Servicos.

(** ** Configuration used in the examples *)

(** Modelled from the spec: [config.py] is not among the sources; this is
    the default mapping of event to expected time the specification names
    (Entry 08:00, Exit 18:00), in the order of the day. *)
Definition HORARIOS_PADRAO_spec : list (string * time) :=
  [("Entrada", time_hm 8 0); ("Saída", time_hm 18 0)].

(** Modelled from the spec: the tolerance of the specification's scenarios,
    ten minutes; [config.py] is not among the sources. *)
Definition TOLERANCIA_MINUTOS_spec : Z := 10.

(** ** A store to run the operations on *)

Definition ana : funcionario :=
  mk_funcionario "12345678900" "CF001" "Ana" "c0ffee" "employee"
                 None None None (Some "Matriz").

Definition saida_de_ana : registro :=
  mk_registro "12345678900-2024-03-05T18:25:00-03:00" "12345678900" "Ana"
              "2024-03-05" "18:25:00" "Saída" 15 (Some "").

Definition entrada_de_ana : registro :=
  mk_registro "12345678900-2024-03-05T08:07:00-03:00" "12345678900" "Ana"
              "2024-03-05" "08:07:00" "Entrada" 0 (Some "").

Definition banco_exemplo : banco := mk_banco [] [ana] [entrada_de_ana; saida_de_ana].

(** The store with the answers [o] of the oracle ahead. *)
Definition estado_exemplo (o : list (option string)) : estado :=
  mk_estado banco_exemplo banco_exemplo false 1 o.

(** The scenario of the specification: the Exit of 18:25 corrected to 18:05
    has its deviation go from 15 to 0. *)
Definition banco_corrigido : banco :=
  mk_banco [] [ana]
    [entrada_de_ana;
     mk_registro (r_id saida_de_ana) "12345678900" "Ana" "2024-03-05"
                 "18:05:30" "Saída" 0 (Some "visto")].

Definition banco_importacao : banco :=
  mk_banco [mk_empresa 1 "ACME" (Some "00.000.000/0001-00")] [ana] [].

Definition estado_importacao : estado :=
  mk_estado banco_importacao banco_importacao false 2 [].

(** A sheet of three rows: an id on file, a new id, the new id again. *)
Definition planilha_exemplo : planilha :=
  mk_planilha colunas_necessarias
    [(0, mk_linha_planilha "Matriz.xlsx" "ACME" "00.000.000/0001-00" "1" "Loja"
                           "CF001" "Ana" " 12345678900 ");
     (1, mk_linha_planilha "Filial 03.xlsx" "ACME" "00.000.000/0001-00" "1" "Loja"
                           "CF002" "Bia" "98765432100");
     (2, mk_linha_planilha "Filial 03.xlsx" "ACME" "00.000.000/0001-00" "1" "Loja"
                           "CF002" "Bia" "98765432100")].

(** ** Predicates of the statements *)

(** [r'] is [r] with, at most, its time of day, deviation and annotation
    changed, and is [r] itself when [r] is not the punch [id]. *)
Definition mesmo_alvo (id : string) (r r' : registro) : Prop :=
  r_id r' = r_id r
  /\ r_cpf_funcionario r' = r_cpf_funcionario r
  /\ r_nome r' = r_nome r
  /\ r_data r' = r_data r
  /\ r_descricao r' = r_descricao r
  /\ (r_id r <> id -> r' = r).

(** The tables [b'] are the tables [b] with nothing changed but, at most,
    those three fields of the punch [id]: same rows in the same order. *)
Definition quadro (id : string) (b b' : banco) : Prop :=
  empresas b' = empresas b
  /\ funcionarios b' = funcionarios b
  /\ Forall2 (mesmo_alvo id) (registros b) (registros b').

(** What a run of the body leaves: a "success" answer with, at most, the
    three fields of the punch changed in the committed tables, or any other
    answer or exception with the committed tables as they were. *)
Definition contrato_atualizar (id : string) (d0 : banco)
  (rs : resultado (string * string) * estado) : Prop :=
  match rs with
  | (Ok v, s') =>
      (snd v = "success" /\ quadro id d0 (duravel s'))
      \/ (snd v <> "success" /\ duravel s' = d0)
  | (Raise e, s') =>
      duravel s' = d0
      /\ (is_psycopg2_error e = true \/ exists m, e = ValueError m)
  end.

(** Two sets of tables that are equal, or that come from the same tables by
    writing two times of day and one and the same deviation on the punch. *)
Definition mesmos_desvios (hs1 hs2 id : string) (b1 b2 : banco) : Prop :=
  b1 = b2
  \/ exists b d,
       b1 = atualiza_registros b (atualiza_onde id (com_hora hs1 d) (registros b))
       /\ b2 = atualiza_registros b (atualiza_onde id (com_hora hs2 d) (registros b)).

(** What the loop keeps true: the ids known are the ids on file followed by
    the ids queued, and the queue holds each id once and none that is on
    file. *)
Definition inv_importacao (cpfs : list string) (acc : acumulador) : Prop :=
  cpfs_existentes acc = (cpfs ++ map f_cpf (novos_funcionarios acc))%list
  /\ NoDup (map f_cpf (novos_funcionarios acc))
  /\ (forall c, In c (map f_cpf (novos_funcionarios acc)) -> ~ In c cpfs).

(** Of the answers [o] of the oracle a run has used those before [o']:
    all but the last said that the store answers, and the last that it
    fails with [msg]. *)
Definition falha_encontrada (o o' : list (option string)) (msg : string) : Prop :=
  exists k, o = (repeat None k ++ Some msg :: o')%list.

(** The answers used all said that the store answers. *)
Definition sem_falha (o o' : list (option string)) : Prop :=
  exists k, o = (repeat None k ++ o')%list.

(** What a step that starts in [s] leaves when no statement is refused: an
    answer, or an exception that is not the store's, after answers of the
    oracle that all said that the store answers; or the exception of the
    failure the oracle announced. *)
Definition passo {A} (s : estado) (rs : resultado A * estado) : Prop :=
  match rs with
  | (Ok _, s') => abortada s' = false /\ sem_falha (oraculo s) (oraculo s')
  | (Raise (Psycopg2Error msg), s') =>
      falha_encontrada (oraculo s) (oraculo s') msg
  | (Raise _, s') => sem_falha (oraculo s) (oraculo s')
  end.

(** [g] leaves the id, the employee, the date and the event of a punch as
    they are. *)
Definition preserva_chaves (g : registro -> registro) : Prop :=
  forall x, r_id (g x) = r_id x
            /\ r_cpf_funcionario (g x) = r_cpf_funcionario x
            /\ r_data (g x) = r_data x
            /\ r_descricao (g x) = r_descricao x.

(** What a correction amounts to when the store answers, read off the
    employees [fs] and the punches [rs]: its answer and, when it commits,
    the change it makes to the punch [id]. *)
Definition correcao_pura (T : Z) (id : string)
  (novo_horario nova_observacao : option string)
  (fs : list funcionario) (rs : list registro)
  : resultado (string * string) * option (registro -> registro) :=
  match find (fun r => String.eqb (r_id r) id) rs with
  | None => (Ok ("Registro não encontrado.", "error"), None)
  | Some _ =>
      let go := match nova_observacao with
                | Some o => com_observacao o
                | None => fun r => r
                end in
      let n1 := match nova_observacao with
                | Some _ => conta (fun r => String.eqb (r_id r) id) rs
                | None => 0
                end in
      let fim (n : Z) (G : registro -> registro) :=
        if n =? 0
        then (Ok ("Nenhuma alteração foi realizada.", "warning"), None)
        else (Ok ("Registro atualizado com sucesso.", "success"), Some G) in
      match novo_horario with
      | None => fim n1 go
      | Some hs =>
          match Strptime.parse_HMS hs with
          | None => (Ok ("Formato de hora inválido. Use HH:MM:SS.", "error"), None)
          | Some novo_obj =>
              match find (fun r => String.eqb (r_id r) id
                                   && existsb (fun x => String.eqb (f_cpf x)
                                                          (r_cpf_funcionario r)) fs)
                         rs with
              | None => fim n1 go
              | Some r =>
                  match find (fun x => String.eqb (f_cpf x) (r_cpf_funcionario r))
                             fs with
                  | None => fim n1 go
                  | Some x =>
                      match Strptime.parse_Ymd (r_data r) with
                      | None =>
                          (Raise (ValueError "time data does not match format"),
                           None)
                      | Some dt =>
                          fim (n1 + conta (fun r => String.eqb (r_id r) id) rs)
                              (fun y =>
                                 com_hora hs
                                   (diff_final_atualizar_registro T
                                      (diff_bruta_atualizar dt
                                         (get_horario_padrao
                                            (filial_num_de (valor_opt (f_filial x)))
                                            (r_descricao r))
                                         novo_obj))
                                   (go y))
                      end
                  end
              end
          end
      end
  end.

(** Unfolds an answer of the body down to its contract. *)
Ltac folha := unfold contrato_atualizar, ret, raise; simpl.

(** * The library models on examples *)

Example parse_HMS_two_digits : Strptime.parse_HMS "18:05:59" = Some (mk_time 18 5 59).
Proof. reflexivity. Qed.

Example parse_HMS_one_digit : Strptime.parse_HMS "8:5:3" = Some (mk_time 8 5 3).
Proof. reflexivity. Qed.

Example parse_HMS_hour_24 : Strptime.parse_HMS "24:00:00" = None.
Proof. reflexivity. Qed.

Example parse_HMS_second_60 : Strptime.parse_HMS "23:59:60" = None.
Proof. reflexivity. Qed.

Example parse_Ymd_leap_day :
  Strptime.parse_Ymd "2024-02-29" = Some (mk_datetime 2024 2 29 0 0 0 0 "").
Proof. reflexivity. Qed.

Example parse_Ymd_no_leap_day : Strptime.parse_Ymd "2023-02-29" = None.
Proof. reflexivity. Qed.

Example isoformat_fraction :
  isoformat (mk_datetime 2024 3 5 8 7 0 12 "-03:00")
  = "2024-03-05T08:07:00.000012-03:00".
Proof. reflexivity. Qed.

Example round_div_half_even :
  (round_div 90 60, round_div 30 60, round_div (-30) 60, round_div 150 60)
  = (2, 0, 0, 2).
Proof. reflexivity. Qed.

(** * The tolerance band *)

Lemma diff_final_mesma_regra (T r : Z) :
  diff_final_atualizar_registro T r = diff_final_bater_ponto T r.
Proof. reflexivity. Qed.

Lemma diff_final_bater_ponto_casos (T r : Z) :
  (Z.abs r <= T /\ diff_final_bater_ponto T r = 0)
  \/ (T < Z.abs r /\ 0 < r /\ diff_final_bater_ponto T r = r - T)
  \/ (T < Z.abs r /\ r <= 0 /\ diff_final_bater_ponto T r = r + T).
Proof.
  unfold diff_final_bater_ponto.
  destruct (Z.leb_spec (Z.abs r) T) as [Hle | Hgt].
  - left. split; [exact Hle | reflexivity].
  - destruct (Z.gtb_spec r 0) as [Hpos | Hneg].
    + right; left. repeat split; lia.
    + right; right. repeat split; lia.
Qed.

(** C1: for a tolerance [T >= 0] and a raw deviation [r], the deviation both
    flows compute is 0 exactly when [|r| <= T]; otherwise it is [r - T] for a
    positive [r] and [r + T] for a negative one, so it keeps the sign of [r]
    and has magnitude [|r| - T]. *)
Theorem desvio_com_tolerancia (T r : Z) :
  0 <= T ->
  diff_final_atualizar_registro T r = diff_final_bater_ponto T r
  /\ (diff_final_bater_ponto T r = 0 <-> Z.abs r <= T)
  /\ (T < Z.abs r ->
      (0 < r -> diff_final_bater_ponto T r = r - T)
      /\ (r < 0 -> diff_final_bater_ponto T r = r + T)
      /\ Z.sgn (diff_final_bater_ponto T r) = Z.sgn r
      /\ Z.abs (diff_final_bater_ponto T r) = Z.abs r - T).
Proof.
  intros HT. split; [apply diff_final_mesma_regra |].
  destruct (diff_final_bater_ponto_casos T r)
    as [[Hle Hd] | [[Hgt [Hr Hd]] | [Hgt [Hr Hd]]]]; rewrite Hd.
  - split; [tauto | lia].
  - split; [split; lia |]. intros _. repeat split; lia.
  - split; [split; lia |]. intros _. repeat split; lia.
Qed.

(** The rule at a tolerance of 10 and a raw deviation of 25 minutes. *)
Lemma desvio_com_tolerancia_exemplo :
  0 <= 10
  /\ diff_final_atualizar_registro 10 25 = diff_final_bater_ponto 10 25
  /\ (diff_final_bater_ponto 10 25 = 0 <-> Z.abs 25 <= 10)
  /\ (10 < Z.abs 25 ->
      (0 < 25 -> diff_final_bater_ponto 10 25 = 25 - 10)
      /\ (25 < 0 -> diff_final_bater_ponto 10 25 = 25 + 10)
      /\ Z.sgn (diff_final_bater_ponto 10 25) = Z.sgn 25
      /\ Z.abs (diff_final_bater_ponto 10 25) = Z.abs 25 - 10).
Proof.
  split; [lia | apply (desvio_com_tolerancia 10 25); lia].
Defined.

(** * The message of [bater_ponto] *)

(** Taken on its own, the [if]/[elif] that sets [status_final] reaches its
    second branch: a raw deviation of 7 minutes under a tolerance of 10
    gives a final deviation of 0 and the text of [elif diff_bruta != 0]. *)
Lemma ramo_tolerancia_alcancado :
  ramo_status_final (diff_final_bater_ponto 10 7) 7 = RamoTolerancia
  /\ status_final (diff_final_bater_ponto 10 7) 7
     = " (dentro da tolerância, registrado como 'em ponto')".
Proof. split; reflexivity. Qed.

(** Taken on its own, the [if]/[elif] takes the branch of
    [elif diff_bruta != 0] exactly when the raw deviation is not zero and
    lies within the tolerance. *)
Lemma ramo_tolerancia_exato (T r : Z) :
  ramo_status_final (diff_final_bater_ponto T r) r = RamoTolerancia
  <-> (r <> 0 /\ Z.abs r <= T).
Proof.
  unfold ramo_status_final.
  destruct (diff_final_bater_ponto_casos T r)
    as [[Hle Hd] | [[Hgt [Hr Hd]] | [Hgt [Hr Hd]]]]; rewrite Hd.
  - simpl. destruct (Z.eqb_spec r 0) as [-> | Hne]; simpl.
    + split; [discriminate | intros [H _]; contradiction].
    + split; [intros _; split; assumption | reflexivity].
  - destruct (Z.eqb_spec (r - T) 0) as [H0 | _]; [lia |]. simpl.
    split; [discriminate | lia].
  - destruct (Z.eqb_spec (r + T) 0) as [H0 | _]; [lia |]. simpl.
    split; [discriminate | lia].
Qed.

(** * The expected time of a site *)

Lemma get_horario_padrao_3_4 (n : Z) (ev : string) :
  n = 3 \/ n = 4 ->
  get_horario_padrao (Some n) ev
  = if String.eqb ev "Entrada" then time_hm 7 30 else time_hm 17 30.
Proof. intros [-> | ->]; reflexivity. Qed.

Lemma get_horario_padrao_outros (filial : option Z) (ev : string) :
  filial <> Some 3 -> filial <> Some 4 ->
  get_horario_padrao filial ev
  = if String.eqb ev "Entrada" then time_hm 8 0 else time_hm 18 0.
Proof.
  intros H3 H4. unfold get_horario_padrao.
  destruct filial as [n |]; [| reflexivity].
  destruct (Z.eqb_spec n 3) as [-> | _]; [contradiction H3; reflexivity |].
  destruct (Z.eqb_spec n 4) as [-> | _]; [contradiction H4; reflexivity |].
  reflexivity.
Qed.

Lemma filial_num_de_texto (s : string) :
  filial_num_de (VText s)
  = match re_search_digits s with
    | Some m => Some (int_of_digits m)
    | None => None
    end.
Proof.
  unfold filial_num_de. simpl.
  destruct (String.eqb_spec s "") as [-> | _]; reflexivity.
Qed.

(** For a site other than 3 and 4 the resolver does not read the configured
    mapping: with a mapping that sets the Entry at 09:00, the site "Matriz"
    is still expected at 08:00. *)
Lemma horario_padrao_nao_vem_da_configuracao :
  dict_getitem [("Entrada", time_hm 9 0); ("Saída", time_hm 19 0)] "Entrada"
  = Ok (time_hm 9 0)
  /\ filial_num_de (VText "Matriz") = None
  /\ get_horario_padrao (filial_num_de (VText "Matriz")) "Entrada" = time_hm 8 0.
Proof. repeat split; vm_compute; reflexivity. Qed.

(** C2: for a site numbered 3 or 4, given as that integer or as a label
    whose first run of decimal digits (one that [int] converts) reads 3 or
    4, the expected time is
    07:30 for the Entry and 17:30 for the Exit, as the claim says.  For
    every other site, a label without digits included, it is 08:00 for the
    Entry and 18:00 for the Exit, fixed in the resolver itself: whatever
    mapping [HORARIOS_PADRAO] is configured, a time it gives an event that
    is not that fixed time is not the time the resolver answers, while
    [bater_ponto], for a site outside its four spellings, takes the
    configured mapping. *)
Theorem horario_previsto_por_filial (filial : option Z) (label : string) :
  ((filial = Some 3 \/ filial = Some 4) ->
   get_horario_padrao filial "Entrada" = time_hm 7 30
   /\ get_horario_padrao filial "Saída" = time_hm 17 30)
  /\ (forall m, re_search_digits label = Some m ->
      int_aceita m = true ->
      int_of_digits m = 3 \/ int_of_digits m = 4 ->
      get_horario_padrao (filial_num_de (VText label)) "Entrada" = time_hm 7 30
      /\ get_horario_padrao (filial_num_de (VText label)) "Saída" = time_hm 17 30)
  /\ (filial <> Some 3 -> filial <> Some 4 ->
      get_horario_padrao filial "Entrada" = time_hm 8 0
      /\ get_horario_padrao filial "Saída" = time_hm 18 0)
  /\ (forall m, re_search_digits label = Some m ->
      int_aceita m = true ->
      int_of_digits m <> 3 -> int_of_digits m <> 4 ->
      get_horario_padrao (filial_num_de (VText label)) "Entrada" = time_hm 8 0
      /\ get_horario_padrao (filial_num_de (VText label)) "Saída" = time_hm 18 0)
  /\ (re_search_digits label = None ->
      get_horario_padrao (filial_num_de (VText label)) "Entrada" = time_hm 8 0
      /\ get_horario_padrao (filial_num_de (VText label)) "Saída" = time_hm 18 0)
  /\ (forall (H : list (string * time)) (ev : string) (t : time),
      filial <> Some 3 -> filial <> Some 4 ->
      dict_getitem H ev = Ok t ->
      t <> (if String.eqb ev "Entrada" then time_hm 8 0 else time_hm 18 0) ->
      get_horario_padrao filial ev <> t)
  /\ (forall (H : list (string * time)) (v : valor),
      valor_in v ["Filial 03"; "Filial 3"; "Filial 04"; "Filial 4"] = false ->
      horarios_bater_ponto H v = H).
Proof.
  split; [| split; [| split; [| split; [| split; [| split]]]]].
  - intros [-> | ->]; split; reflexivity.
  - intros m Hm _ H34. rewrite filial_num_de_texto, Hm.
    split; rewrite (get_horario_padrao_3_4 _ _ H34); reflexivity.
  - intros H3 H4.
    split; rewrite (get_horario_padrao_outros _ _ H3 H4); reflexivity.
  - intros m Hm _ H3 H4. rewrite filial_num_de_texto, Hm.
    split; rewrite get_horario_padrao_outros; try reflexivity; congruence.
  - intros Hm. rewrite filial_num_de_texto, Hm. split; reflexivity.
  - intros H ev t H3 H4 _ Ht.
    rewrite (get_horario_padrao_outros _ _ H3 H4). congruence.
  - intros H v Hv. unfold horarios_bater_ponto. rewrite Hv. reflexivity.
Qed.

(** The label "Filial 03", whose first run of digits reads 3; the label
    "Filial ٣", in Arabic-Indic digits, which reads 3 as well; and the site
    "Matriz" under a mapping that sets the Entry at 09:00. *)
Lemma horario_previsto_por_filial_exemplo :
  (get_horario_padrao (filial_num_de (VText "Filial 03")) "Entrada" = time_hm 7 30
   /\ get_horario_padrao (filial_num_de (VText "Filial 03")) "Saída" = time_hm 17 30)
  /\ (get_horario_padrao (filial_num_de (VText "Filial ٣")) "Entrada" = time_hm 7 30
      /\ get_horario_padrao (filial_num_de (VText "Filial ٣")) "Saída" = time_hm 17 30)
  /\ get_horario_padrao None "Entrada" <> time_hm 9 0.
Proof.
  split; [| split].
  - destruct (horario_previsto_por_filial (Some 3) "Filial 03") as [_ [H _]].
    apply (H "03");
      [vm_compute; reflexivity | vm_compute; reflexivity
       | left; vm_compute; reflexivity].
  - destruct (horario_previsto_por_filial (Some 3) "Filial ٣") as [_ [H _]].
    apply (H "٣");
      [vm_compute; reflexivity | vm_compute; reflexivity
       | left; vm_compute; reflexivity].
  - destruct (horario_previsto_por_filial None "Matriz")
      as (_ & _ & _ & _ & _ & H & _).
    apply (H [("Entrada", time_hm 9 0); ("Saída", time_hm 19 0)] "Entrada");
      [discriminate | discriminate | reflexivity | discriminate].
Defined.

(** Read as functions of the stored label, the two places that hold the
    rule of sites 3 and 4 differ: for the label "filial 03" and the Entry,
    under the default mapping, the four spellings of [bater_ponto] do not
    match and the first run of digits [atualizar_registro] extracts reads
    3. *)
Lemma regra_filial_diverge :
  dict_getitem (horarios_bater_ponto HORARIOS_PADRAO_spec (VText "filial 03"))
               "Entrada" = Ok (time_hm 8 0)
  /\ get_horario_padrao (filial_num_de (VText "filial 03")) "Entrada"
     = time_hm 7 30.
Proof. split; reflexivity. Qed.

(** On the labels the bulk import assigns, and under the default mapping,
    the two places agree. *)
Lemma regra_filial_concorda_nos_rotulos_da_importacao (texto ev : string) :
  ev = "Entrada" \/ ev = "Saída" ->
  dict_getitem (horarios_bater_ponto HORARIOS_PADRAO_spec
                  (VText (_extrair_filial_do_texto texto))) ev
  = Ok (get_horario_padrao
          (filial_num_de (VText (_extrair_filial_do_texto texto))) ev).
Proof.
  intros Hev. unfold _extrair_filial_do_texto.
  repeat match goal with
         | |- context [if ?c then _ else _] => destruct c
         end;
    destruct Hev as [-> | ->]; reflexivity.
Qed.

(** * How the primitives move the state *)

Lemma consulta_oraculo_campos (s : estado) :
  duravel (snd (consulta_oraculo s)) = duravel s
  /\ transacao (snd (consulta_oraculo s)) = transacao s
  /\ abortada (snd (consulta_oraculo s)) = abortada s
  /\ seq_empresas (snd (consulta_oraculo s)) = seq_empresas s.
Proof.
  unfold consulta_oraculo. destruct (oraculo s); simpl; repeat split.
Qed.

Lemma consulta_oraculo_par (s : estado) :
  consulta_oraculo s = (fst (consulta_oraculo s), snd (consulta_oraculo s)).
Proof. destruct (consulta_oraculo s); reflexivity. Qed.

(** A statement either fails, and the tables stay as they were, or answers
    on the tables of the transaction and leaves its result there; the
    committed tables are not touched. *)
Lemma execute_casos {A} (q : comando A) (s : estado) :
  (exists msg s', execute q s = (Raise (Psycopg2Error msg), s')
                  /\ duravel s' = duravel s /\ transacao s' = transacao s)
  \/ (exists a b, execute q s
                  = (Ok a, com_transacao (snd (consulta_oraculo s)) b false)
                  /\ q (transacao s) = inr (a, b)).
Proof.
  unfold execute.
  destruct (consulta_oraculo_campos s) as (Hd & Ht & Ha & _).
  rewrite (consulta_oraculo_par s).
  destruct (fst (consulta_oraculo s)) as [msg |].
  - left. exists msg. eexists. split; [reflexivity |]. simpl. auto.
  - destruct (abortada (snd (consulta_oraculo s))).
    + left. eexists. eexists. split; [reflexivity |]. auto.
    + rewrite Ht. destruct (q (transacao s)) as [msg | [a b]].
      * left. exists msg. eexists. split; [reflexivity |]. simpl. auto.
      * right. exists a, b. split; reflexivity.
Qed.

Lemma com_transacao_campos (s : estado) (b : banco) (ab : bool) :
  duravel (com_transacao s b ab) = duravel s
  /\ transacao (com_transacao s b ab) = b.
Proof. split; reflexivity. Qed.

Lemma connect_casos (s : estado) :
  (exists msg s', connect s = (Raise (Psycopg2Error msg), s')
                  /\ duravel s' = duravel s)
  \/ (exists s', connect s = (Ok tt, s')
                 /\ duravel s' = duravel s /\ transacao s' = duravel s).
Proof.
  unfold connect.
  destruct (consulta_oraculo_campos s) as (Hd & _).
  rewrite (consulta_oraculo_par s).
  destruct (fst (consulta_oraculo s)) as [msg |].
  - left. exists msg. eexists. split; [reflexivity | exact Hd].
  - right. eexists. split; [reflexivity |]. simpl. auto.
Qed.

(** Only a commit that succeeds on a live transaction changes the committed
    tables, and it sets them to the tables of the transaction. *)
Lemma commit_casos (s : estado) :
  (exists msg s', commit s = (Raise (Psycopg2Error msg), s')
                  /\ duravel s' = duravel s)
  \/ (exists s', commit s = (Ok tt, s')
                 /\ (duravel s' = transacao s \/ duravel s' = duravel s)).
Proof.
  unfold commit.
  destruct (consulta_oraculo_campos s) as (Hd & Ht & _).
  rewrite (consulta_oraculo_par s).
  destruct (fst (consulta_oraculo s)) as [msg |].
  - left. exists msg. eexists. split; [reflexivity | exact Hd].
  - right. destruct (abortada (snd (consulta_oraculo s))).
    + eexists. split; [reflexivity |]. right. simpl. exact Hd.
    + eexists. split; [reflexivity |]. left. simpl. exact Ht.
Qed.

Lemma close_duravel (s : estado) : duravel (close s) = duravel s.
Proof. reflexivity. Qed.

(** * The frame of a correction *)

Lemma mesmo_alvo_refl (id : string) (r : registro) : mesmo_alvo id r r.
Proof. unfold mesmo_alvo. tauto. Qed.

Lemma quadro_refl (id : string) (b : banco) : quadro id b b.
Proof.
  repeat split. induction (registros b); constructor;
    [apply mesmo_alvo_refl | assumption].
Qed.

Lemma mesmo_alvo_campo (id : string) (g : registro -> registro) (r r' : registro) :
  (forall x, r_id (g x) = r_id x
             /\ r_cpf_funcionario (g x) = r_cpf_funcionario x
             /\ r_nome (g x) = r_nome x
             /\ r_data (g x) = r_data x
             /\ r_descricao (g x) = r_descricao x) ->
  mesmo_alvo id r r' ->
  mesmo_alvo id r (if String.eqb (r_id r') id then g r' else r').
Proof.
  intros Hg (H1 & H2 & H3 & H4 & H5 & H6).
  destruct (String.eqb_spec (r_id r') id) as [Heq | Hne].
  - destruct (Hg r') as (G1 & G2 & G3 & G4 & G5).
    unfold mesmo_alvo. rewrite G1, G2, G3, G4, G5.
    repeat split; try assumption.
    intros Hn. exfalso. apply Hn. congruence.
  - unfold mesmo_alvo. tauto.
Qed.

Lemma quadro_atualiza_onde (id : string) (g : registro -> registro) (b b' : banco) :
  (forall x, r_id (g x) = r_id x
             /\ r_cpf_funcionario (g x) = r_cpf_funcionario x
             /\ r_nome (g x) = r_nome x
             /\ r_data (g x) = r_data x
             /\ r_descricao (g x) = r_descricao x) ->
  quadro id b b' ->
  quadro id b (atualiza_registros b' (atualiza_onde id g (registros b'))).
Proof.
  intros Hg (He & Hf & Hr). repeat split; simpl; try assumption.
  unfold atualiza_onde.
  induction Hr as [| r r' l l' Hrr _ IH]; simpl; constructor.
  - apply mesmo_alvo_campo; assumption.
  - exact IH.
Qed.

Lemma com_observacao_campos (obs : string) (x : registro) :
  r_id (com_observacao obs x) = r_id x
  /\ r_cpf_funcionario (com_observacao obs x) = r_cpf_funcionario x
  /\ r_nome (com_observacao obs x) = r_nome x
  /\ r_data (com_observacao obs x) = r_data x
  /\ r_descricao (com_observacao obs x) = r_descricao x.
Proof. repeat split. Qed.

Lemma com_hora_campos (hora : string) (dif : Z) (x : registro) :
  r_id (com_hora hora dif x) = r_id x
  /\ r_cpf_funcionario (com_hora hora dif x) = r_cpf_funcionario x
  /\ r_nome (com_hora hora dif x) = r_nome x
  /\ r_data (com_hora hora dif x) = r_data x
  /\ r_descricao (com_hora hora dif x) = r_descricao x.
Proof. repeat split. Qed.

(** * The contract of [atualizar_registro] *)

Lemma bloco_observacao_casos (id : string) (obs : option string)
  (b0 : banco) (s : estado) :
  quadro id b0 (transacao s) ->
  match bloco_observacao id obs s with
  | (Ok _, s') => duravel s' = duravel s /\ quadro id b0 (transacao s')
  | (Raise e, s') => duravel s' = duravel s /\ is_psycopg2_error e = true
  end.
Proof.
  intros Hq. unfold bloco_observacao. destruct obs as [o |].
  - destruct (execute_casos (upd_observacao o id) s)
      as [(msg & s' & Hx & Hd & _) | (a & b & Hx & Hu)]; rewrite Hx.
    + split; [exact Hd | reflexivity].
    + unfold upd_observacao in Hu. injection Hu as _ <-.
      split; [apply consulta_oraculo_campos |].
      simpl. apply quadro_atualiza_onde;
        [apply com_observacao_campos | exact Hq].
  - simpl. split; [reflexivity | exact Hq].
Qed.

Lemma bloco_horario_casos (T : Z) (id : string) (novo_horario : option string)
  (b0 : banco) (s : estado) :
  quadro id b0 (transacao s) ->
  match bloco_horario T id novo_horario s with
  | (Ok r, s') =>
      duravel s' = duravel s /\ quadro id b0 (transacao s')
      /\ (forall v, r = inl v -> snd v = "error")
  | (Raise e, s') =>
      duravel s' = duravel s
      /\ (is_psycopg2_error e = true \/ exists m, e = ValueError m)
  end.
Proof.
  intros Hq. unfold bloco_horario.
  destruct novo_horario as [hs |];
    [| simpl; split; [reflexivity | split; [exact Hq | discriminate]]].
  destruct (Strptime.parse_HMS hs) as [novo_obj |];
    [| simpl; split; [reflexivity | split;
       [exact Hq | intros v Hv; injection Hv as <-; reflexivity]]].
  unfold bind at 1.
  destruct (execute_casos (sel_registro_filial DictCursor id) s)
    as [(msg & s' & Hx & Hd & _) | (a & b & Hx & Hu)]; rewrite Hx.
  - split; [exact Hd | left; reflexivity].
  - unfold sel_registro_filial in Hu. injection Hu as <- <-.
    destruct (consulta_oraculo_campos s) as (Hd & Ht & _).
    set (s1 := com_transacao (snd (consulta_oraculo s)) (transacao s) false).
    assert (Hd1 : duravel s1 = duravel s) by exact Hd.
    assert (Hq1 : quadro id b0 (transacao s1)) by exact Hq.
    clearbody s1.
    destruct (find _ (registros (transacao s))) as [r |];
      [| simpl; split; [exact Hd1 | split; [exact Hq1 | discriminate]]].
    destruct (find _ (funcionarios (transacao s))) as [x |];
      [| simpl; split; [exact Hd1 | split; [exact Hq1 | discriminate]]].
    cbn [mk_linha bind lift getitem_nome assoc String.eqb Ascii.eqb Bool.eqb
         str_valor].
    destruct (Strptime.parse_Ymd (r_data r)) as [dt |].
    + unfold bind, ret.
      match goal with
      | |- context [execute ?q s1] =>
          destruct (execute_casos q s1)
            as [(msg & s' & Hx2 & Hd2 & _) | (a & b & Hx2 & Hu)]; rewrite Hx2
      end.
      * split; [congruence | left; reflexivity].
      * unfold upd_hora in Hu. injection Hu as _ <-.
        split; [| split; [| discriminate]].
        -- simpl. destruct (consulta_oraculo_campos s1) as (Hd3 & _). congruence.
        -- simpl. apply quadro_atualiza_onde;
             [apply com_hora_campos | exact Hq1].
    + unfold bind, raise. split; [exact Hd1 | right; eexists; reflexivity].
Qed.

Lemma corpo_atualizar_registro_contrato (T : Z) (id : string)
  (novo_horario nova_observacao : option string) (s : estado) :
  transacao s = duravel s ->
  contrato_atualizar id (duravel s)
    (corpo_atualizar_registro T id novo_horario nova_observacao s).
Proof.
  intros Hts. unfold corpo_atualizar_registro. unfold bind at 1.
  destruct (execute_casos (sel_registro DictCursor id) s)
    as [(msg & s' & Hx & Hd & _) | (a & b & Hx & Hu)]; rewrite Hx.
  { folha. split; [exact Hd | left; reflexivity]. }
  unfold sel_registro in Hu. injection Hu as <- <-.
  destruct (consulta_oraculo_campos s) as (Hd & _).
  set (s1 := com_transacao (snd (consulta_oraculo s)) (transacao s) false).
  assert (Hd1 : duravel s1 = duravel s) by exact Hd.
  assert (Hq1 : quadro id (duravel s) (transacao s1))
    by (simpl; rewrite Hts; apply quadro_refl).
  clearbody s1.
  destruct (find _ (registros (transacao s))) as [r0 |]; cbv beta iota delta [option_map].
  2: { folha. right. split; [discriminate | exact Hd1]. }
  unfold bind at 1.
  pose proof (bloco_observacao_casos id nova_observacao _ s1 Hq1) as Ho.
  destruct (bloco_observacao id nova_observacao s1) as [[n1 | e] s2];
    [| folha; destruct Ho as [Ho1 Ho2]; split; [congruence | left; exact Ho2]].
  destruct Ho as [Hd2 Hq2].
  unfold bind at 1.
  pose proof (bloco_horario_casos T id novo_horario _ s2 Hq2) as Hh.
  destruct (bloco_horario T id novo_horario s2) as [[r | e] s3];
    [| folha; destruct Hh as [Hh1 Hh2]; split; [congruence | exact Hh2]].
  destruct Hh as (Hd3 & Hq3 & Hv).
  destruct r as [v | n2].
  { folha. right. split; [rewrite (Hv v eq_refl); discriminate | congruence]. }
  destruct (n1 + n2 =? 0).
  { folha. right. split; [discriminate | congruence]. }
  unfold bind.
  destruct (commit_casos s3) as [(msg & s4 & Hc & Hd4) | (s4 & Hc & Hd4)];
    rewrite Hc; folha.
  - split; [congruence | left; reflexivity].
  - left. split; [reflexivity |].
    destruct Hd4 as [Hd4 | Hd4]; rewrite Hd4.
    + exact Hq3.
    + replace (duravel s3) with (duravel s) by congruence. apply quadro_refl.
Qed.

(** The operation as a whole: no exception of the store leaves it, and the
    committed tables change only along a "success" answer, within the frame
    of the punch. *)
Lemma atualizar_registro_contrato (T : Z) (id : string)
  (novo_horario nova_observacao : option string) (s : estado) :
  match atualizar_registro T id novo_horario nova_observacao s with
  | (Ok v, s') =>
      (snd v = "success" /\ quadro id (duravel s) (duravel s'))
      \/ (snd v <> "success" /\ duravel s' = duravel s)
  | (Raise e, s') => duravel s' = duravel s /\ exists m, e = ValueError m
  end.
Proof.
  unfold atualizar_registro, try_except, get_db_connection.
  destruct (connect_casos s) as [(msg & s1 & Hc & Hd) | (s1 & Hc & Hd & Ht)];
    rewrite Hc.
  { simpl. right. split; [discriminate | exact Hd]. }
  pose proof (corpo_atualizar_registro_contrato T id novo_horario
                nova_observacao s1) as H.
  destruct (corpo_atualizar_registro T id novo_horario nova_observacao s1)
    as [[v | e] s2]; unfold contrato_atualizar in H; cbv beta iota.
  - rewrite Hd in H. rewrite close_duravel. apply H. congruence.
  - destruct H as [H1 H2]; [congruence |].
    destruct H2 as [He | [m ->]].
    + rewrite He. unfold ret. right. split; [discriminate |].
      rewrite close_duravel. congruence.
    + cbn [is_psycopg2_error]. rewrite close_duravel.
      split; [congruence | eexists; reflexivity].
Qed.

(** C5: a correction that ends in an error (punch not found, malformed time,
    failure of the store) leaves every committed row as it was; what it had
    already written on the connection, the annotation included, is dropped. *)
Theorem atualizar_registro_tudo_ou_nada (T : Z) (id : string)
  (novo_horario nova_observacao : option string) (s s' : estado) (msg : string) :
  atualizar_registro T id novo_horario nova_observacao s
  = (Ok (msg, "error"), s') ->
  duravel s' = duravel s.
Proof.
  intros Hrun.
  pose proof (atualizar_registro_contrato T id novo_horario nova_observacao s) as H.
  rewrite Hrun in H. destruct H as [[Hs _] | [_ Hd]].
  - discriminate Hs.
  - exact Hd.
Qed.

(** C9: after a successful correction the committed tables hold the same
    rows in the same order; the punch corrected keeps its id, employee,
    stored name, date and event kind, and every other row is untouched. *)
Theorem atualizar_registro_quadro (T : Z) (id : string)
  (novo_horario nova_observacao : option string) (s s' : estado) (msg : string) :
  atualizar_registro T id novo_horario nova_observacao s
  = (Ok (msg, "success"), s') ->
  empresas (duravel s') = empresas (duravel s)
  /\ funcionarios (duravel s') = funcionarios (duravel s)
  /\ Forall2 (fun r r' =>
                r_id r' = r_id r
                /\ r_cpf_funcionario r' = r_cpf_funcionario r
                /\ r_nome r' = r_nome r
                /\ r_data r' = r_data r
                /\ r_descricao r' = r_descricao r
                /\ (r_id r <> id -> r' = r))
             (registros (duravel s)) (registros (duravel s')).
Proof.
  intros Hrun.
  pose proof (atualizar_registro_contrato T id novo_horario nova_observacao s) as H.
  rewrite Hrun in H. destruct H as [[_ Hq] | [Hs _]].
  - exact Hq.
  - exfalso. apply Hs. reflexivity.
Qed.

(** * Seconds of the corrected time *)

(** The new time of day enters the deviation through its hour and minute
    only. *)
Lemma diff_bruta_atualizar_sem_segundos (dt : datetime) (hp t1 t2 : time) :
  t_hour t1 = t_hour t2 -> t_minute t1 = t_minute t2 ->
  diff_bruta_atualizar dt hp t1 = diff_bruta_atualizar dt hp t2.
Proof.
  intros Hh Hm. unfold diff_bruta_atualizar. rewrite Hh, Hm. reflexivity.
Qed.

Lemma mesmos_desvios_diferenca_min (hs1 hs2 id : string) (b1 b2 : banco) :
  mesmos_desvios hs1 hs2 id b1 b2 ->
  map r_diferenca_min (registros b1) = map r_diferenca_min (registros b2).
Proof.
  intros [-> | (b & d & -> & ->)]; [reflexivity |].
  simpl. unfold atualiza_onde. rewrite !map_map.
  apply map_ext. intros r. destruct (String.eqb (r_id r) id); reflexivity.
Qed.

(** Two runs of the time block from one state, on two times of day with the
    same hour and minute: the same answer, and states that are equal or
    differ by the time of day written on the punch. *)
Lemma bloco_horario_par (T : Z) (id hs1 hs2 : string) (t1 t2 : time) (s : estado) :
  Strptime.parse_HMS hs1 = Some t1 -> Strptime.parse_HMS hs2 = Some t2 ->
  t_hour t1 = t_hour t2 -> t_minute t1 = t_minute t2 ->
  exists r s1 s2,
    bloco_horario T id (Some hs1) s = (r, s1)
    /\ bloco_horario T id (Some hs2) s = (r, s2)
    /\ (s1 = s2
        \/ exists s0 b d,
             s1 = com_transacao s0
                    (atualiza_registros b
                       (atualiza_onde id (com_hora hs1 d) (registros b))) false
             /\ s2 = com_transacao s0
                       (atualiza_registros b
                          (atualiza_onde id (com_hora hs2 d) (registros b))) false).
Proof.
  intros Hp1 Hp2 Hh Hm. unfold bloco_horario. rewrite Hp1, Hp2. unfold bind.
  destruct (execute (sel_registro_filial DictCursor id) s) as [[row | e] s0];
    [| do 3 eexists; split; [reflexivity | split; [reflexivity | left; reflexivity]]].
  destruct row as [l |];
    [| do 3 eexists; split; [reflexivity | split; [reflexivity | left; reflexivity]]].
  unfold lift.
  destruct (getitem_nome l "descricao") as [descricao | e];
    [| do 3 eexists; split; [reflexivity | split; [reflexivity | left; reflexivity]]].
  destruct (getitem_nome l "data") as [data_str | e];
    [| do 3 eexists; split; [reflexivity | split; [reflexivity | left; reflexivity]]].
  destruct (getitem_nome l "filial") as [filial_tx | e];
    [| do 3 eexists; split; [reflexivity | split; [reflexivity | left; reflexivity]]].
  destruct (Strptime.parse_Ymd (str_valor data_str)) as [dt |];
    [| do 3 eexists; split; [reflexivity | split; [reflexivity | left; reflexivity]]].
  unfold ret.
  rewrite (diff_bruta_atualizar_sem_segundos dt _ t1 t2 Hh Hm).
  unfold execute, upd_hora.
  destruct (consulta_oraculo s0) as [[msg |] s0'];
    [do 3 eexists; split; [reflexivity | split; [reflexivity | left; reflexivity]] |].
  destruct (abortada s0');
    [do 3 eexists; split; [reflexivity | split; [reflexivity | left; reflexivity]] |].
  do 3 eexists. split; [reflexivity | split; [reflexivity |]].
  right. do 3 eexists. split; reflexivity.
Qed.

(** The same for the whole operation. *)
Lemma atualizar_registro_par (T : Z) (id hs1 hs2 : string) (t1 t2 : time)
  (obs : option string) (s : estado) :
  Strptime.parse_HMS hs1 = Some t1 -> Strptime.parse_HMS hs2 = Some t2 ->
  t_hour t1 = t_hour t2 -> t_minute t1 = t_minute t2 ->
  fst (atualizar_registro T id (Some hs1) obs s)
  = fst (atualizar_registro T id (Some hs2) obs s)
  /\ mesmos_desvios hs1 hs2 id
       (duravel (snd (atualizar_registro T id (Some hs1) obs s)))
       (duravel (snd (atualizar_registro T id (Some hs2) obs s))).
Proof.
  intros Hp1 Hp2 Hh Hm.
  unfold atualizar_registro, try_except, get_db_connection,
    corpo_atualizar_registro, bind.
  destruct (connect s) as [[[] | e] s1];
    [| split; [reflexivity | left; reflexivity]].
  destruct (execute (sel_registro DictCursor id) s1) as [[re | e] s2];
    [| split; [reflexivity | left; reflexivity]].
  destruct re as [l |]; [| split; [reflexivity | left; reflexivity]].
  destruct (bloco_observacao id obs s2) as [[n1 | e] s3];
    [| split; [reflexivity | left; reflexivity]].
  destruct (bloco_horario_par T id hs1 hs2 t1 t2 s3 Hp1 Hp2 Hh Hm)
    as (r & s4 & s4' & -> & -> & Hs).
  destruct r as [r | e].
  2: { destruct Hs as [-> | (s0 & b & d & -> & ->)];
       (split; [reflexivity | left; reflexivity]). }
  destruct r as [v | n2].
  { unfold ret.
    destruct Hs as [-> | (s0 & b & d & -> & ->)];
      (split; [reflexivity | left; reflexivity]). }
  destruct (n1 + n2 =? 0).
  { unfold ret.
    destruct Hs as [-> | (s0 & b & d & -> & ->)];
      (split; [reflexivity | left; reflexivity]). }
  destruct Hs as [-> | (s0 & b & d & -> & ->)];
    [split; [reflexivity | left; reflexivity] |].
  unfold commit, consulta_oraculo. cbn [oraculo com_transacao].
  destruct (oraculo s0) as [| [msg |] rest]; cbn.
  - split; [reflexivity |]. right. exists b, d. split; reflexivity.
  - split; [reflexivity | left; reflexivity].
  - split; [reflexivity |]. right. exists b, d. split; reflexivity.
Qed.

(** C10: two corrections of the same punch from the same state, with two
    well-formed times of day that agree on hour and minute, give the same
    answer and store the same deviation on every row; the committed tables
    differ at most by the time-of-day string, each run keeping its own. *)
Theorem atualizar_registro_ignora_segundos (T : Z) (id hs1 hs2 : string)
  (t1 t2 : time) (obs : option string) (s : estado) :
  Strptime.parse_HMS hs1 = Some t1 -> Strptime.parse_HMS hs2 = Some t2 ->
  t_hour t1 = t_hour t2 -> t_minute t1 = t_minute t2 ->
  fst (atualizar_registro T id (Some hs1) obs s)
  = fst (atualizar_registro T id (Some hs2) obs s)
  /\ map r_diferenca_min
       (registros (duravel (snd (atualizar_registro T id (Some hs1) obs s))))
     = map r_diferenca_min
         (registros (duravel (snd (atualizar_registro T id (Some hs2) obs s))))
  /\ mesmos_desvios hs1 hs2 id
       (duravel (snd (atualizar_registro T id (Some hs1) obs s)))
       (duravel (snd (atualizar_registro T id (Some hs2) obs s))).
Proof.
  intros Hp1 Hp2 Hh Hm.
  destruct (atualizar_registro_par T id hs1 hs2 t1 t2 obs s Hp1 Hp2 Hh Hm)
    as [Hr Hb].
  split; [exact Hr | split; [| exact Hb]].
  apply (mesmos_desvios_diferenca_min hs1 hs2 id). exact Hb.
Qed.

(** An annotation together with a malformed time: the answer is an error
    and the annotation is not kept. *)
Lemma atualizar_registro_tudo_ou_nada_exemplo :
  atualizar_registro 10 (r_id saida_de_ana) (Some "18:5") (Some "visto")
                     (estado_exemplo [])
  = (Ok ("Formato de hora inválido. Use HH:MM:SS.", "error"), estado_exemplo [])
  /\ duravel (estado_exemplo []) = duravel (estado_exemplo []).
Proof.
  split; [reflexivity |].
  apply (atualizar_registro_tudo_ou_nada 10 (r_id saida_de_ana) (Some "18:5")
           (Some "visto") (estado_exemplo []) (estado_exemplo [])
           "Formato de hora inválido. Use HH:MM:SS.").
  reflexivity.
Defined.

(** The Exit of 18:25 corrected to 18:05:30 and annotated. *)
Lemma atualizar_registro_quadro_exemplo :
  atualizar_registro 10 (r_id saida_de_ana) (Some "18:05:30") (Some "visto")
                     (estado_exemplo [])
  = (Ok ("Registro atualizado com sucesso.", "success"),
     mk_estado banco_corrigido banco_corrigido false 1 [])
  /\ funcionarios banco_corrigido = funcionarios banco_exemplo
  /\ Forall2 (fun r r' =>
                r_id r' = r_id r
                /\ r_cpf_funcionario r' = r_cpf_funcionario r
                /\ r_nome r' = r_nome r
                /\ r_data r' = r_data r
                /\ r_descricao r' = r_descricao r
                /\ (r_id r <> r_id saida_de_ana -> r' = r))
             (registros banco_exemplo) (registros banco_corrigido).
Proof.
  split; [reflexivity |].
  apply (atualizar_registro_quadro 10 (r_id saida_de_ana) (Some "18:05:30")
           (Some "visto") (estado_exemplo [])
           (mk_estado banco_corrigido banco_corrigido false 1 [])
           "Registro atualizado com sucesso.").
  reflexivity.
Defined.

(** 18:25:07 and 18:25:59 store the same deviations and their own strings. *)
Lemma atualizar_registro_ignora_segundos_exemplo :
  map r_diferenca_min
    (registros (duravel (snd (atualizar_registro 10 (r_id saida_de_ana)
                                (Some "18:25:07") None (estado_exemplo [])))))
  = map r_diferenca_min
      (registros (duravel (snd (atualizar_registro 10 (r_id saida_de_ana)
                                  (Some "18:25:59") None (estado_exemplo [])))))
  /\ map r_hora
       (registros (duravel (snd (atualizar_registro 10 (r_id saida_de_ana)
                                   (Some "18:25:07") None (estado_exemplo [])))))
     = ["08:07:00"; "18:25:07"]
  /\ map r_hora
       (registros (duravel (snd (atualizar_registro 10 (r_id saida_de_ana)
                                   (Some "18:25:59") None (estado_exemplo [])))))
     = ["08:07:00"; "18:25:59"].
Proof.
  split; [| split; reflexivity].
  apply (atualizar_registro_ignora_segundos 10 (r_id saida_de_ana)
           "18:25:07" "18:25:59" (mk_time 18 25 7) (mk_time 18 25 59) None
           (estado_exemplo [])); reflexivity.
Defined.

(** * Recording a punch *)

Lemma conta_nao_negativa {A} (p : A -> bool) (l : list A) : 0 <= conta p l.
Proof. unfold conta. lia. Qed.

(** With the two events of the default day, the next event is the Entry
    after no punch, the Exit after one, and none after two or more. *)
Lemma obter_proximo_evento_sem_falha (t1 t2 : time) (agora : datetime)
  (cpf : string) (s : estado) :
  oraculo s = [] ->
  obter_proximo_evento [("Entrada", t1); ("Saída", t2)] agora cpf s
  = (Ok (let n := conta (fun r => String.eqb (r_cpf_funcionario r) cpf
                                  && String.eqb (r_data r) (strftime_Ymd agora))
                        (registros (duravel s)) in
         if n =? 0 then "Entrada" else if n =? 1 then "Saída"
         else "Jornada Finalizada"),
     com_transacao s (duravel s) false).
Proof.
  intros Ho. destruct s as [d t ab sq o]. simpl in Ho. subst o.
  unfold obter_proximo_evento, bind, get_db_connection, connect, execute,
    consulta_oraculo, close, com_transacao, sel_count_registros, num_pontos_de,
    mk_linha.
  cbn [oraculo abortada duravel transacao seq_empresas assoc String.eqb
       Ascii.eqb Bool.eqb map fst List.length].
  set (n := conta _ (registros d)).
  assert (Hn : 0 <= n) by apply conta_nao_negativa.
  destruct (Z.eqb_spec n 0) as [-> | H0]; [reflexivity |].
  destruct (Z.eqb_spec n 1) as [-> | H1]; [reflexivity |].
  destruct (Z.ltb_spec n (Z.of_nat 2)) as [Hlt | _]; [lia | reflexivity].
Qed.

(** After two punches on the day the operation answers with a warning and
    writes nothing. *)
Lemma bater_ponto_jornada_finalizada (t1 t2 : time) (T : Z)
  (agora agora_evento : datetime) (cpf nome : string) (s : estado) :
  oraculo s = [] ->
  2 <= conta (fun r => String.eqb (r_cpf_funcionario r) cpf
                       && String.eqb (r_data r) (strftime_Ymd agora_evento))
             (registros (duravel s)) ->
  bater_ponto [("Entrada", t1); ("Saída", t2)] T agora agora_evento cpf nome s
  = (Ok ("Sua jornada de hoje já foi completamente registada.", "warning"),
     com_transacao s (duravel s) false).
Proof.
  intros Ho Hn. unfold bater_ponto, bind.
  rewrite (obter_proximo_evento_sem_falha t1 t2 agora_evento cpf s Ho).
  cbv zeta.
  destruct (Z.eqb_spec (conta (fun r => String.eqb (r_cpf_funcionario r) cpf
                                  && String.eqb (r_data r) (strftime_Ymd agora_evento))
                        (registros (duravel s))) 0) as [H0 | _]; [lia |].
  destruct (Z.eqb_spec (conta (fun r => String.eqb (r_cpf_funcionario r) cpf
                                  && String.eqb (r_data r) (strftime_Ymd agora_evento))
                        (registros (duravel s))) 1) as [H1 | _]; [lia |].
  reflexivity.
Qed.

(** C3: the code does not record the first two punches.  For an employee on
    file with fewer than two punches on the day, and a store that does not
    fail, the site is read with [resultado[0]] off a row that is a
    dictionary: the operation leaves with [KeyError(0)] before any row is
    written. *)
Theorem bater_ponto_linha_dicionario (t1 t2 : time) (T : Z)
  (agora agora_evento : datetime) (cpf nome : string) (s : estado)
  (x : funcionario) :
  oraculo s = [] ->
  find (fun y => String.eqb (f_cpf y) cpf) (funcionarios (duravel s)) = Some x ->
  conta (fun r => String.eqb (r_cpf_funcionario r) cpf
                  && String.eqb (r_data r) (strftime_Ymd agora_evento))
        (registros (duravel s)) < 2 ->
  bater_ponto [("Entrada", t1); ("Saída", t2)] T agora agora_evento cpf nome s
  = (Raise (KeyError (ChaveInt 0)), com_transacao s (duravel s) false).
Proof.
  intros Ho Hx Hn. unfold bater_ponto. unfold bind at 1.
  rewrite (obter_proximo_evento_sem_falha t1 t2 agora_evento cpf s Ho).
  cbv zeta.
  set (n := conta _ (registros (duravel s))) in *.
  assert (Hn0 : 0 <= n) by apply conta_nao_negativa.
  assert (Hev : (if n =? 0 then "Entrada" else if n =? 1 then "Saída"
                 else "Jornada Finalizada") = "Entrada"
                \/ (if n =? 0 then "Entrada" else if n =? 1 then "Saída"
                    else "Jornada Finalizada") = "Saída").
  { destruct (Z.eqb_spec n 0); [left; reflexivity |].
    destruct (Z.eqb_spec n 1); [right; reflexivity | lia]. }
  destruct s as [d t ab sq o]. simpl in Ho, Hx. subst o.
  destruct Hev as [-> | ->];
    cbn [String.eqb Ascii.eqb Bool.eqb];
    unfold bind, get_db_connection, connect, execute, consulta_oraculo, close,
      com_transacao, sel_filial;
    cbn [oraculo abortada duravel transacao seq_empresas];
    rewrite Hx; reflexivity.
Qed.

(** Ana, on file, on a day without punches. *)
Lemma bater_ponto_linha_dicionario_exemplo :
  bater_ponto HORARIOS_PADRAO_spec TOLERANCIA_MINUTOS_spec
    (mk_datetime 2024 3 6 8 7 0 0 "-03:00") (mk_datetime 2024 3 6 8 7 0 0 "-03:00")
    "12345678900" "Ana" (estado_exemplo [])
  = (Raise (KeyError (ChaveInt 0)), estado_exemplo []).
Proof.
  apply (bater_ponto_linha_dicionario (time_hm 8 0) (time_hm 18 0) 10
           (mk_datetime 2024 3 6 8 7 0 0 "-03:00")
           (mk_datetime 2024 3 6 8 7 0 0 "-03:00")
           "12345678900" "Ana" (estado_exemplo []) ana);
    [reflexivity | reflexivity | vm_compute; reflexivity].
Defined.

(** An employee who is not on file gets past the lookup of the site, and the
    insert is then refused by the foreign key of the punch. *)
Example bater_ponto_sem_cadastro :
  fst (bater_ponto HORARIOS_PADRAO_spec TOLERANCIA_MINUTOS_spec
         (mk_datetime 2024 3 6 8 7 0 0 "-03:00")
         (mk_datetime 2024 3 6 8 7 0 0 "-03:00")
         "00000000000" "Rui" (estado_exemplo []))
  = Raise (Psycopg2Error "insert or update violates foreign key constraint").
Proof. reflexivity. Qed.

(** * Failures of the store at the boundary of the operations *)

(** A [try]/[except psycopg2.Error] whose handler returns lets no exception
    of the store through. *)
Lemma try_except_psycopg2 {A} (m : M A) (h : excecao -> M A) (s : estado) :
  (forall e s1, exists a, h e s1 = (Ok a, s1)) ->
  forall msg, fst (try_except m is_psycopg2_error h s) <> Raise (Psycopg2Error msg).
Proof.
  intros Hh msg. unfold try_except.
  destruct (m s) as [[a | e] s1]; [discriminate |].
  destruct e; cbn [is_psycopg2_error fst]; try discriminate.
  destruct (Hh (Psycopg2Error msg0) s1) as [a ->]. discriminate.
Qed.

Lemma connect_falha (s : estado) (msg : string) (rest : list (option string)) :
  oraculo s = Some msg :: rest ->
  exists s1, connect s = (Raise (Psycopg2Error msg), s1).
Proof.
  intros Ho. unfold connect, consulta_oraculo. rewrite Ho.
  eexists. reflexivity.
Qed.

(** Every row of the sheet ends in an updated loop state: what goes wrong on
    a row, in the store or elsewhere, becomes an entry of the error list. *)
Lemma processa_linha_total (sha : string -> string) (acc : acumulador)
  (il : Z * linha_planilha) (s : estado) :
  exists acc' s', processa_linha sha acc il s = (Ok acc', s').
Proof.
  unfold processa_linha. destruct il as [index row].
  destruct (str_in _ (cpfs_existentes acc)); [do 2 eexists; reflexivity |].
  destruct (negb _); [do 2 eexists; reflexivity |].
  unfold try_except, bind.
  destruct (empresa_id_da_linha _ _ _ s) as [[ie | e] s1];
    do 2 eexists; reflexivity.
Qed.

Lemma insere_novos_total (acc : acumulador) (s : estado) :
  exists r s', insere_novos acc s = (Ok r, s').
Proof.
  unfold insere_novos. destruct (novos_funcionarios acc) as [| x l];
    [do 2 eexists; reflexivity |].
  unfold try_except, bind.
  destruct (execute_casos (ins_funcionarios (x :: l)) s)
    as [(msg & s' & Hx & _) | (a & b & Hx & _)]; rewrite Hx;
    do 2 eexists; reflexivity.
Qed.


(** * The bulk import and employee ids already known *)

Lemma str_in_In (x : string) (l : list string) : str_in x l = true <-> In x l.
Proof.
  unfold str_in. rewrite existsb_exists. split.
  - intros (y & Hy & Heq). apply String.eqb_eq in Heq. subst y. exact Hy.
  - intros Hx. exists x. split; [exact Hx | apply String.eqb_refl].
Qed.

Lemma NoDup_snoc {A} (l : list A) (x : A) :
  NoDup l -> ~ In x l -> NoDup (l ++ [x]).
Proof.
  intros Hl Hx. induction Hl as [| y l Hy Hl IH]; simpl.
  - constructor; [intros [] | constructor].
  - constructor.
    + rewrite in_app_iff. intros [H | [H | []]]; [contradiction |].
      subst y. apply Hx. left. reflexivity.
    + apply IH. intros H. apply Hx. right. exact H.
Qed.

Lemma inv_importacao_inicial (cpfs : list string) (emps : list empresa) :
  inv_importacao cpfs (acumulador_inicial cpfs emps).
Proof.
  unfold inv_importacao, acumulador_inicial. simpl.
  split; [symmetry; apply app_nil_r |].
  split; [constructor | intros c []].
Qed.

(** The row of an id already known: one more in the ignored tally, and
    nothing else moves, in the loop state or in the store. *)
Lemma processa_linha_repetido (sha : string -> string) (acc : acumulador)
  (il : Z * linha_planilha) (s : estado) :
  In (strip (CPF (snd il))) (cpfs_existentes acc) ->
  processa_linha sha acc il s
  = (Ok (mk_acumulador (novos_funcionarios acc) (erros acc)
           (ignorados_count acc + 1) (cpfs_existentes acc)
           (empresas_existentes acc)), s).
Proof.
  intros Hin. apply str_in_In in Hin.
  unfold processa_linha. destruct il as [index row]. simpl in Hin.
  rewrite Hin. reflexivity.
Qed.

Lemma processa_linha_inv (sha : string -> string) (cpfs : list string)
  (acc acc' : acumulador) (il : Z * linha_planilha) (s s' : estado) :
  inv_importacao cpfs acc ->
  processa_linha sha acc il s = (Ok acc', s') ->
  inv_importacao cpfs acc'.
Proof.
  intros (Hc & Hn & Hd) Hrun.
  unfold processa_linha in Hrun. destruct il as [index row].
  destruct (str_in (strip (CPF row)) (cpfs_existentes acc)) eqn:Hin.
  { injection Hrun as <- _. repeat split; assumption. }
  destruct (negb _).
  { injection Hrun as <- _. repeat split; assumption. }
  unfold try_except, bind in Hrun.
  destruct (empresa_id_da_linha _ _ _ s) as [[ie | e] s1].
  2: { injection Hrun as <- _. repeat split; assumption. }
  injection Hrun as <- _.
  assert (Hnot : ~ In (strip (CPF row)) (cpfs_existentes acc)).
  { intros H. apply str_in_In in H. congruence. }
  rewrite Hc in Hnot. rewrite in_app_iff in Hnot.
  unfold inv_importacao. cbn [novos_funcionarios cpfs_existentes].
  rewrite map_app. cbn [map f_cpf].
  split; [rewrite Hc; symmetry; apply app_assoc |].
  split; [apply NoDup_snoc; [exact Hn | tauto] |].
  intros c Hcin. rewrite in_app_iff in Hcin.
  destruct Hcin as [Hcin | [<- | []]]; [apply Hd; exact Hcin | tauto].
Qed.

Lemma processa_linhas_app (sha : string -> string)
  (pre post : list (Z * linha_planilha)) (acc : acumulador) (s : estado) :
  processa_linhas sha (pre ++ post) acc s
  = match processa_linhas sha pre acc s with
    | (Ok a, s1) => processa_linhas sha post a s1
    | (Raise e, s1) => (Raise e, s1)
    end.
Proof.
  revert acc s. induction pre as [| il pre IH]; intros acc s; [reflexivity |].
  simpl. unfold bind.
  destruct (processa_linha sha acc il s) as [[a | e] s1]; [apply IH | reflexivity].
Qed.

Lemma processa_linhas_total (sha : string -> string)
  (ls : list (Z * linha_planilha)) (acc : acumulador) (s : estado) :
  exists acc' s', processa_linhas sha ls acc s = (Ok acc', s').
Proof.
  revert acc s. induction ls as [| il ls IH]; intros acc s.
  - do 2 eexists. reflexivity.
  - simpl. unfold bind.
    destruct (processa_linha_total sha acc il s) as (a & s1 & ->). apply IH.
Qed.

Lemma processa_linhas_inv (sha : string -> string) (cpfs : list string)
  (ls : list (Z * linha_planilha)) (acc acc' : acumulador) (s s' : estado) :
  inv_importacao cpfs acc ->
  processa_linhas sha ls acc s = (Ok acc', s') ->
  inv_importacao cpfs acc'.
Proof.
  revert acc s. induction ls as [| il ls IH]; intros acc s Hinv Hrun.
  - injection Hrun as <- _. exact Hinv.
  - simpl in Hrun. unfold bind in Hrun.
    destruct (processa_linha sha acc il s) as [[a | e] s1] eqn:Hl;
      [| discriminate].
    apply (IH a s1); [| exact Hrun].
    apply (processa_linha_inv sha cpfs acc a il s s1 Hinv Hl).
Qed.

Lemma ler_funcionarios_cpfs_ok (s s1 : estado) (cpfs : list string) :
  ler_funcionarios_cpfs s = (Ok cpfs, s1) ->
  cpfs = map f_cpf (funcionarios (duravel s)).
Proof.
  unfold ler_funcionarios_cpfs, bind, conexao_ociosa, query_df.
  destruct (consulta_oraculo_campos s) as (Hd & _).
  rewrite (consulta_oraculo_par s).
  destruct (fst (consulta_oraculo s)); [discriminate |].
  destruct (consulta_oraculo_campos (snd (consulta_oraculo s))) as (Hd' & _).
  rewrite (consulta_oraculo_par (snd (consulta_oraculo s))).
  destruct (fst (consulta_oraculo (snd (consulta_oraculo s)))); [discriminate |].
  intros H. injection H as <- _. rewrite Hd', Hd. reflexivity.
Qed.

(** The success count is that of the queue, or 0 when the batched insert
    did not run or failed. *)
Lemma insere_novos_contagem (acc : acumulador) (s s' : estado)
  (fim : Z * list string) :
  insere_novos acc s = (Ok fim, s') ->
  fst fim = 0 \/ fst fim = Z.of_nat (List.length (novos_funcionarios acc)).
Proof.
  unfold insere_novos. destruct (novos_funcionarios acc) as [| x l].
  - intros H. injection H as <- _. left. reflexivity.
  - unfold try_except, bind.
    destruct (execute (ins_funcionarios (x :: l)) s) as [[[] | e] s1].
    + intros H. injection H as <- _. right. reflexivity.
    + destruct (is_psycopg2_error e); [| discriminate].
      intros H. injection H as <- _. left. reflexivity.
Qed.

Lemma consulta_oraculo_none (s s1 : estado) :
  consulta_oraculo s = (None, s1) ->
  s1 = mk_estado (duravel s) (transacao s) (abortada s) (seq_empresas s)
                 (skipn 1 (oraculo s)).
Proof.
  unfold consulta_oraculo. destruct s as [d t ab sq o]. cbn.
  destruct o as [| x r]; intros H.
  - injection H as <-. reflexivity.
  - injection H as -> <-. reflexivity.
Qed.

(** A read through [query_df] that answers uses two answers of the oracle
    and leaves the rest of the state as it was. *)
Lemma leitura_ociosa_ok {A} (q : banco -> A) (s s1 : estado) (a : A) :
  (conexao_ociosa ;;; query_df q) s = (Ok a, s1) ->
  a = q (duravel s)
  /\ s1 = mk_estado (duravel s) (transacao s) (abortada s) (seq_empresas s)
                    (skipn 2 (oraculo s)).
Proof.
  unfold bind, conexao_ociosa, query_df.
  destruct (consulta_oraculo s) as [[msg |] s0] eqn:H0; [discriminate |].
  apply consulta_oraculo_none in H0. subst s0.
  destruct (consulta_oraculo _) as [[msg |] s0] eqn:H1; [discriminate |].
  apply consulta_oraculo_none in H1. subst s0. cbn.
  intros H. injection H as <- <-.
  split; [reflexivity |]. f_equal.
  destruct (oraculo s) as [| x [| y r]]; reflexivity.
Qed.

(** The state in which the loop of the import starts, in a run that gets
    there: the connection is open on the committed tables and five answers
    of the oracle are used (two reads through [query_df], each with its
    idle connection, and the connection of the import). *)
Lemma importacao_chega_ao_laco (s s0 s1 s2 : estado) (cpfs : list string)
  (emps : list empresa) :
  ler_funcionarios_cpfs s = (Ok cpfs, s0) ->
  connect s0 = (Ok tt, s1) ->
  ler_empresas s1 = (Ok emps, s2) ->
  cpfs = map f_cpf (funcionarios (duravel s))
  /\ emps = ordena_empresas (empresas (duravel s))
  /\ s2 = mk_estado (duravel s) (duravel s) false (seq_empresas s)
                    (skipn 5 (oraculo s)).
Proof.
  intros Hl Hc He.
  apply (leitura_ociosa_ok (fun b => map f_cpf (funcionarios b))) in Hl.
  destruct Hl as [-> ->].
  unfold connect in Hc.
  destruct (consulta_oraculo _) as [[msg |] s0'] eqn:H0; [discriminate |].
  apply consulta_oraculo_none in H0. subst s0'.
  injection Hc as <-.
  apply (leitura_ociosa_ok (fun b => ordena_empresas (empresas b))) in He.
  destruct He as [-> ->]. cbn.
  split; [reflexivity | split; [reflexivity |]]. f_equal.
  destruct (oraculo s) as [| x1 [| x2 [| x3 [| x4 [| x5 r]]]]]; reflexivity.
Qed.

(** A row whose id is not known leaves the ignored tally as it was. *)
Lemma processa_linha_novo (sha : string -> string) (acc : acumulador)
  (il : Z * linha_planilha) (s : estado) :
  ~ In (strip (CPF (snd il))) (cpfs_existentes acc) ->
  exists acc' s',
    processa_linha sha acc il s = (Ok acc', s')
    /\ ignorados_count acc' = ignorados_count acc.
Proof.
  intros Hn. unfold processa_linha. destruct il as [index row]. simpl in Hn.
  destruct (str_in (strip (CPF row)) (cpfs_existentes acc)) eqn:Hin.
  { exfalso. apply Hn. apply str_in_In. exact Hin. }
  destruct (negb _); [do 2 eexists; split; reflexivity |].
  unfold try_except, bind.
  destruct (empresa_id_da_linha _ _ _ s) as [[ie | e] s1];
    do 2 eexists; split; reflexivity.
Qed.

(** C8: in a bulk import that returns, of a sheet whose cells and digests
    hold no NUL character, the loop runs over the rows of the sheet from the
    ids and the companies on file; the ignored count is that
    of the loop, the success count is 0 or the length of the queue it
    leaves, and the error list is that of the loop, with at most the entry
    of a failed batched insert after it; the queue holds no id twice and
    none that was on file.  A row whose id is on file or was queued by an
    earlier row of the batch adds one to the ignored tally and leaves the
    queue, the error list and the store as they were, and no other row adds
    to that tally. *)
Theorem importacao_ignora_cpfs_conhecidos (sha : string -> string)
  (df : planilha) (s s' : estado) (suc ign : Z) (errs : list string) :
  forallb (fun col => str_in col (columns df)) colunas_necessarias = true ->
  forallb (fun il => linha_sem_nul (snd il)
                     && sem_nul (sha (strip (CODFORTE (snd il)))))
          (linhas df) = true ->
  importar_funcionarios_em_massa sha df s = (Ok (suc, ign, errs), s') ->
  exists acc s2,
    processa_linhas sha (linhas df)
      (acumulador_inicial (map f_cpf (funcionarios (duravel s)))
                          (ordena_empresas (empresas (duravel s))))
      (mk_estado (duravel s) (duravel s) false (seq_empresas s)
                 (skipn 5 (oraculo s)))
    = (Ok acc, s2)
    /\ ign = ignorados_count acc
    /\ (suc = 0 \/ suc = Z.of_nat (List.length (novos_funcionarios acc)))
    /\ (errs = erros acc
        \/ exists e, errs = (erros acc
                             ++ [("Erro geral no banco de dados: "
                                  ++ str_excecao e)%string])%list)
    /\ NoDup (map f_cpf (novos_funcionarios acc))
    /\ (forall c, In c (map f_cpf (novos_funcionarios acc)) ->
                  ~ In c (map f_cpf (funcionarios (duravel s))))
    /\ (forall pre il post,
           linhas df = (pre ++ il :: post)%list ->
           exists a sa,
             processa_linhas sha pre
               (acumulador_inicial (map f_cpf (funcionarios (duravel s)))
                                   (ordena_empresas (empresas (duravel s))))
               (mk_estado (duravel s) (duravel s) false (seq_empresas s)
                          (skipn 5 (oraculo s)))
             = (Ok a, sa)
             /\ (In (strip (CPF (snd il))) (map f_cpf (funcionarios (duravel s)))
                 \/ In (strip (CPF (snd il))) (map f_cpf (novos_funcionarios a)) ->
                 processa_linha sha a il sa
                 = (Ok (mk_acumulador (novos_funcionarios a) (erros a)
                          (ignorados_count a + 1) (cpfs_existentes a)
                          (empresas_existentes a)), sa))
             /\ (~ (In (strip (CPF (snd il)))
                       (map f_cpf (funcionarios (duravel s)))
                    \/ In (strip (CPF (snd il)))
                          (map f_cpf (novos_funcionarios a))) ->
                 exists a' sa',
                   processa_linha sha a il sa = (Ok a', sa')
                   /\ ignorados_count a' = ignorados_count a)).
Proof.
  intros Hcols _ Hrun.
  unfold importar_funcionarios_em_massa, bind in Hrun.
  destruct (ler_funcionarios_cpfs s) as [[cpfs | e] s0] eqn:Hl; [| discriminate].
  rewrite Hcols in Hrun. cbn [negb] in Hrun.
  unfold get_db_connection in Hrun.
  destruct (connect s0) as [[[] | e] s1] eqn:Hc; [| discriminate].
  destruct (ler_empresas s1) as [[emps | e] s2] eqn:He; [| discriminate].
  destruct (importacao_chega_ao_laco s s0 s1 s2 cpfs emps Hl Hc He)
    as (-> & -> & ->).
  set (acc0 := acumulador_inicial (map f_cpf (funcionarios (duravel s)))
                 (ordena_empresas (empresas (duravel s)))) in *.
  set (s1' := mk_estado (duravel s) (duravel s) false (seq_empresas s)
                (skipn 5 (oraculo s))) in *.
  destruct (processa_linhas sha (linhas df) acc0 s1') as [[acc | e] s3] eqn:Hp;
    [| discriminate].
  destruct (insere_novos acc s3) as [[fim | e] s4] eqn:Hi; [| discriminate].
  destruct (commit s4) as [[[] | e] s5]; [| discriminate].
  injection Hrun as <- <- <- _.
  pose proof (processa_linhas_inv sha _ _ _ _ _ _
                (inv_importacao_inicial _ _) Hp) as (_ & Hnd & Hdis).
  exists acc, s3.
  split; [reflexivity |]. split; [reflexivity |].
  split; [exact (insere_novos_contagem acc s3 s4 fim Hi) |].
  split.
  { unfold insere_novos in Hi.
    destruct (novos_funcionarios acc) as [| x l].
    - injection Hi as <- _. left. reflexivity.
    - unfold try_except, bind in Hi.
      destruct (execute (ins_funcionarios (x :: l)) s3) as [[[] | e] s6].
      + injection Hi as <- _. left. reflexivity.
      + destruct (is_psycopg2_error e); [| discriminate].
        injection Hi as <- _. right. exists e. reflexivity. }
  split; [exact Hnd |]. split; [exact Hdis |].
  intros pre il post Hls.
  destruct (processa_linhas_total sha pre acc0 s1') as (a & sa & Hpre).
  exists a, sa. split; [exact Hpre |].
  pose proof (processa_linhas_inv sha _ _ _ _ _ _
                (inv_importacao_inicial _ _) Hpre) as (Hcp & _).
  split.
  - intros Hin. apply processa_linha_repetido.
    rewrite Hcp. apply in_app_iff. exact Hin.
  - intros Hn. apply processa_linha_novo.
    rewrite Hcp. rewrite in_app_iff. exact Hn.
Qed.

Example importacao_exemplo_resultado :
  fst (importar_funcionarios_em_massa (fun x => x) planilha_exemplo
         estado_importacao)
  = Ok (1, 2, []).
Proof. reflexivity. Qed.

(** The sheet of three rows: one queued, two ignored. *)
Lemma importacao_ignora_cpfs_conhecidos_exemplo :
  exists acc s2,
    processa_linhas (fun x => x) (linhas planilha_exemplo)
      (acumulador_inicial (map f_cpf (funcionarios (duravel estado_importacao)))
                          (ordena_empresas (empresas (duravel estado_importacao))))
      (mk_estado (duravel estado_importacao) (duravel estado_importacao) false
                 (seq_empresas estado_importacao)
                 (skipn 5 (oraculo estado_importacao)))
    = (Ok acc, s2)
    /\ 2 = ignorados_count acc
    /\ (1 = 0 \/ 1 = Z.of_nat (List.length (novos_funcionarios acc)))
    /\ NoDup (map f_cpf (novos_funcionarios acc)).
Proof.
  destruct (importacao_ignora_cpfs_conhecidos (fun x => x) planilha_exemplo
              estado_importacao
              (snd (importar_funcionarios_em_massa (fun x => x) planilha_exemplo
                      estado_importacao))
              1 2 [] eq_refl eq_refl eq_refl)
    as (acc & s2 & H1 & H2 & H3 & _ & H5 & _).
  exists acc, s2. auto.
Defined.

(** Seven minutes late under a tolerance of ten. *)
Lemma ramo_tolerancia_exato_exemplo :
  (7 <> 0 /\ Z.abs 7 <= 10)
  /\ ramo_status_final (diff_final_bater_ponto 10 7) 7 = RamoTolerancia.
Proof.
  split; [split; [discriminate | simpl; lia] |].
  apply (ramo_tolerancia_exato 10 7). split; [discriminate | simpl; lia].
Defined.

(** * Further facts *)

(** After two punches on the day, for Ana. *)
Lemma bater_ponto_jornada_finalizada_exemplo :
  bater_ponto HORARIOS_PADRAO_spec TOLERANCIA_MINUTOS_spec
    (mk_datetime 2024 3 5 19 0 0 0 "-03:00") (mk_datetime 2024 3 5 19 0 0 0 "-03:00")
    "12345678900" "Ana" (estado_exemplo [])
  = (Ok ("Sua jornada de hoje já foi completamente registada.", "warning"),
     estado_exemplo []).
Proof.
  apply (bater_ponto_jornada_finalizada (time_hm 8 0) (time_hm 18 0) 10
           (mk_datetime 2024 3 5 19 0 0 0 "-03:00")
           (mk_datetime 2024 3 5 19 0 0 0 "-03:00")
           "12345678900" "Ana" (estado_exemplo []));
    [reflexivity | vm_compute; discriminate].
Defined.

(** The label the import gives a file named after site 3. *)
Lemma regra_filial_concorda_exemplo :
  dict_getitem (horarios_bater_ponto HORARIOS_PADRAO_spec
                  (VText (_extrair_filial_do_texto "Ponto Filial 3.xlsx")))
               "Entrada"
  = Ok (get_horario_padrao
          (filial_num_de (VText (_extrair_filial_do_texto "Ponto Filial 3.xlsx")))
          "Entrada").
Proof.
  apply (regra_filial_concorda_nos_rotulos_da_importacao "Ponto Filial 3.xlsx"
           "Entrada").
  left. reflexivity.
Defined.




(** * Rounding to minutes *)

Lemma round_div_proximo (n d : Z) :
  0 < d -> 2 * Z.abs (n - d * round_div n d) <= d.
Proof.
  intros Hd. unfold round_div.
  pose proof (Z.div_mod n d ltac:(lia)) as Hnm.
  pose proof (Z.mod_pos_bound n d Hd) as Hr.
  destruct (Z.ltb_spec (2 * (n mod d)) d);
    [| destruct (Z.ltb_spec d (2 * (n mod d))); [| destruct (Z.even (n / d))]];
    nia.
Qed.

Lemma round_div_meio (n d : Z) :
  0 < d -> 2 * (n mod d) = d -> Z.even (round_div n d) = true.
Proof.
  intros Hd Hhalf. unfold round_div.
  destruct (Z.ltb_spec (2 * (n mod d)) d); [lia |].
  destruct (Z.ltb_spec d (2 * (n mod d))); [lia |].
  destruct (Z.even (n / d)) eqn:He; [exact He |].
  rewrite Z.even_add, He. reflexivity.
Qed.

Lemma round_div_multiplo (k d : Z) : 0 < d -> round_div (d * k) d = k.
Proof.
  intros Hd. unfold round_div.
  rewrite (Z.mul_comm d k), Z.div_mul, Z.mod_mul by lia.
  destruct (Z.ltb_spec (2 * 0) d); [reflexivity | lia].
Qed.

(** The raw deviation of [bater_ponto] is the whole number of minutes
    nearest to the difference of the two instants, at most half a minute
    away from it, and a difference that falls on a half minute goes to the
    even neighbour. *)
Theorem diff_minutos_mais_proximo (a b : datetime) :
  2 * Z.abs (sub_microseconds a b - 60000000 * diff_minutos a b) <= 60000000
  /\ (2 * (sub_microseconds a b mod 60000000) = 60000000 ->
      Z.even (diff_minutos a b) = true).
Proof.
  unfold diff_minutos. split.
  - apply round_div_proximo. lia.
  - apply round_div_meio. lia.
Qed.

(** 08:00:30 against 08:00: half a minute late counts as on the minute. *)
Lemma diff_minutos_mais_proximo_exemplo :
  2 * (sub_microseconds (mk_datetime 2024 3 5 8 0 30 0 "-03:00")
         (mk_datetime 2024 3 5 8 0 0 0 "-03:00") mod 60000000) = 60000000
  /\ Z.even (diff_minutos (mk_datetime 2024 3 5 8 0 30 0 "-03:00")
               (mk_datetime 2024 3 5 8 0 0 0 "-03:00")) = true.
Proof.
  split; [reflexivity |].
  apply (diff_minutos_mais_proximo (mk_datetime 2024 3 5 8 0 30 0 "-03:00")
           (mk_datetime 2024 3 5 8 0 0 0 "-03:00")).
  reflexivity.
Defined.

Lemma diff_bruta_atualizar_formula (dt : datetime) (hora_prevista novo_obj : time) :
  diff_bruta_atualizar dt hora_prevista novo_obj
  = (t_hour novo_obj - t_hour hora_prevista) * 60
    + (t_minute novo_obj - t_minute hora_prevista).
Proof.
  unfold diff_bruta_atualizar, diff_minutos, sub_microseconds, replace_hm,
    toordinal.
  cbn [year month day hour minute second microsecond].
  set (k := (t_hour novo_obj - t_hour hora_prevista) * 60
            + (t_minute novo_obj - t_minute hora_prevista)).
  match goal with
  | |- round_div ?n _ = _ => replace n with (60000000 * k) by (unfold k; ring)
  end.
  apply round_div_multiplo. lia.
Qed.

(** * The annotation of the confirmation message *)

Lemma msg_extra_nao_vazia_atraso (n : Z) :
  " (" ++ str_of_Z n ++ " min de atraso)" <> "".
Proof. discriminate. Qed.

(** The confirmation of [bater_ponto] carries exactly one annotation: the
    minutes late for a positive deviation, the minutes early, printed as a
    positive number, for a negative one, and an on-time note for a deviation
    of zero. *)
Theorem anotacao_da_confirmacao (diff_final diff_bruta : Z) :
  (diff_final = 0 ->
   msg_extra diff_final = "" /\ status_final diff_final diff_bruta <> "")
  /\ (0 < diff_final ->
      msg_extra diff_final = " (" ++ str_of_Z diff_final ++ " min de atraso)"
      /\ status_final diff_final diff_bruta = "")
  /\ (diff_final < 0 ->
      msg_extra diff_final
      = " (" ++ str_of_Z (- diff_final) ++ " min de adiantamento)"
      /\ status_final diff_final diff_bruta = "").
Proof.
  unfold msg_extra, status_final, ramo_status_final.
  split; [| split].
  - intros ->. cbn [Z.eqb negb]. split; [reflexivity |].
    destruct (negb (diff_bruta =? 0)); discriminate.
  - intros H. destruct (Z.eqb_spec diff_final 0) as [H0 | _]; [lia |].
    cbn [negb]. destruct (Z.gtb_spec diff_final 0); [| lia].
    split; reflexivity.
  - intros H. destruct (Z.eqb_spec diff_final 0) as [H0 | _]; [lia |].
    cbn [negb]. destruct (Z.gtb_spec diff_final 0); [lia |].
    split; reflexivity.
Qed.

(** Fifteen minutes late, and twelve minutes early. *)
Lemma anotacao_da_confirmacao_exemplo :
  (msg_extra 15 = " (15 min de atraso)" /\ status_final 15 25 = "")
  /\ (msg_extra (-12) = " (12 min de adiantamento)" /\ status_final (-12) (-22) = "").
Proof.
  split.
  - destruct (anotacao_da_confirmacao 15 25) as (_ & H & _).
    apply H. reflexivity.
  - destruct (anotacao_da_confirmacao (-12) (-22)) as (_ & _ & H).
    apply H. reflexivity.
Defined.

(** * The site read off a file name *)

(** [_extrair_filial_do_texto] answers with one of five labels, and reading
    a label it gave gives that label back. *)
Theorem extrair_filial_idempotente (texto : string) :
  In (_extrair_filial_do_texto texto)
     ["Matriz"; "Filial 02"; "Filial 03"; "Filial 04"; "Não Identificada"]
  /\ _extrair_filial_do_texto (_extrair_filial_do_texto texto)
     = _extrair_filial_do_texto texto.
Proof.
  unfold _extrair_filial_do_texto at 1 3 4.
  repeat match goal with
         | |- context [if ?c then _ else _] => destruct c
         end;
    (split; [simpl; tauto | reflexivity]).
Qed.

(** * Worked hours as text *)

(** A duration that is not negative is printed as its hours and minutes,
    what is left of a minute being dropped; a negative one of a second to an
    hour is printed with the hour -1 and the minutes counted from the start
    of that hour, so that one minute short reads "-1:59". *)
Theorem formatar_timedelta_trunca (us : Z) :
  (0 <= us ->
   _formatar_timedelta (Some us)
   = zfill 2 (us / 3600000000) ++ ":" ++ zfill 2 ((us / 60000000) mod 60))
  /\ (-3600000000 <= us <= -1000000 ->
      _formatar_timedelta (Some us)
      = "-1:" ++ zfill 2 ((3600 + Z.quot us 1000000) / 60)).
Proof.
  unfold _formatar_timedelta. split.
  - intros H. rewrite Z.quot_div_nonneg by lia.
    replace (us / 1000000 / 3600) with (us / 3600000000)
      by (rewrite Z.div_div by lia; reflexivity).
    replace ((us / 1000000) mod 3600 / 60) with ((us / 60000000) mod 60);
      [reflexivity |].
    replace (us / 60000000) with (us / 1000000 / 60)
      by (rewrite Z.div_div by lia; reflexivity).
    set (t := us / 1000000).
    pose proof (Z.div_mod t 3600 ltac:(lia)) as H1.
    pose proof (Z.mod_pos_bound t 3600 ltac:(lia)) as H2.
    pose proof (Z.div_mod (t mod 3600) 60 ltac:(lia)) as H3.
    pose proof (Z.mod_pos_bound (t mod 3600) 60 ltac:(lia)) as H4.
    assert (Ha : 0 <= t mod 3600 / 60 < 60).
    { split; [apply Z.div_pos; lia | apply Z.div_lt_upper_bound; lia]. }
    assert (Hq : t / 60 = 60 * (t / 3600) + t mod 3600 / 60).
    { symmetry. apply (Z.div_unique t 60 _ ((t mod 3600) mod 60)); lia. }
    rewrite Hq. symmetry.
    apply (Z.mod_unique _ 60 (t / 3600)); lia.
  - intros [Hlo Hhi].
    set (t := Z.quot us 1000000).
    assert (Ht : -3600 <= t <= -1).
    { assert (Hq : t = - ((- us) / 1000000)).
      { unfold t. replace us with (- - us) at 1 by lia.
        rewrite Z.quot_opp_l by lia. rewrite Z.quot_div_nonneg by lia.
        reflexivity. }
      assert (1 <= (- us) / 1000000) by (apply Z.div_le_lower_bound; lia).
      assert ((- us) / 1000000 <= 3600) by (apply Z.div_le_upper_bound; lia).
      lia. }
    assert (Hh : t / 3600 = -1).
    { symmetry. apply (Z.div_unique _ _ _ (t + 3600)); lia. }
    assert (Hr : t mod 3600 = 3600 + t).
    { symmetry. apply (Z.mod_unique _ _ (-1)); lia. }
    rewrite Hh, Hr. reflexivity.
Qed.

(** Ninety seconds and a fraction, and an Exit one minute before the Entry. *)
Lemma formatar_timedelta_trunca_exemplo :
  _formatar_timedelta (Some 90500000) = "00:01"
  /\ _formatar_timedelta (Some (-60000000)) = "-1:59".
Proof.
  split.
  - destruct (formatar_timedelta_trunca 90500000) as [H _].
    apply H. lia.
  - destruct (formatar_timedelta_trunca (-60000000)) as [_ H].
    apply H. lia.
Defined.

(** * Reading the store does not write it *)

Lemma execute_duravel {A} (q : comando A) (s : estado) :
  duravel (snd (execute q s)) = duravel s.
Proof.
  destruct (execute_casos q s) as [(msg & s' & -> & Hd & _) | (a & b & -> & _)].
  - exact Hd.
  - simpl. apply consulta_oraculo_campos.
Qed.

(** A connection that opens starts from the committed tables; whatever the
    body does, the connection is closed after it. *)
Lemma get_db_connection_casos {A} (m : M A) (s : estado) :
  (exists msg s', get_db_connection m s = (Raise (Psycopg2Error msg), s')
                  /\ duravel s' = duravel s)
  \/ (exists s1, duravel s1 = duravel s /\ transacao s1 = duravel s
                 /\ abortada s1 = false
                 /\ get_db_connection m s = (fst (m s1), close (snd (m s1)))).
Proof.
  unfold get_db_connection, connect.
  destruct (consulta_oraculo_campos s) as (Hd & _).
  rewrite (consulta_oraculo_par s).
  destruct (fst (consulta_oraculo s)) as [msg |].
  - left. exists msg. eexists. split; [reflexivity | exact Hd].
  - right.
    exists (com_transacao (snd (consulta_oraculo s))
              (duravel (snd (consulta_oraculo s))) false).
    split; [exact Hd | split; [exact Hd | split; [reflexivity |]]].
    destruct (m _) as [r s2]. reflexivity.
Qed.

Lemma obter_proximo_evento_duravel (H : list (string * time)) (agora : datetime)
  (cpf : string) (s : estado) :
  duravel (snd (obter_proximo_evento H agora cpf s)) = duravel s.
Proof.
  unfold obter_proximo_evento, bind.
  destruct (get_db_connection_casos
              (execute (sel_count_registros RealDictCursor cpf (strftime_Ymd agora))) s)
    as [(msg & s' & -> & Hd) | (s1 & Hd & _ & _ & ->)]; [exact Hd |].
  pose proof (execute_duravel
                (sel_count_registros RealDictCursor cpf (strftime_Ymd agora)) s1) as He.
  destruct (execute _ s1) as [[r | e] s2]; cbn [fst snd] in *.
  - destruct (_ <? _); unfold lift, ret; cbn [snd];
      rewrite close_duravel; congruence.
  - rewrite close_duravel. congruence.
Qed.



(** * What [bater_ponto] writes *)

Lemma find_none_existsb {A} (p : A -> bool) (l : list A) :
  find p l = None -> existsb p l = false.
Proof.
  induction l as [| x l IH]; [reflexivity |]. simpl.
  destruct (p x); [discriminate | exact IH].
Qed.

(** The row the lookup of the site fetches, when it fetches one, is a
    dictionary with the one key "filial". *)
Lemma consulta_filial_casos (cpf : string) (s : estado) :
  duravel (snd (get_db_connection (execute (sel_filial RealDictCursor cpf)) s))
  = duravel s
  /\ (forall r,
         fst (get_db_connection (execute (sel_filial RealDictCursor cpf)) s) = Ok r ->
         r = option_map (fun x => RealDictRow [("filial", valor_opt (f_filial x))])
               (find (fun x => String.eqb (f_cpf x) cpf)
                     (funcionarios (duravel s)))).
Proof.
  destruct (get_db_connection_casos (execute (sel_filial RealDictCursor cpf)) s)
    as [(msg & s' & -> & Hd) | (s1 & Hd & Ht & _ & ->)].
  { split; [exact Hd | discriminate]. }
  cbn [fst snd]. rewrite close_duravel, execute_duravel. split; [exact Hd |].
  destruct (execute_casos (sel_filial RealDictCursor cpf) s1)
    as [(msg & s' & -> & _) | (a & b & -> & Hu)]; [discriminate |].
  unfold sel_filial in Hu. injection Hu as <- _.
  intros r Hr. injection Hr as <-. rewrite Ht.
  destruct (find _ _); reflexivity.
Qed.

(** The punch of an employee who is not on file is refused by the store. *)
Lemma gravacao_recusada (novo_reg : registro) (s : estado) :
  existsb (fun x => String.eqb (f_cpf x) (r_cpf_funcionario novo_reg))
          (funcionarios (duravel s)) = false ->
  duravel (snd (get_db_connection (execute (ins_registro novo_reg) ;;; commit) s))
  = duravel s
  /\ exists e,
       fst (get_db_connection (execute (ins_registro novo_reg) ;;; commit) s)
       = Raise e.
Proof.
  intros Hex.
  destruct (get_db_connection_casos (execute (ins_registro novo_reg) ;;; commit) s)
    as [(msg & s' & -> & Hd) | (s1 & Hd & Ht & _ & ->)].
  { split; [exact Hd | eexists; reflexivity]. }
  cbn [fst snd]. rewrite close_duravel. unfold bind.
  destruct (execute_casos (ins_registro novo_reg) s1)
    as [(msg & s' & -> & Hd1 & _) | (a & b & _ & Hu)].
  - cbn [fst snd]. split; [congruence | eexists; reflexivity].
  - exfalso. unfold ins_registro in Hu. rewrite Ht, Hex in Hu.
    destruct (existsb _ (registros (duravel s))); discriminate.
Qed.

Lemma bater_ponto_nunca_grava_par (H : list (string * time)) (T : Z)
  (agora agora_evento : datetime) (cpf nome : string) (s : estado) :
  match bater_ponto H T agora agora_evento cpf nome s with
  | (r, s') => duravel s' = duravel s /\ forall msg, r <> Ok (msg, "success")
  end.
Proof.
  unfold bater_ponto. unfold bind at 1.
  pose proof (obter_proximo_evento_duravel H agora_evento cpf s) as H1.
  destruct (obter_proximo_evento H agora_evento cpf s) as [[ev | e] s1];
    cbn [fst snd] in *; [| split; [exact H1 | intros msg; discriminate]].
  destruct (String.eqb ev "Jornada Finalizada").
  { unfold ret. split; [exact H1 | intros msg; discriminate]. }
  unfold bind at 1.
  destruct (consulta_filial_casos cpf s1) as [H2 H3].
  destruct (get_db_connection (execute (sel_filial RealDictCursor cpf)) s1)
    as [[r | e] s2]; cbn [fst snd] in *;
    [| split; [congruence | intros msg; discriminate]].
  specialize (H3 r eq_refl). subst r.
  destruct (find (fun x => String.eqb (f_cpf x) cpf) (funcionarios (duravel s1)))
    as [x |] eqn:Hfind; cbn [option_map].
  { unfold bind, lift. cbn [getitem_pos].
    split; [congruence | intros msg; discriminate]. }
  unfold bind at 1. unfold ret at 1.
  unfold bind at 1. unfold lift at 1.
  destruct (dict_getitem (horarios_bater_ponto H VNull) ev) as [hp | e];
    [| split; [congruence | intros msg; discriminate]].
  unfold bind at 1.
  match goal with
  | |- context [get_db_connection (execute (ins_registro ?novo) ;;; commit) s2] =>
      destruct (gravacao_recusada novo s2) as [H4 [e H5]]
  end.
  { cbn [r_cpf_funcionario]. rewrite H2. apply find_none_existsb. exact Hfind. }
  match goal with
  | |- context [get_db_connection ?m s2] =>
      destruct (get_db_connection m s2) as [r3 s3]
  end.
  cbn [fst snd] in *. subst r3.
  split; [congruence | intros msg; discriminate].
Qed.

(** [bater_ponto] never changes the committed tables and never answers
    "success", whoever the employee, whatever the clock, the configuration
    and the behaviour of the store: for an employee on file the site is read
    with [[0]] off a dictionary row, and for one who is not the insert is
    refused by the foreign key of the punch. *)
Theorem bater_ponto_nunca_grava (H : list (string * time)) (T : Z)
  (agora agora_evento : datetime) (cpf nome : string) (s : estado) :
  duravel (snd (bater_ponto H T agora agora_evento cpf nome s)) = duravel s
  /\ forall msg,
       fst (bater_ponto H T agora agora_evento cpf nome s) <> Ok (msg, "success").
Proof.
  pose proof (bater_ponto_nunca_grava_par H T agora agora_evento cpf nome s) as Hp.
  destruct (bater_ponto H T agora agora_evento cpf nome s) as [r s'].
  exact Hp.
Qed.

(** * The site rule and the message of [bater_ponto], as the function runs *)









(** * The company of an imported row *)

(** On a cursor that hands out dictionary rows, looking a company up or
    creating it never gives its id back: the call ends in an exception of
    the store or in the [KeyError] of [[0]]. *)
Lemma obter_ou_criar_nunca_retorna (nome_empresa : string) (cnpj : option string)
  (s : estado) :
  exists e s',
    _obter_ou_criar_empresa_id RealDictCursor nome_empresa cnpj s = (Raise e, s').
Proof.
  unfold _obter_ou_criar_empresa_id. unfold bind at 1.
  destruct (execute_casos (sel_empresa_id RealDictCursor nome_empresa) s)
    as [(msg & s' & -> & _) | (a & b & -> & Hu)];
    [do 2 eexists; reflexivity |].
  unfold sel_empresa_id in Hu. injection Hu as <- _.
  destruct (find _ (empresas (transacao s))).
  - unfold bind, lift. cbn [mk_linha getitem_pos]. do 2 eexists. reflexivity.
  - unfold bind, ins_empresa.
    destruct (consulta_oraculo _) as [[msg |] s1]; [do 2 eexists; reflexivity |].
    destruct (abortada s1); [do 2 eexists; reflexivity |].
    destruct (existsb _ _); do 2 eexists; reflexivity.
Qed.

(** A row of the sheet with a new id and its essential fields, whose company
    is not among those read from the store when the import began (or is
    there with an id that counts as false), is never queued: it ends as one
    entry of the error list, whatever the store does.  The names of the
    companies are compared in lower case as Python lowers them; the company
    and the CNPJ of the row hold no NUL character. *)
Theorem importacao_empresa_fora_do_cache (sha : string -> string)
  (acc : acumulador) (index : Z) (row : linha_planilha) (s : estado) :
  sem_nul (EMPRESA row) = true -> sem_nul (CNPJ row) = true ->
  str_in (strip (CPF row)) (cpfs_existentes acc) = false ->
  forallb nao_vazia [strip (CODFORTE row); strip (NOME row); strip (CPF row);
                     strip (EMPRESA row)] = true ->
  truthy (match assoc (lower (strip (EMPRESA row))) (empresas_existentes acc) with
          | Some v => v
          | None => VNull
          end) = false ->
  exists e s',
    processa_linha sha acc (index, row) s
    = (Ok (mk_acumulador (novos_funcionarios acc)
             (erros acc ++ [("Linha " ++ str_of_Z (index + 2) ++ ": Erro - "
                             ++ str_excecao e)%string])%list
             (ignorados_count acc) (cpfs_existentes acc)
             (empresas_existentes acc)), s').
Proof.
  intros _ _ Hnew Hcampos Hcache.
  unfold processa_linha. rewrite Hnew, Hcampos. cbn [negb].
  unfold try_except, empresa_id_da_linha. rewrite Hcache. cbn [negb].
  unfold bind at 1 2.
  destruct (obter_ou_criar_nunca_retorna (strip (EMPRESA row))
              (Some (strip (CNPJ row))) s) as (e & s' & ->).
  exists e, s'. reflexivity.
Qed.

(** Caio, of a company that is not in the store, on the fourth line of the
    file. *)
Lemma importacao_empresa_fora_do_cache_exemplo :
  exists e s',
    processa_linha (fun x => x)
      (acumulador_inicial ["12345678900"] (empresas banco_importacao))
      (2, mk_linha_planilha "Filial 04.xlsx" "Nova" "1" "1" "Loja" "CF003"
                            "Caio" "11122233344")
      estado_importacao
    = (Ok (mk_acumulador [] ([] ++ [("Linha " ++ str_of_Z (2 + 2) ++ ": Erro - "
                                     ++ str_excecao e)%string])%list
             0 ["12345678900"]
             (empresas_existentes
                (acumulador_inicial ["12345678900"] (empresas banco_importacao)))),
       s').
Proof.
  apply (importacao_empresa_fora_do_cache (fun x => x)
           (acumulador_inicial ["12345678900"] (empresas banco_importacao))
           2 (mk_linha_planilha "Filial 04.xlsx" "Nova" "1" "1" "Loja" "CF003"
                                "Caio" "11122233344")
           estado_importacao);
    reflexivity.
Defined.

(** * Corrections that have nothing to change *)





(** * Login *)

Lemma verificar_login_sem_falha (sha : string -> string)
  (cpf senha : string) (s : estado) :
  oraculo s = [] ->
  fst (verificar_login sha cpf senha s)
  = Ok (match find (fun x => String.eqb (f_cpf x) cpf
                             && String.eqb (f_senha x) (sha senha))
                   (funcionarios (duravel s)) with
        | Some x => (Some (dict_de_linha (linha_de_funcionario DictCursor x)), None)
        | None => (None, Some "CPF ou Senha (Código Forte) inválidos.")
        end).
Proof.
  intros Ho. destruct s as [d t ab sq o]. simpl in Ho. subst o.
  unfold verificar_login, _hash_senha, bind, ret, get_db_connection, connect,
    execute, consulta_oraculo, close, com_transacao, sel_login.
  cbn [oraculo abortada duravel transacao seq_empresas].
  destruct (find _ (funcionarios d)); reflexivity.
Qed.




(** * Deleting an employee *)









(** * The bulk import: every row counted, and what it commits *)

Lemma processa_linha_contas (sha : string -> string) (acc acc' : acumulador)
  (il : Z * linha_planilha) (s s' : estado) :
  processa_linha sha acc il s = (Ok acc', s') ->
  ignorados_count acc' + Z.of_nat (List.length (novos_funcionarios acc'))
  + Z.of_nat (List.length (erros acc'))
  = ignorados_count acc + Z.of_nat (List.length (novos_funcionarios acc))
    + Z.of_nat (List.length (erros acc)) + 1.
Proof.
  unfold processa_linha. destruct il as [index row].
  destruct (str_in _ (cpfs_existentes acc)).
  { intros H. injection H as <- _. cbn. lia. }
  destruct (negb _).
  { intros H. injection H as <- _. cbn. rewrite length_app. cbn. lia. }
  unfold try_except, bind.
  destruct (empresa_id_da_linha _ _ _ s) as [[ie | e] s1];
    intros H; injection H as <- _; cbn; rewrite length_app; cbn; lia.
Qed.

Lemma processa_linhas_contas (sha : string -> string)
  (ls : list (Z * linha_planilha)) (acc acc' : acumulador) (s s' : estado) :
  processa_linhas sha ls acc s = (Ok acc', s') ->
  ignorados_count acc' + Z.of_nat (List.length (novos_funcionarios acc'))
  + Z.of_nat (List.length (erros acc'))
  = ignorados_count acc + Z.of_nat (List.length (novos_funcionarios acc))
    + Z.of_nat (List.length (erros acc)) + Z.of_nat (List.length ls).
Proof.
  revert acc s. induction ls as [| il ls IH]; intros acc s Hrun.
  - injection Hrun as <- _. cbn. lia.
  - cbn [processa_linhas] in Hrun. unfold bind in Hrun.
    destruct (processa_linha sha acc il s) as [[a | e] s1] eqn:Hl;
      [| discriminate].
    apply processa_linha_contas in Hl. apply IH in Hrun.
    cbn [List.length]. lia.
Qed.

Lemma insere_novos_casos (acc : acumulador) (s s' : estado)
  (fim : Z * list string) :
  insere_novos acc s = (Ok fim, s') ->
  fim = (Z.of_nat (List.length (novos_funcionarios acc)), erros acc)
  \/ (novos_funcionarios acc <> []
      /\ exists e, fim = (0, (erros acc
                              ++ [("Erro geral no banco de dados: "
                                   ++ str_excecao e)%string])%list)).
Proof.
  unfold insere_novos. destruct (novos_funcionarios acc) as [| x l] eqn:Hn.
  - intros H. injection H as <- _. left. reflexivity.
  - unfold try_except, bind.
    destruct (execute (ins_funcionarios (x :: l)) s) as [[[] | e] s1].
    + intros H. injection H as <- _. left. reflexivity.
    + destruct (is_psycopg2_error e); [| discriminate].
      intros H. injection H as <- _. right.
      split; [discriminate | exists e; reflexivity].
Qed.

(** In a bulk import that returns, every row of the sheet is counted once:
    rows added, rows ignored and error entries add up to the number of
    rows; only when the batched insert fails are the queued rows counted
    nowhere, the success count is 0 and one general error entry closes the
    list. *)
Theorem importacao_conta_cada_linha (sha : string -> string)
  (df : planilha) (s s' : estado) (suc ign : Z) (errs : list string) :
  forallb (fun col => str_in col (columns df)) colunas_necessarias = true ->
  importar_funcionarios_em_massa sha df s = (Ok (suc, ign, errs), s') ->
  suc + ign + Z.of_nat (List.length errs) = Z.of_nat (List.length (linhas df))
  \/ (suc = 0
      /\ exists pre e k,
           errs = (pre ++ [("Erro geral no banco de dados: "
                            ++ str_excecao e)%string])%list
           /\ 0 < k
           /\ k + ign + Z.of_nat (List.length pre)
              = Z.of_nat (List.length (linhas df))).
Proof.
  intros Hcols Hrun.
  unfold importar_funcionarios_em_massa, bind in Hrun.
  destruct (ler_funcionarios_cpfs s) as [[cpfs | e] s0]; [| discriminate].
  rewrite Hcols in Hrun. cbn [negb] in Hrun.
  unfold get_db_connection in Hrun.
  destruct (connect s0) as [[[] | e] s1]; [| discriminate].
  destruct (ler_empresas s1) as [[emps | e] s2]; [| discriminate].
  destruct (processa_linhas sha (linhas df) (acumulador_inicial cpfs emps) s2)
    as [[acc | e] s3] eqn:Hp; [| discriminate].
  destruct (insere_novos acc s3) as [[fim | e] s4] eqn:Hi; [| discriminate].
  destruct (commit s4) as [[[] | e] s5]; [| discriminate].
  injection Hrun as <- <- <- _.
  apply processa_linhas_contas in Hp. cbn in Hp.
  destruct (insere_novos_casos acc s3 s4 fim Hi) as [-> | [Hne [e ->]]].
  - left. cbn [fst snd]. lia.
  - right. cbn [fst snd]. split; [reflexivity |].
    exists (erros acc), e, (Z.of_nat (List.length (novos_funcionarios acc))).
    split; [reflexivity |].
    split; [| lia].
    destruct (novos_funcionarios acc); [contradiction | cbn; lia].
Qed.

(** The sheet of three rows: one added, two ignored, no error. *)
Lemma importacao_conta_cada_linha_exemplo :
  1 + 2 + Z.of_nat (List.length (@nil string))
  = Z.of_nat (List.length (linhas planilha_exemplo))
  \/ (1 = 0
      /\ exists pre e k,
           @nil string = (pre ++ [("Erro geral no banco de dados: "
                                   ++ str_excecao e)%string])%list
           /\ 0 < k
           /\ k + 2 + Z.of_nat (List.length pre)
              = Z.of_nat (List.length (linhas planilha_exemplo))).
Proof.
  apply (importacao_conta_cada_linha (fun x => x) planilha_exemplo
           estado_importacao
           (snd (importar_funcionarios_em_massa (fun x => x) planilha_exemplo
                   estado_importacao))
           1 2 []);
    reflexivity.
Defined.

Lemma execute_funcionarios {A} (q : comando A) (s : estado) :
  (forall b a b', q b = inr (a, b') -> funcionarios b' = funcionarios b) ->
  funcionarios (transacao (snd (execute q s))) = funcionarios (transacao s).
Proof.
  intros Hq.
  destruct (execute_casos q s) as [(msg & s' & -> & _ & Ht) | (a & b & -> & Hu)].
  - cbn [snd]. rewrite Ht. reflexivity.
  - cbn. apply (Hq _ _ _ Hu).
Qed.

Lemma ins_empresa_funcionarios (f : cursor_factory) (nome : string)
  (cnpj : option string) (s : estado) :
  funcionarios (transacao (snd (ins_empresa f nome cnpj s)))
  = funcionarios (transacao s).
Proof.
  unfold ins_empresa. rewrite (consulta_oraculo_par s).
  destruct (consulta_oraculo_campos s) as (_ & Ht & _).
  destruct (fst (consulta_oraculo s)); [cbn; rewrite Ht; reflexivity |].
  destruct (abortada _); [cbn; rewrite Ht; reflexivity |].
  destruct (existsb _ _); cbn; rewrite Ht; reflexivity.
Qed.

Lemma obter_ou_criar_funcionarios (f : cursor_factory) (nome : string)
  (cnpj : option string) (s : estado) :
  funcionarios (transacao (snd (_obter_ou_criar_empresa_id f nome cnpj s)))
  = funcionarios (transacao s).
Proof.
  unfold _obter_ou_criar_empresa_id. unfold bind at 1.
  pose proof (execute_funcionarios (sel_empresa_id f nome) s) as H1.
  destruct (execute (sel_empresa_id f nome) s) as [[r | e] s1]; cbn [snd] in H1.
  2: { apply H1. intros b a b' Hu. unfold sel_empresa_id in Hu.
       injection Hu as _ <-. reflexivity. }
  assert (H1' : funcionarios (transacao s1) = funcionarios (transacao s)).
  { apply H1. intros b a b' Hu. unfold sel_empresa_id in Hu.
    injection Hu as _ <-. reflexivity. }
  clear H1. destruct r as [l |].
  - unfold bind, lift. destruct (getitem_pos l 0) as [id | e]; [| exact H1'].
    pose proof (execute_funcionarios (upd_cnpj cnpj id) s1) as H2.
    destruct (execute (upd_cnpj cnpj id) s1) as [[u | e] s2]; cbn [snd] in *;
      rewrite H2; try exact H1';
      intros b a b' Hu; unfold upd_cnpj in Hu; injection Hu as _ <-; reflexivity.
  - unfold bind.
    pose proof (ins_empresa_funcionarios f nome cnpj s1) as H2.
    destruct (ins_empresa f nome cnpj s1) as [[l | e] s2]; cbn [snd] in *.
    + unfold lift. destruct (getitem_pos l 0); cbn [snd]; congruence.
    + congruence.
Qed.

(** A row of the sheet leaves the employees of the transaction as they were
    and queues only employees whose credential is the digest of their code
    and whose role is "employee". *)
Lemma processa_linha_funcionarios (sha : string -> string) (acc acc' : acumulador)
  (il : Z * linha_planilha) (s s' : estado) :
  Forall (fun x => f_senha x = sha (f_codigo x) /\ f_role x = "employee")
         (novos_funcionarios acc) ->
  processa_linha sha acc il s = (Ok acc', s') ->
  funcionarios (transacao s') = funcionarios (transacao s)
  /\ Forall (fun x => f_senha x = sha (f_codigo x) /\ f_role x = "employee")
            (novos_funcionarios acc').
Proof.
  intros Hc. unfold processa_linha. destruct il as [index row].
  destruct (str_in _ (cpfs_existentes acc)).
  { intros H. injection H as <- <-. split; [reflexivity | exact Hc]. }
  destruct (negb _).
  { intros H. injection H as <- <-. split; [reflexivity | exact Hc]. }
  unfold try_except. unfold bind at 1.
  assert (He : funcionarios
                 (transacao (snd (empresa_id_da_linha acc
                                    (strip (EMPRESA row)) (strip (CNPJ row)) s)))
               = funcionarios (transacao s)).
  { unfold empresa_id_da_linha. destruct (negb _); [| reflexivity].
    unfold bind.
    pose proof (obter_ou_criar_funcionarios RealDictCursor
                  (strip (EMPRESA row)) (Some (strip (CNPJ row))) s) as Ho.
    destruct (_obter_ou_criar_empresa_id _ _ _ s) as [[id | e] s1];
      exact Ho. }
  destruct (empresa_id_da_linha _ _ _ s) as [[ie | e] s1]; cbn [snd] in He;
    intros H; injection H as <- <-; (split; [exact He |]); [| exact Hc].
  cbn [novos_funcionarios]. apply Forall_app. split; [exact Hc |].
  constructor; [| constructor]. split; reflexivity.
Qed.

Lemma processa_linhas_funcionarios (sha : string -> string)
  (ls : list (Z * linha_planilha)) (acc acc' : acumulador) (s s' : estado) :
  Forall (fun x => f_senha x = sha (f_codigo x) /\ f_role x = "employee")
         (novos_funcionarios acc) ->
  processa_linhas sha ls acc s = (Ok acc', s') ->
  funcionarios (transacao s') = funcionarios (transacao s)
  /\ Forall (fun x => f_senha x = sha (f_codigo x) /\ f_role x = "employee")
            (novos_funcionarios acc').
Proof.
  revert acc s. induction ls as [| il ls IH]; intros acc s Hc Hrun.
  - injection Hrun as <- <-. split; [reflexivity | exact Hc].
  - cbn [processa_linhas] in Hrun. unfold bind in Hrun.
    destruct (processa_linha sha acc il s) as [[a | e] s1] eqn:Hl;
      [| discriminate].
    destruct (processa_linha_funcionarios sha acc a il s s1 Hc Hl) as [Hf Hc1].
    destruct (IH a s1 Hc1 Hrun) as [Hf2 Hc2].
    split; [congruence | exact Hc2].
Qed.

Lemma ins_funcionarios_ok (l : list funcionario) (b b' : banco) (u : unit) :
  ins_funcionarios l b = inr (u, b') ->
  funcionarios b' = (funcionarios b ++ l)%list.
Proof.
  revert b. induction l as [| x l IH]; intros b H.
  - injection H as _ <-. symmetry. apply app_nil_r.
  - cbn [ins_funcionarios] in H.
    destruct (ins_funcionario x b) as [msg | [u1 b1]] eqn:Hx; [discriminate |].
    apply IH in H. rewrite H. unfold ins_funcionario in Hx.
    destruct (existsb _ (funcionarios b)); [discriminate |].
    destruct (match f_empresa_id x with Some _ => _ | None => _ end);
      [discriminate |].
    injection Hx as _ <-. cbn [funcionarios]. rewrite <- app_assoc. reflexivity.
Qed.

Lemma ler_empresas_transacao (s : estado) :
  transacao (snd (ler_empresas s)) = transacao s
  /\ duravel (snd (ler_empresas s)) = duravel s.
Proof.
  unfold ler_empresas, bind, conexao_ociosa, query_df.
  destruct (consulta_oraculo_campos s) as (Hd & Ht & _).
  rewrite (consulta_oraculo_par s).
  destruct (fst (consulta_oraculo s)); [cbn; auto |].
  destruct (consulta_oraculo_campos (snd (consulta_oraculo s))) as (Hd' & Ht' & _).
  rewrite (consulta_oraculo_par (snd (consulta_oraculo s))).
  destruct (fst (consulta_oraculo (snd (consulta_oraculo s)))); cbn;
    split; congruence.
Qed.

Lemma ler_funcionarios_cpfs_duravel (s : estado) :
  duravel (snd (ler_funcionarios_cpfs s)) = duravel s.
Proof.
  unfold ler_funcionarios_cpfs, bind, conexao_ociosa, query_df.
  destruct (consulta_oraculo_campos s) as (Hd & _).
  rewrite (consulta_oraculo_par s).
  destruct (fst (consulta_oraculo s)); [cbn; auto |].
  destruct (consulta_oraculo_campos (snd (consulta_oraculo s))) as (Hd' & _).
  rewrite (consulta_oraculo_par (snd (consulta_oraculo s))).
  destruct (fst (consulta_oraculo (snd (consulta_oraculo s)))); cbn; congruence.
Qed.

Lemma insere_novos_sucesso (acc : acumulador) (s s' : estado)
  (fim : Z * list string) :
  insere_novos acc s = (Ok fim, s') ->
  0 < fst fim ->
  exists b', ins_funcionarios (novos_funcionarios acc) (transacao s) = inr (tt, b')
             /\ duravel s' = duravel s /\ transacao s' = b'
             /\ abortada s' = false
             /\ fst fim = Z.of_nat (List.length (novos_funcionarios acc)).
Proof.
  unfold insere_novos. destruct (novos_funcionarios acc) as [| x l].
  { intros H Hpos. injection H as <- _. cbn in Hpos. lia. }
  unfold try_except, bind.
  destruct (execute_casos (ins_funcionarios (x :: l)) s)
    as [(msg & s1 & -> & _) | (a & b & -> & Hu)].
  - cbn. intros H Hpos. injection H as <- _. cbn in Hpos. lia.
  - intros H _. injection H as <- <-. destruct a. exists b.
    split; [exact Hu |]. cbn.
    split; [apply consulta_oraculo_campos | repeat split].
Qed.

Lemma commit_vivo (s s' : estado) :
  commit s = (Ok tt, s') -> abortada s = false -> duravel s' = transacao s.
Proof.
  unfold commit. rewrite (consulta_oraculo_par s).
  destruct (consulta_oraculo_campos s) as (_ & Ht & Ha & _).
  destruct (fst (consulta_oraculo s)); [discriminate |].
  intros H Hab. rewrite Ha, Hab in H. injection H as <-. cbn. exact Ht.
Qed.

Lemma find_existe {A} (p : A -> bool) (l : list A) (x : A) :
  In x l -> p x = true -> exists y, find p l = Some y.
Proof.
  intros Hin Hp. destruct (find p l) as [y |] eqn:Hf; [exists y; reflexivity |].
  rewrite (find_none _ _ Hf x Hin) in Hp. discriminate.
Qed.

(** A bulk import that returns a positive success count has committed
    exactly the queued employees after those already on file, as many as
    the count says, each with the role "employee"; each of them can then
    log in with its id and its code as password. *)
Theorem importacao_confirma_e_login (sha : string -> string)
  (df : planilha) (s s' : estado) (suc ign : Z) (errs : list string) :
  forallb (fun col => str_in col (columns df)) colunas_necessarias = true ->
  importar_funcionarios_em_massa sha df s = (Ok (suc, ign, errs), s') ->
  0 < suc ->
  exists novos,
    funcionarios (duravel s') = (funcionarios (duravel s) ++ novos)%list
    /\ Z.of_nat (List.length novos) = suc
    /\ forall x, In x novos ->
         f_role x = "employee"
         /\ forall s2, duravel s2 = duravel s' -> oraculo s2 = [] ->
              exists d, fst (verificar_login sha (f_cpf x) (f_codigo x) s2)
                        = Ok (Some d, None).
Proof.
  intros Hcols Hrun Hpos.
  unfold importar_funcionarios_em_massa, bind in Hrun.
  pose proof (ler_funcionarios_cpfs_duravel s) as H0.
  destruct (ler_funcionarios_cpfs s) as [[cpfs | e] s0]; [| discriminate].
  cbn [snd] in H0.
  rewrite Hcols in Hrun. cbn [negb] in Hrun.
  unfold get_db_connection in Hrun.
  destruct (connect_casos s0) as [(msg & s1 & Hc & _) | (s1 & Hc & Hd1 & Ht1)];
    rewrite Hc in Hrun; [discriminate |].
  destruct (ler_empresas_transacao s1) as [Ht2 Hd2].
  destruct (ler_empresas s1) as [[emps | e] s2]; [| discriminate].
  cbn [snd] in Ht2, Hd2.
  destruct (processa_linhas sha (linhas df) (acumulador_inicial cpfs emps) s2)
    as [[acc | e] s3] eqn:Hp; [| discriminate].
  destruct (processa_linhas_funcionarios sha (linhas df)
              (acumulador_inicial cpfs emps) acc s2 s3
              (Forall_nil _) Hp) as [Hf3 Hcred].
  destruct (insere_novos acc s3) as [[fim | e] s4] eqn:Hi; [| discriminate].
  destruct (commit s4) as [[[] | e] s5] eqn:Hcm; [| discriminate].
  injection Hrun as <- <- <- <-.
  destruct (insere_novos_sucesso acc s3 s4 fim Hi Hpos)
    as (b' & Hins & _ & Ht4 & Ha4 & Hn).
  pose proof (commit_vivo s4 s5 Hcm Ha4) as Hd5.
  apply ins_funcionarios_ok in Hins.
  assert (Hfinal : funcionarios (duravel (close s5))
                   = (funcionarios (duravel s) ++ novos_funcionarios acc)%list).
  { rewrite close_duravel, Hd5, Ht4, Hins, Hf3, Ht2, Ht1, H0. reflexivity. }
  exists (novos_funcionarios acc).
  split; [exact Hfinal |]. split; [symmetry; exact Hn |].
  intros x Hx. rewrite Forall_forall in Hcred.
  destruct (Hcred x Hx) as [Hsenha Hrole].
  split; [exact Hrole |].
  intros s2' Hd Ho.
  rewrite (verificar_login_sem_falha sha (f_cpf x) (f_codigo x) s2' Ho).
  rewrite Hd, Hfinal.
  destruct (find_existe
              (fun y => String.eqb (f_cpf y) (f_cpf x)
                        && String.eqb (f_senha y) (sha (f_codigo x)))
              (funcionarios (duravel s) ++ novos_funcionarios acc) x)
    as [y Hy].
  - apply in_or_app. right. exact Hx.
  - rewrite Hsenha, !String.eqb_refl. reflexivity.
  - rewrite Hy. eexists. reflexivity.
Qed.

(** The sheet of three rows: Bia is committed after Ana and logs in with
    her code. *)
Lemma importacao_confirma_e_login_exemplo :
  exists novos,
    funcionarios
      (duravel (snd (importar_funcionarios_em_massa (fun x => x)
                       planilha_exemplo estado_importacao)))
    = (funcionarios (duravel estado_importacao) ++ novos)%list
    /\ Z.of_nat (List.length novos) = 1
    /\ forall x, In x novos ->
         f_role x = "employee"
         /\ forall s2,
              duravel s2
              = duravel (snd (importar_funcionarios_em_massa (fun x => x)
                                planilha_exemplo estado_importacao)) ->
              oraculo s2 = [] ->
              exists d, fst (verificar_login (fun x => x) (f_cpf x) (f_codigo x) s2)
                        = Ok (Some d, None).
Proof.
  apply (importacao_confirma_e_login (fun x => x) planilha_exemplo
           estado_importacao
           (snd (importar_funcionarios_em_massa (fun x => x) planilha_exemplo
                   estado_importacao))
           1 2 []);
    [reflexivity | reflexivity | lia].
Defined.

(** * Correcting twice *)

Lemma find_atualiza_onde (p : registro -> bool) (id : string)
  (g : registro -> registro) (rs : list registro) :
  (forall x, p (g x) = p x) ->
  (forall x, p x = true -> String.eqb (r_id x) id = true) ->
  find p (atualiza_onde id g rs) = option_map g (find p rs).
Proof.
  intros Hg Hid. unfold atualiza_onde.
  induction rs as [| a rs IH]; [reflexivity |]. simpl.
  destruct (String.eqb (r_id a) id) eqn:Ha.
  - rewrite Hg. destruct (p a); [reflexivity | exact IH].
  - destruct (p a) eqn:Hp; [| exact IH].
    rewrite (Hid a Hp) in Ha. discriminate.
Qed.

Lemma conta_atualiza_onde (id : string) (g : registro -> registro)
  (rs : list registro) :
  (forall x, r_id (g x) = r_id x) ->
  conta (fun r => String.eqb (r_id r) id) (atualiza_onde id g rs)
  = conta (fun r => String.eqb (r_id r) id) rs.
Proof.
  intros Hg. unfold conta, atualiza_onde. f_equal.
  induction rs as [| a rs IH]; [reflexivity |]. simpl.
  destruct (String.eqb (r_id a) id) eqn:Ha.
  - rewrite Hg, Ha. simpl. rewrite IH. reflexivity.
  - rewrite Ha. exact IH.
Qed.

Lemma atualiza_onde_comp (id : string) (g h : registro -> registro)
  (rs : list registro) :
  (forall x, r_id (g x) = r_id x) ->
  atualiza_onde id h (atualiza_onde id g rs)
  = atualiza_onde id (fun r => h (g r)) rs.
Proof.
  intros Hg. unfold atualiza_onde. rewrite map_map. apply map_ext.
  intros a. destruct (String.eqb (r_id a) id) eqn:Ha.
  - rewrite Hg, Ha. reflexivity.
  - rewrite Ha. reflexivity.
Qed.

Lemma atualiza_onde_ext (id : string) (g1 g2 : registro -> registro)
  (rs : list registro) :
  (forall x, g1 x = g2 x) -> atualiza_onde id g1 rs = atualiza_onde id g2 rs.
Proof.
  intros H. unfold atualiza_onde. apply map_ext.
  intros a. rewrite H. reflexivity.
Qed.

Lemma atualiza_onde_id (id : string) (rs : list registro) :
  atualiza_onde id (fun r => r) rs = rs.
Proof.
  unfold atualiza_onde. rewrite <- (map_id rs) at 2. apply map_ext.
  intros a. destruct (String.eqb (r_id a) id); reflexivity.
Qed.

Lemma execute_ok {A} (q : comando A) (d t : banco) (sq : Z) (a : A) (b : banco) :
  q t = inr (a, b) ->
  execute q (mk_estado d t false sq []) = (Ok a, mk_estado d b false sq []).
Proof. intros Hq. unfold execute. cbn. rewrite Hq. reflexivity. Qed.

(** The time block on tables whose punches are [rs] changed by [g] on the
    punch [id], when the store answers. *)
Lemma bloco_horario_puro (T : Z) (id : string) (novo_horario : option string)
  (d : banco) (es : list empresa) (fs : list funcionario) (rs : list registro)
  (g : registro -> registro) (sq : Z) :
  preserva_chaves g ->
  bloco_horario T id novo_horario
    (mk_estado d (mk_banco es fs (atualiza_onde id g rs)) false sq [])
  = match novo_horario with
    | None =>
        (Ok (inr 0),
         mk_estado d (mk_banco es fs (atualiza_onde id g rs)) false sq [])
    | Some hs =>
        match Strptime.parse_HMS hs with
        | None =>
            (Ok (inl ("Formato de hora inválido. Use HH:MM:SS.", "error")),
             mk_estado d (mk_banco es fs (atualiza_onde id g rs)) false sq [])
        | Some novo_obj =>
            match find (fun r => String.eqb (r_id r) id
                                 && existsb (fun x => String.eqb (f_cpf x)
                                                        (r_cpf_funcionario r)) fs)
                       rs with
            | None =>
                (Ok (inr 0),
                 mk_estado d (mk_banco es fs (atualiza_onde id g rs)) false sq [])
            | Some r =>
                match find (fun x => String.eqb (f_cpf x) (r_cpf_funcionario r))
                           fs with
                | None =>
                    (Ok (inr 0),
                     mk_estado d (mk_banco es fs (atualiza_onde id g rs))
                               false sq [])
                | Some x =>
                    match Strptime.parse_Ymd (r_data r) with
                    | None =>
                        (Raise (ValueError "time data does not match format"),
                         mk_estado d (mk_banco es fs (atualiza_onde id g rs))
                                   false sq [])
                    | Some dt =>
                        (Ok (inr (conta (fun r => String.eqb (r_id r) id) rs)),
                         mk_estado d
                           (mk_banco es fs
                              (atualiza_onde id
                                 (fun y =>
                                    com_hora hs
                                      (diff_final_atualizar_registro T
                                         (diff_bruta_atualizar dt
                                            (get_horario_padrao
                                               (filial_num_de
                                                  (valor_opt (f_filial x)))
                                               (r_descricao r))
                                            novo_obj))
                                      (g y))
                                 rs))
                           false sq [])
                    end
                end
            end
        end
    end.
Proof.
  intros Hg. unfold bloco_horario.
  destruct novo_horario as [hs |]; [| reflexivity].
  destruct (Strptime.parse_HMS hs) as [novo_obj |]; [| reflexivity].
  unfold bind at 1. erewrite execute_ok by reflexivity.
  cbn [registros funcionarios].
  rewrite find_atualiza_onde.
  2: { intros x. destruct (Hg x) as (H1 & H2 & _). rewrite H1, H2. reflexivity. }
  2: { intros x Hx. apply andb_true_iff in Hx. apply Hx. }
  destruct (find _ rs) as [r |]; cbn [option_map]; [| reflexivity].
  destruct (Hg r) as (H1 & H2 & H3 & H4). rewrite H2.
  destruct (find _ fs) as [x |]; [| reflexivity].
  cbn [mk_linha bind lift getitem_nome assoc String.eqb Ascii.eqb Bool.eqb
       str_valor].
  rewrite H3, H4.
  destruct (Strptime.parse_Ymd (r_data r)) as [dt |]; [| reflexivity].
  unfold bind, ret. erewrite execute_ok by reflexivity.
  cbn [registros]. rewrite conta_atualiza_onde by (intros y; apply Hg).
  rewrite atualiza_onde_comp by (intros y; apply Hg).
  reflexivity.
Qed.

Lemma bloco_observacao_puro (id : string) (nova_observacao : option string)
  (d : banco) (es : list empresa) (fs : list funcionario) (rs : list registro)
  (g : registro -> registro) (sq : Z) :
  preserva_chaves g ->
  bloco_observacao id nova_observacao
    (mk_estado d (mk_banco es fs (atualiza_onde id g rs)) false sq [])
  = (Ok (match nova_observacao with
         | Some _ => conta (fun r => String.eqb (r_id r) id) rs
         | None => 0
         end),
     mk_estado d
       (mk_banco es fs
          (atualiza_onde id
             (fun y => match nova_observacao with
                       | Some o => com_observacao o
                       | None => fun r => r
                       end (g y))
             rs))
       false sq []).
Proof.
  intros Hg. unfold bloco_observacao.
  destruct nova_observacao as [o |]; [| reflexivity].
  erewrite execute_ok by reflexivity.
  cbn [registros]. rewrite conta_atualiza_onde by (intros y; apply Hg).
  rewrite atualiza_onde_comp by (intros y; apply Hg).
  reflexivity.
Qed.

Lemma preserva_chaves_observacao (nova_observacao : option string)
  (g : registro -> registro) :
  preserva_chaves g ->
  preserva_chaves (fun y => match nova_observacao with
                            | Some o => com_observacao o
                            | None => fun r => r
                            end (g y)).
Proof.
  intros Hg x. destruct nova_observacao; apply Hg.
Qed.

(** With a store that answers, a correction on tables whose punches are
    [rs] changed by [g] on the punch [id] answers as [correcao_pura] says
    and commits the change it gives, after [g]. *)
Lemma atualizar_registro_puro (T : Z) (id : string)
  (novo_horario nova_observacao : option string)
  (es : list empresa) (fs : list funcionario) (rs : list registro)
  (g : registro -> registro) (t : banco) (ab : bool) (sq : Z) :
  preserva_chaves g ->
  atualizar_registro T id novo_horario nova_observacao
    (mk_estado (mk_banco es fs (atualiza_onde id g rs)) t ab sq [])
  = (fst (correcao_pura T id novo_horario nova_observacao fs rs),
     match snd (correcao_pura T id novo_horario nova_observacao fs rs) with
     | Some G =>
         mk_estado (mk_banco es fs (atualiza_onde id (fun r => G (g r)) rs))
                   (mk_banco es fs (atualiza_onde id (fun r => G (g r)) rs))
                   false sq []
     | None =>
         mk_estado (mk_banco es fs (atualiza_onde id g rs))
                   (mk_banco es fs (atualiza_onde id g rs)) false sq []
     end).
Proof.
  intros Hg.
  unfold atualizar_registro, try_except, get_db_connection, connect,
    consulta_oraculo, com_transacao.
  cbn [oraculo duravel transacao abortada seq_empresas].
  unfold corpo_atualizar_registro. unfold bind at 1.
  erewrite execute_ok by reflexivity.
  cbn [registros]. rewrite find_atualiza_onde;
    [| intros x; destruct (Hg x) as [H1 _]; rewrite H1; reflexivity
     | intros x Hx; exact Hx].
  unfold correcao_pura.
  destruct (find (fun r => String.eqb (r_id r) id) rs) as [r0 |];
    cbn [option_map]; [| reflexivity].
  unfold bind at 1. rewrite (bloco_observacao_puro id nova_observacao _ es fs rs g sq Hg).
  unfold bind at 1.
  rewrite (bloco_horario_puro T id novo_horario _ es fs rs _ sq
             (preserva_chaves_observacao nova_observacao g Hg)).
  cbv zeta.
  destruct novo_horario as [hs |].
  2: { destruct (_ + 0 =? 0) eqn:Hn; rewrite Z.add_0_r in Hn; rewrite Hn;
       reflexivity. }
  destruct (Strptime.parse_HMS hs) as [novo_obj |]; [| reflexivity].
  destruct (find _ rs) as [r |].
  2: { destruct (_ + 0 =? 0) eqn:Hn; rewrite Z.add_0_r in Hn; rewrite Hn;
       reflexivity. }
  destruct (find _ fs) as [x |].
  2: { destruct (_ + 0 =? 0) eqn:Hn; rewrite Z.add_0_r in Hn; rewrite Hn;
       reflexivity. }
  destruct (Strptime.parse_Ymd (r_data r)) as [dt |]; [| reflexivity].
  destruct (_ + _ =? 0); reflexivity.
Qed.

Lemma correcao_pura_mudanca (T : Z) (id : string)
  (novo_horario nova_observacao : option string)
  (fs : list funcionario) (rs : list registro) (G : registro -> registro) :
  snd (correcao_pura T id novo_horario nova_observacao fs rs) = Some G ->
  preserva_chaves G /\ forall x, G (G x) = G x.
Proof.
  unfold correcao_pura. cbv zeta.
  repeat match goal with
         | |- context [match ?c with _ => _ end] =>
             lazymatch c with
             | nova_observacao => fail
             | _ => destruct c
             end
         end;
    cbn [snd]; intros H; try discriminate; injection H as <-;
    (split; [intros x | intros x; destruct x]);
    destruct nova_observacao; repeat split.
Qed.

(** With a store that answers, a correction run a second time with the same
    arguments gives the same answer and leaves the store exactly as the
    first run left it: the same time of day, deviation and annotation. *)
Theorem atualizar_registro_idempotente (T : Z) (id : string)
  (novo_horario nova_observacao : option string) (s s' : estado)
  (r : resultado (string * string)) :
  oraculo s = [] ->
  atualizar_registro T id novo_horario nova_observacao s = (r, s') ->
  atualizar_registro T id novo_horario nova_observacao s' = (r, s').
Proof.
  intros Ho Hrun. destruct s as [[es fs rs] t ab sq o]. simpl in Ho. subst o.
  assert (Hid : preserva_chaves (fun r => r)) by (intros x; repeat split).
  pose proof (atualizar_registro_puro T id novo_horario nova_observacao
                es fs rs (fun r => r) t ab sq Hid) as H1.
  cbv beta in H1. rewrite atualiza_onde_id in H1.
  rewrite H1 in Hrun. injection Hrun as <- <-.
  destruct (correcao_pura T id novo_horario nova_observacao fs rs)
    as [res [G |]] eqn:Hpura; cbn [fst snd].
  - destruct (correcao_pura_mudanca T id novo_horario nova_observacao fs rs G)
      as [HG Hidem]; [rewrite Hpura; reflexivity |].
    rewrite (atualizar_registro_puro T id novo_horario nova_observacao
               es fs rs (fun r => G r) _ false sq HG).
    rewrite Hpura. cbn [fst snd].
    rewrite (atualiza_onde_ext id (fun r => G (G r)) (fun r => G r) rs Hidem).
    reflexivity.
  - pose proof (atualizar_registro_puro T id novo_horario nova_observacao
                  es fs rs (fun r => r) (mk_banco es fs rs) false sq Hid) as H2.
    cbv beta in H2. rewrite atualiza_onde_id in H2.
    rewrite H2, Hpura. reflexivity.
Qed.

(** The Exit of 18:25 corrected to 18:05:30 and annotated, twice. *)
Lemma atualizar_registro_idempotente_exemplo :
  atualizar_registro 10 (r_id saida_de_ana) (Some "18:05:30") (Some "visto")
    (mk_estado banco_corrigido banco_corrigido false 1 [])
  = (Ok ("Registro atualizado com sucesso.", "success"),
     mk_estado banco_corrigido banco_corrigido false 1 []).
Proof.
  apply (atualizar_registro_idempotente 10 (r_id saida_de_ana) (Some "18:05:30")
           (Some "visto") (estado_exemplo [])
           (mk_estado banco_corrigido banco_corrigido false 1 [])
           (Ok ("Registro atualizado com sucesso.", "success")));
    reflexivity.
Defined.

(** * The deviation a correction stores *)

(** With a store that answers, a correction with a new time of a punch
    whose employee is on file, when it succeeds, leaves on the punch the new
    time as it was given and, as deviation, the tolerance band applied to
    the minutes between the hour and minute of the new time and the time
    expected for the site of the employee and the event of the punch; the
    date of the punch and the seconds of the new time do not enter it.  The
    site is read with the digits of Unicode, its run of digits being one
    that [int] converts; the id of the punch and the annotation hold no NUL
    character. *)
Theorem atualizar_registro_desvio_gravado (T : Z) (id hs : string)
  (nova_observacao : option string) (s s' : estado) (msg : string)
  (novo_obj : time) (r : registro) (x : funcionario) :
  sem_nul id = true -> sem_nul_opt nova_observacao = true ->
  filial_aceita (valor_opt (f_filial x)) = true ->
  oraculo s = [] ->
  Strptime.parse_HMS hs = Some novo_obj ->
  find (fun r => String.eqb (r_id r) id
                 && existsb (fun x => String.eqb (f_cpf x) (r_cpf_funcionario r))
                            (funcionarios (duravel s)))
       (registros (duravel s)) = Some r ->
  find (fun x => String.eqb (f_cpf x) (r_cpf_funcionario r))
       (funcionarios (duravel s)) = Some x ->
  atualizar_registro T id (Some hs) nova_observacao s
  = (Ok (msg, "success"), s') ->
  forall r', In r' (registros (duravel s')) -> r_id r' = id ->
    r_hora r' = hs
    /\ r_diferenca_min r'
       = diff_final_atualizar_registro T
           ((t_hour novo_obj
             - t_hour (get_horario_padrao (filial_num_de (valor_opt (f_filial x)))
                                          (r_descricao r))) * 60
            + (t_minute novo_obj
               - t_minute (get_horario_padrao
                             (filial_num_de (valor_opt (f_filial x)))
                             (r_descricao r)))).
Proof.
  intros _ _ _ Ho Hp Hj Hf Hrun.
  destruct s as [[es fs rs] t ab sq o]. simpl in Ho, Hj, Hf. subst o.
  assert (Hid : preserva_chaves (fun r => r)) by (intros y; repeat split).
  pose proof (atualizar_registro_puro T id (Some hs) nova_observacao
                es fs rs (fun r => r) t ab sq Hid) as H1.
  cbv beta in H1. rewrite atualiza_onde_id in H1.
  rewrite H1 in Hrun. clear H1.
  unfold correcao_pura in Hrun. rewrite Hp, Hj, Hf in Hrun. cbv zeta in Hrun.
  destruct (find (fun r => String.eqb (r_id r) id) rs); [| discriminate].
  destruct (Strptime.parse_Ymd (r_data r)) as [dt |]; [| discriminate].
  rewrite diff_bruta_atualizar_formula in Hrun.
  destruct (_ =? 0); [discriminate |].
  cbn [fst snd] in Hrun. injection Hrun as _ <-.
  cbn [duravel registros]. intros r' Hin Hr'.
  unfold atualiza_onde in Hin. apply in_map_iff in Hin.
  destruct Hin as (a & <- & _).
  destruct (String.eqb_spec (r_id a) id) as [_ | Hne].
  - split; reflexivity.
  - contradiction.
Qed.

(** Ana's Exit of 18:25 corrected to 18:05:30: five minutes after 18:00,
    within the tolerance of ten. *)
Lemma atualizar_registro_desvio_gravado_exemplo :
  r_hora (mk_registro (r_id saida_de_ana) "12345678900" "Ana" "2024-03-05"
                      "18:05:30" "Saída" 0 (Some "visto")) = "18:05:30"
  /\ r_diferenca_min (mk_registro (r_id saida_de_ana) "12345678900" "Ana"
                                  "2024-03-05" "18:05:30" "Saída" 0 (Some "visto"))
     = diff_final_atualizar_registro 10
         ((t_hour (mk_time 18 5 30)
           - t_hour (get_horario_padrao (filial_num_de (valor_opt (f_filial ana)))
                                        (r_descricao saida_de_ana))) * 60
          + (t_minute (mk_time 18 5 30)
             - t_minute (get_horario_padrao
                           (filial_num_de (valor_opt (f_filial ana)))
                           (r_descricao saida_de_ana)))).
Proof.
  apply (atualizar_registro_desvio_gravado 10 (r_id saida_de_ana) "18:05:30"
           (Some "visto") (estado_exemplo [])
           (mk_estado banco_corrigido banco_corrigido false 1 [])
           "Registro atualizado com sucesso." (mk_time 18 5 30)
           saida_de_ana ana);
    try reflexivity.
  right. left. reflexivity.
Defined.

(** * What [strftime] writes, [strptime] reads *)

Lemma digito_ascii_separadores (a : ascii) :
  digito_ascii a = true ->
  Ascii.eqb a ":" = false /\ Ascii.eqb a "-" = false.
Proof.
  intros H. split.
  - destruct (Ascii.eqb_spec a ":") as [-> | _]; [discriminate H | reflexivity].
  - destruct (Ascii.eqb_spec a "-") as [-> | _]; [discriminate H | reflexivity].
Qed.

(** A check that holds of each number of a range holds of any number in
    it. *)
Lemma por_enumeracao (P : Z -> bool) (lo n : nat) (v : Z) :
  forallb (fun k => P (Z.of_nat k)) (seq lo n) = true ->
  Z.of_nat lo <= v < Z.of_nat lo + Z.of_nat n ->
  P v = true.
Proof.
  intros Hall Hv. rewrite forallb_forall in Hall.
  specialize (Hall (Z.to_nat v)). rewrite Z2Nat.id in Hall by lia.
  apply Hall. apply in_seq. lia.
Qed.

Lemma zfill2_forma (v : Z) :
  0 <= v < 100 ->
  exists a b, zfill 2 v = String a (String b EmptyString)
              /\ digito_ascii a = true /\ digito_ascii b = true.
Proof.
  intros Hv.
  pose proof (por_enumeracao
                (fun n => match zfill 2 n with
                          | String a (String b EmptyString) =>
                              digito_ascii a && digito_ascii b
                          | _ => false
                          end) 0 100 v ltac:(vm_compute; reflexivity)
                ltac:(cbn; lia)) as Hall.
  cbv beta in Hall.
  destruct (zfill 2 v) as [| a [| b [| c r]]]; try discriminate.
  apply andb_true_iff in Hall. destruct Hall as [Ha Hb].
  exists a, b. auto.
Qed.

Lemma zfill4_forma (v : Z) :
  1000 <= v <= 9999 ->
  exists a b c d,
    zfill 4 v = String a (String b (String c (String d EmptyString)))
    /\ digito_ascii a = true /\ digito_ascii b = true
    /\ digito_ascii c = true /\ digito_ascii d = true.
Proof.
  intros Hv.
  pose proof (por_enumeracao
                (fun n => match zfill 4 n with
                          | String a (String b (String c (String d EmptyString))) =>
                              digito_ascii a && digito_ascii b
                              && digito_ascii c && digito_ascii d
                          | _ => false
                          end) (Z.to_nat 1000) (Z.to_nat 9000) v
                ltac:(vm_compute; reflexivity)
                ltac:(rewrite !Z2Nat.id by lia; lia)) as Hall.
  cbv beta in Hall.
  destruct (zfill 4 v) as [| a [| b [| c [| d [| e r]]]]]; try discriminate.
  apply andb_true_iff in Hall. destruct Hall as [Hall Hd].
  apply andb_true_iff in Hall. destruct Hall as [Hall Hc].
  apply andb_true_iff in Hall. destruct Hall as [Ha Hb].
  exists a, b, c, d. auto 10.
Qed.

(** What each directive of [strptime] reads off the digits [strftime]
    writes. *)
Lemma campo_H_zfill (v : Z) :
  0 <= v < 24 -> Strptime.campo_H (decode (zfill 2 v)) = Some v.
Proof.
  intros Hv.
  pose proof (por_enumeracao
                (fun n => match Strptime.campo_H (decode (zfill 2 n)) with
                          | Some w => w =? n
                          | None => false
                          end) 0 24 v ltac:(vm_compute; reflexivity)
                ltac:(cbn; lia)) as H.
  cbv beta in H. destruct (Strptime.campo_H _) as [w |]; [| discriminate].
  apply Z.eqb_eq in H. congruence.
Qed.

Lemma campo_M_zfill (v : Z) :
  0 <= v < 60 -> Strptime.campo_M (decode (zfill 2 v)) = Some v.
Proof.
  intros Hv.
  pose proof (por_enumeracao
                (fun n => match Strptime.campo_M (decode (zfill 2 n)) with
                          | Some w => w =? n
                          | None => false
                          end) 0 60 v ltac:(vm_compute; reflexivity)
                ltac:(cbn; lia)) as H.
  cbv beta in H. destruct (Strptime.campo_M _) as [w |]; [| discriminate].
  apply Z.eqb_eq in H. congruence.
Qed.

Lemma campo_S_zfill (v : Z) :
  0 <= v < 60 -> Strptime.campo_S (decode (zfill 2 v)) = Some v.
Proof.
  intros Hv.
  pose proof (por_enumeracao
                (fun n => match Strptime.campo_S (decode (zfill 2 n)) with
                          | Some w => w =? n
                          | None => false
                          end) 0 60 v ltac:(vm_compute; reflexivity)
                ltac:(cbn; lia)) as H.
  cbv beta in H. destruct (Strptime.campo_S _) as [w |]; [| discriminate].
  apply Z.eqb_eq in H. congruence.
Qed.

Lemma campo_m_zfill (v : Z) :
  1 <= v <= 12 -> Strptime.campo_m (decode (zfill 2 v)) = Some v.
Proof.
  intros Hv.
  pose proof (por_enumeracao
                (fun n => match Strptime.campo_m (decode (zfill 2 n)) with
                          | Some w => w =? n
                          | None => false
                          end) 1 12 v ltac:(vm_compute; reflexivity)
                ltac:(cbn; lia)) as H.
  cbv beta in H. destruct (Strptime.campo_m _) as [w |]; [| discriminate].
  apply Z.eqb_eq in H. congruence.
Qed.

Lemma campo_d_zfill (v : Z) :
  1 <= v <= 31 -> Strptime.campo_d (decode (zfill 2 v)) = Some v.
Proof.
  intros Hv.
  pose proof (por_enumeracao
                (fun n => match Strptime.campo_d (decode (zfill 2 n)) with
                          | Some w => w =? n
                          | None => false
                          end) 1 31 v ltac:(vm_compute; reflexivity)
                ltac:(cbn; lia)) as H.
  cbv beta in H. destruct (Strptime.campo_d _) as [w |]; [| discriminate].
  apply Z.eqb_eq in H. congruence.
Qed.

Lemma campo_Y_zfill (v : Z) :
  1000 <= v <= 9999 -> Strptime.campo_Y (decode (zfill 4 v)) = Some v.
Proof.
  intros Hv.
  pose proof (por_enumeracao
                (fun n => match Strptime.campo_Y (decode (zfill 4 n)) with
                          | Some w => w =? n
                          | None => false
                          end) (Z.to_nat 1000) (Z.to_nat 9000) v
                ltac:(vm_compute; reflexivity)
                ltac:(rewrite !Z2Nat.id by lia; lia)) as H.
  cbv beta in H. destruct (Strptime.campo_Y _) as [w |]; [| discriminate].
  apply Z.eqb_eq in H. congruence.
Qed.

(** The time of day and the date that [bater_ponto] writes with [strftime]
    are read back by the [strptime] of [atualizar_registro] as the same
    hour, minute and second and the same year, month and day. *)
Theorem strftime_strptime (dt : datetime) :
  (0 <= hour dt < 24 -> 0 <= minute dt < 60 -> 0 <= second dt < 60 ->
   Strptime.parse_HMS (strftime_HMS dt)
   = Some (mk_time (hour dt) (minute dt) (second dt)))
  /\ (1000 <= year dt <= 9999 -> 1 <= month dt <= 12 ->
      1 <= day dt <= days_in_month (year dt) (month dt) ->
      Strptime.parse_Ymd (strftime_Ymd dt)
      = Some (mk_datetime (year dt) (month dt) (day dt) 0 0 0 0 "")).
Proof.
  split.
  - intros Hh Hm Hs. unfold strftime_HMS, Strptime.parse_HMS.
    destruct (zfill2_forma (hour dt)) as (a1 & b1 & E1 & Ha1 & Hb1); [lia |].
    destruct (zfill2_forma (minute dt)) as (a2 & b2 & E2 & Ha2 & Hb2); [lia |].
    destruct (zfill2_forma (second dt)) as (a3 & b3 & E3 & Ha3 & Hb3); [lia |].
    rewrite E1, E2, E3. cbn [append split_on].
    destruct (digito_ascii_separadores a1 Ha1) as (-> & _).
    destruct (digito_ascii_separadores b1 Hb1) as (-> & _).
    destruct (digito_ascii_separadores a2 Ha2) as (-> & _).
    destruct (digito_ascii_separadores b2 Hb2) as (-> & _).
    destruct (digito_ascii_separadores a3 Ha3) as (-> & _).
    destruct (digito_ascii_separadores b3 Hb3) as (-> & _).
    cbn [Ascii.eqb Bool.eqb].
    rewrite <- E1, <- E2, <- E3.
    rewrite campo_H_zfill, campo_M_zfill, campo_S_zfill by lia.
    destruct (Z.leb_spec (second dt) 59); [reflexivity | lia].
  - intros Hy Hm Hd. unfold strftime_Ymd, Strptime.parse_Ymd.
    assert (Hdm : days_in_month (year dt) (month dt) <= 31).
    { unfold days_in_month.
      repeat match goal with |- context [if ?c then _ else _] => destruct c end;
        lia. }
    destruct (zfill4_forma (year dt))
      as (a & b & c & d & E1 & Ha & Hb & Hc & Hd'); [lia |].
    destruct (zfill2_forma (month dt)) as (a2 & b2 & E2 & Ha2 & Hb2); [lia |].
    destruct (zfill2_forma (day dt)) as (a3 & b3 & E3 & Ha3 & Hb3); [lia |].
    rewrite E1, E2, E3. cbn [append split_on].
    destruct (digito_ascii_separadores a Ha) as (_ & ->).
    destruct (digito_ascii_separadores b Hb) as (_ & ->).
    destruct (digito_ascii_separadores c Hc) as (_ & ->).
    destruct (digito_ascii_separadores d Hd') as (_ & ->).
    destruct (digito_ascii_separadores a2 Ha2) as (_ & ->).
    destruct (digito_ascii_separadores b2 Hb2) as (_ & ->).
    destruct (digito_ascii_separadores a3 Ha3) as (_ & ->).
    destruct (digito_ascii_separadores b3 Hb3) as (_ & ->).
    cbn [Ascii.eqb Bool.eqb].
    rewrite <- E1, <- E2, <- E3.
    rewrite campo_Y_zfill, campo_m_zfill, campo_d_zfill by lia.
    destruct (Z.leb_spec 1 (year dt)); [| lia].
    destruct (Z.leb_spec (day dt) (days_in_month (year dt) (month dt))); [| lia].
    reflexivity.
Qed.

(** 5 March 2024, 08:07:09. *)
Lemma strftime_strptime_exemplo :
  Strptime.parse_HMS (strftime_HMS (mk_datetime 2024 3 5 8 7 9 0 "-03:00"))
  = Some (mk_time 8 7 9)
  /\ Strptime.parse_Ymd (strftime_Ymd (mk_datetime 2024 3 5 8 7 9 0 "-03:00"))
     = Some (mk_datetime 2024 3 5 0 0 0 0 "").
Proof.
  destruct (strftime_strptime (mk_datetime 2024 3 5 8 7 9 0 "-03:00")) as [H1 H2].
  split; [apply H1 | apply H2]; cbn; lia.
Defined.

(** * What the addition of an employee and a failed import leave *)

Lemma ins_empresa_duravel (f : cursor_factory) (nome : string)
  (cnpj : option string) (s : estado) :
  duravel (snd (ins_empresa f nome cnpj s)) = duravel s.
Proof.
  unfold ins_empresa. rewrite (consulta_oraculo_par s).
  destruct (consulta_oraculo_campos s) as (Hd & _).
  destruct (fst (consulta_oraculo s)); [cbn; exact Hd |].
  destruct (abortada _); [cbn; exact Hd |].
  destruct (existsb _ _); cbn; exact Hd.
Qed.

Lemma obter_ou_criar_duravel (f : cursor_factory) (nome : string)
  (cnpj : option string) (s : estado) :
  duravel (snd (_obter_ou_criar_empresa_id f nome cnpj s)) = duravel s.
Proof.
  unfold _obter_ou_criar_empresa_id. unfold bind at 1.
  pose proof (execute_duravel (sel_empresa_id f nome) s) as H1.
  destruct (execute (sel_empresa_id f nome) s) as [[r | e] s1]; cbn [snd] in H1;
    [| exact H1].
  destruct r as [l |].
  - unfold bind, lift. destruct (getitem_pos l 0) as [id | e]; [| exact H1].
    pose proof (execute_duravel (upd_cnpj cnpj id) s1) as H2.
    destruct (execute (upd_cnpj cnpj id) s1) as [[u | e] s2]; cbn [snd] in *;
      congruence.
  - unfold bind.
    pose proof (ins_empresa_duravel f nome cnpj s1) as H2.
    destruct (ins_empresa f nome cnpj s1) as [[l | e] s2]; cbn [snd] in *.
    + unfold lift. destruct (getitem_pos l 0); cbn [snd]; congruence.
    + congruence.
Qed.

Lemma adicionar_funcionario_par (sha : string -> string)
  (codigo nome nome_empresa : string) (cnpj : option string) (cpf : string)
  (cod_tipo tipo filial : option string) (s : estado) :
  match adicionar_funcionario sha codigo nome nome_empresa cnpj cpf
          cod_tipo tipo filial s with
  | (r, s') => duravel s' = duravel s /\ forall msg, r <> Ok (msg, "success")
  end.
Proof.
  unfold adicionar_funcionario.
  destruct (negb _); [split; [reflexivity | intros msg; discriminate] |].
  unfold try_except.
  match goal with
  | |- context [get_db_connection ?m s] =>
      destruct (get_db_connection_casos m s)
        as [(msg & s' & -> & Hd) | (s1 & Hd & _ & _ & ->)];
        [split; [exact Hd | intros m0; discriminate] |];
        assert (Hb : match m s1 with
                     | (Ok v, s2) => snd v = "warning" /\ duravel s2 = duravel s1
                     | (Raise e, s2) => duravel s2 = duravel s1
                     end);
        [| destruct (m s1) as [[v | e] s2]]
  end.
  - unfold bind at 1.
    pose proof (execute_duravel (sel_cpf RealDictCursor cpf) s1) as H1.
    destruct (execute (sel_cpf RealDictCursor cpf) s1) as [[r | e] s2];
      cbn [snd] in H1; [| exact H1].
    destruct r as [l |]; [split; [reflexivity | exact H1] |].
    unfold bind at 1.
    pose proof (obter_ou_criar_duravel RealDictCursor nome_empresa cnpj s2) as H2.
    destruct (obter_ou_criar_nunca_retorna nome_empresa cnpj s2) as (e & s3 & He).
    rewrite He in *. cbn [snd] in H2. congruence.
  - cbn [fst snd]. destruct Hb as [Hv Hd2]. rewrite close_duravel.
    split; [congruence |]. intros msg Hm. injection Hm as ->. discriminate Hv.
  - cbn [fst snd].
    destruct (is_psycopg2_error e); unfold ret; rewrite close_duravel;
      (split; [congruence | intros msg; discriminate]).
Qed.

(** [adicionar_funcionario] never changes the committed tables and never
    answers "success", whatever it is given and whatever the store does: an
    id that is not on file leads to the lookup of the company, which does
    not return on the dictionary rows of the connection. *)
Theorem adicionar_funcionario_nunca_grava (sha : string -> string)
  (codigo nome nome_empresa : string) (cnpj : option string) (cpf : string)
  (cod_tipo tipo filial : option string) (s : estado) :
  duravel (snd (adicionar_funcionario sha codigo nome nome_empresa cnpj cpf
                  cod_tipo tipo filial s)) = duravel s
  /\ forall msg,
       fst (adicionar_funcionario sha codigo nome nome_empresa cnpj cpf
              cod_tipo tipo filial s) <> Ok (msg, "success").
Proof.
  pose proof (adicionar_funcionario_par sha codigo nome nome_empresa cnpj cpf
                cod_tipo tipo filial s) as Hp.
  destruct (adicionar_funcionario sha codigo nome nome_empresa cnpj cpf
              cod_tipo tipo filial s) as [r s'].
  exact Hp.
Qed.










(** * Failures of the store, wherever they strike *)

Lemma sem_falha_refl (o : list (option string)) : sem_falha o o.
Proof. exists 0%nat. reflexivity. Qed.

Lemma sem_falha_trans (o1 o2 o3 : list (option string)) :
  sem_falha o1 o2 -> sem_falha o2 o3 -> sem_falha o1 o3.
Proof.
  intros [k1 ->] [k2 ->]. exists (k1 + k2)%nat.
  rewrite repeat_app, <- app_assoc. reflexivity.
Qed.

Lemma falha_apos (o1 o2 o3 : list (option string)) (msg : string) :
  sem_falha o1 o2 -> falha_encontrada o2 o3 msg -> falha_encontrada o1 o3 msg.
Proof.
  intros [k1 ->] [k2 ->]. exists (k1 + k2)%nat.
  rewrite repeat_app, <- app_assoc. reflexivity.
Qed.

Lemma consulta_oraculo_uso (s : estado) :
  match consulta_oraculo s with
  | (Some msg, s1) => falha_encontrada (oraculo s) (oraculo s1) msg
  | (None, s1) => sem_falha (oraculo s) (oraculo s1)
  end.
Proof.
  unfold consulta_oraculo. destruct (oraculo s) as [| [msg |] r] eqn:Ho.
  - rewrite Ho. apply sem_falha_refl.
  - exists 0%nat. reflexivity.
  - exists 1%nat. reflexivity.
Qed.

Lemma passo_desloca {A} (s s1 : estado) (rs : resultado A * estado) :
  sem_falha (oraculo s) (oraculo s1) -> passo s1 rs -> passo s rs.
Proof.
  intros Hs. unfold passo. destruct rs as [[a | e] s2].
  - intros [Ha H2]. split; [exact Ha | exact (sem_falha_trans _ _ _ Hs H2)].
  - destruct e; first [exact (falha_apos _ _ _ _ Hs)
                      | exact (sem_falha_trans _ _ _ Hs)].
Qed.


Lemma passo_ret {A} (a : A) (s : estado) :
  abortada s = false -> passo s (ret a s).
Proof. intros Ha. split; [exact Ha | apply sem_falha_refl]. Qed.


(** A statement that the store does not refuse, on a live transaction. *)
Lemma passo_execute {A} (q : comando A) (s : estado) :
  abortada s = false ->
  (forall b, exists a b', q b = inr (a, b')) ->
  passo s (execute q s).
Proof.
  intros Ha Hq. unfold execute.
  pose proof (consulta_oraculo_uso s) as Hu.
  destruct (consulta_oraculo_campos s) as (_ & _ & Hab & _).
  destruct (consulta_oraculo s) as [[msg |] s1]; cbn [snd] in *.
  - exact Hu.
  - rewrite Hab, Ha. destruct (Hq (transacao s1)) as (a & b' & ->).
    split; [reflexivity | exact Hu].
Qed.

Lemma passo_commit (s : estado) : passo s (commit s).
Proof.
  unfold commit. pose proof (consulta_oraculo_uso s) as Hu.
  destruct (consulta_oraculo s) as [[msg |] s1]; [exact Hu |].
  destruct (abortada s1); split; try reflexivity; exact Hu.
Qed.

(** A [with get_db_connection()] block whose body keeps to [passo]. *)
Lemma passo_get_db_connection {A} (m : M A) (s : estado) :
  (forall s1, abortada s1 = false -> passo s1 (m s1)) ->
  passo s (get_db_connection m s).
Proof.
  intros Hm. unfold get_db_connection, connect.
  pose proof (consulta_oraculo_uso s) as Hu.
  destruct (consulta_oraculo s) as [[msg |] s1]; [exact Hu |].
  specialize (Hm (com_transacao s1 (duravel s1) false) eq_refl).
  apply (passo_desloca s (com_transacao s1 (duravel s1) false)); [exact Hu |].
  destruct (m _) as [[a | e] s2]; unfold passo in *.
  - destruct Hm as [_ Hs]. split; [reflexivity | exact Hs].
  - destruct e; exact Hm.
Qed.

Lemma passo_bloco_observacao (id : string) (obs : option string) (s : estado) :
  abortada s = false -> passo s (bloco_observacao id obs s).
Proof.
  intros Ha. unfold bloco_observacao. destruct obs as [o |].
  - apply passo_execute; [exact Ha |]. intros b. do 2 eexists. reflexivity.
  - apply passo_ret. exact Ha.
Qed.













(** The commit of the import stands in no handler either: on the example
    sheet, a store that fails at the commit makes the import leave with the
    exception of the driver. *)
Example importacao_falha_na_confirmacao :
  fst (importar_funcionarios_em_massa (fun x => x) planilha_exemplo
         (mk_estado (duravel estado_importacao) (duravel estado_importacao)
            false (seq_empresas estado_importacao)
            [None; None; None; None; None; None;
             Some "server closed the connection"]))
  = Raise (Psycopg2Error "server closed the connection").
Proof. vm_compute. reflexivity. Qed.


